(** * Wildfire detection app: the satellite-image acquisition route and the
      prediction call of the page

    A shallow embedding of

    - the [sentinel-image] route ([getNextFilename], [downloadImage],
      [POST] with its inner [fetchImage]),
    - the page's [fetchSentinelImage], [runWildfireDetection] and
      [handleRecalculate], and
    - of the carbon-footprint app, [generateRecommendations] and the
      status of the [predict] route, the colour of the result card, the
      [handleToggle] of the multi-select, the [handleChange] of the form
      and the [handleFormSubmit] of its page,

    together with the parts of the JavaScript runtime they rely on
    (numbers, [Math.min]/[Math.max], string-to-number coercion, [parseInt],
    number-to-string conversion, base64), followed by the properties of the
    pipeline that are established about them. *)

From Stdlib Require Import ZArith List Bool Lia.
From Stdlib Require Import Strings.Byte.
From Stdlib Require Ascii String.
Import Ascii (ascii(..)).
Import (notations) Ascii.
From Stdlib Require Import SpecFloat.
From stdpp Require Import base option list gmap strings fin_maps.

Local Open Scope Z_scope.

(** ** JavaScript numbers

    A JavaScript number is an IEEE 754 binary64 value.  We use the
    specification of floating-point numbers of the standard library:
    [S754_zero s], [S754_infinity s], [S754_nan] and
    [S754_finite s m e] (the value [(-1)^s * m * 2^e]). *)

Module JsNumber.

Abbreviation Number := spec_float.

Definition prec : Z := 53.
Definition emax : Z := 1024.

Definition NaN : Number := S754_nan.
Definition pInfinity : Number := S754_infinity false.
Definition nInfinity : Number := S754_infinity true.
Definition pZero : Number := S754_zero false.
Definition nZero : Number := S754_zero true.

(** The number nearest to the integer [z] (ties to even). *)
Definition of_Z (z : Z) : Number := binary_normalize prec emax z 0 false.

(** The number nearest to [n / d], for [d > 0] (ties to even). *)
Definition of_ratio (neg : bool) (n d : positive) : Number :=
  SFdiv prec emax (S754_finite neg n 0) (S754_finite false d 0).

Definition isNaN (x : Number) : bool :=
  match x with S754_nan => true | _ => false end.

(** [Number.isFinite]: neither NaN nor an infinity. *)
Definition isFinite (x : Number) : bool :=
  match x with
  | S754_zero _ | S754_finite _ _ _ => true
  | S754_infinity _ | S754_nan => false
  end.

Definition is_pZero (x : Number) : bool :=
  match x with S754_zero false => true | _ => false end.
Definition is_nZero (x : Number) : bool :=
  match x with S754_zero true => true | _ => false end.

(** Two numbers are the same value (NaN being one value). *)
Definition same_number (x y : Number) : bool :=
  match x, y with
  | S754_nan, S754_nan => true
  | S754_zero s, S754_zero t => Bool.eqb s t
  | S754_infinity s, S754_infinity t => Bool.eqb s t
  | S754_finite s m e, S754_finite t n f =>
      Bool.eqb s t && Pos.eqb m n && Z.eqb e f
  | _, _ => false
  end.

Definition ltb (x y : Number) : bool := SFltb x y.
Definition leb (x y : Number) : bool := SFleb x y.

(** [Math.min(...args)] on already coerced arguments: start from
    [+Infinity]; a NaN argument makes the result NaN; [-0] is below [+0]. *)
Fixpoint min_loop (lowest : Number) (args : list Number) : Number :=
  match args with
  | [] => lowest
  | x :: rest =>
      if isNaN x then NaN
      else if is_nZero x && is_pZero lowest then min_loop nZero rest
      else if ltb x lowest then min_loop x rest
      else min_loop lowest rest
  end.

Definition Math_min (args : list Number) : Number := min_loop pInfinity args.

(** [Math.max(...args)]: start from [-Infinity]; [+0] is above [-0]. *)
Fixpoint max_loop (highest : Number) (args : list Number) : Number :=
  match args with
  | [] => highest
  | x :: rest =>
      if isNaN x then NaN
      else if is_pZero x && is_nZero highest then max_loop pZero rest
      else if ltb highest x then max_loop x rest
      else max_loop highest rest
  end.

Definition Math_max (args : list Number) : Number := max_loop nInfinity args.

End JsNumber.

Import JsNumber.

(** ** JavaScript strings

    A string is a sequence of code units; we use the strings of the standard
    library, one [ascii] per code unit (code units above 255 are outside the
    model).  The functions below are the [String.prototype] methods the
    program calls. *)

Module JsString.

(** White space and line terminators among the code units below 256:
    TAB, LF, VT, FF, CR, SP and NBSP. *)
Definition is_whitespace (c : ascii) : bool :=
  let n := Ascii.N_of_ascii c in
  existsb (N.eqb n) [9; 10; 11; 12; 13; 32; 160]%N.

Fixpoint trimStart (s : string) : string :=
  match s with
  | String c rest => if is_whitespace c then trimStart rest else s
  | EmptyString => EmptyString
  end.

Definition trimEnd (s : string) : string :=
  String.rev (trimStart (String.rev s)).

Definition trim (s : string) : string := trimEnd (trimStart s).

(** [s.startsWith(p)] *)
Definition startsWith (s p : string) : bool := String.prefix p s.

(** [s.endsWith(p)] *)
Definition endsWith (s p : string) : bool :=
  let ls := String.length s in
  let lp := String.length p in
  (lp <=? ls)%nat && String.eqb (String.substring (ls - lp) lp s) p.

(** [s.replace(pat, rep)] for a string pattern: the first occurrence of
    [pat] only.  (The replacement strings of the program contain no [$]
    pattern.) *)
Definition replace (s pat rep : string) : string :=
  match String.index 0 pat s with
  | Some i =>
      String.substring 0 i s +:+ rep +:+
      String.substring (i + String.length pat)
                       (String.length s - (i + String.length pat)) s
  | None => s
  end.

(** [s.split(sep)] for a separator of one code unit. *)
Fixpoint split_go (sep : ascii) (cur : string) (s : string) : list string :=
  match s with
  | EmptyString => [String.rev cur]
  | String c rest =>
      if Ascii.eqb c sep then String.rev cur :: split_go sep EmptyString rest
      else split_go sep (String c cur) rest
  end.

Definition split (s : string) (sep : ascii) : list string :=
  split_go sep EmptyString s.

(** The value of a digit in the given radix (at most 36). *)
Definition digit_value (radix : Z) (c : ascii) : option Z :=
  let n := Z.of_N (Ascii.N_of_ascii c) in
  let v :=
    if (48 <=? n) && (n <=? 57) then Some (n - 48)
    else if (97 <=? n) && (n <=? 122) then Some (n - 97 + 10)
    else if (65 <=? n) && (n <=? 90) then Some (n - 65 + 10)
    else None in
  match v with
  | Some d => if d <? radix then Some d else None
  | None => None
  end.

(** The longest prefix of digits of [s], as the integer it denotes in the
    given radix together with the number of digits, and the rest of [s]. *)
Fixpoint digits_go (radix : Z) (acc : Z) (len : Z) (s : string)
  : Z * Z * string :=
  match s with
  | EmptyString => (acc, len, s)
  | String c rest =>
      match digit_value radix c with
      | Some d => digits_go radix (acc * radix + d) (len + 1) rest
      | None => (acc, len, s)
      end
  end.

Definition digits (radix : Z) (s : string) : Z * Z * string :=
  digits_go radix 0 0 s.

Definition digit_char (d : Z) : ascii :=
  Ascii.ascii_of_N (Z.to_N (48 + d)).

(** The decimal numeral of a non-negative integer, most significant digit
    first. *)
Fixpoint decimal_go (fuel : nat) (z : Z) (acc : string) : string :=
  let acc' := String (digit_char (z mod 10)) acc in
  match fuel with
  | O => acc'
  | S fuel' => if z / 10 =? 0 then acc' else decimal_go fuel' (z / 10) acc'
  end.

Definition decimal (z : Z) : string :=
  decimal_go (Z.to_nat (Z.log2 z)) z EmptyString.

(** The decimal numeral of an integer, with a minus sign when negative. *)
Definition decimal_int (z : Z) : string :=
  if z <? 0 then "-" +:+ decimal (- z) else decimal z.

End JsString.

Import JsString.

(** ** String-to-number coercion ([StringToNumber])

    The value of a string as a [StringNumericLiteral]: optional white space
    around an optional literal, which is [Infinity] with an optional sign, a
    binary, octal or hexadecimal integer literal, or a signed decimal literal
    with optional fraction and exponent.  Everything else is NaN; the empty
    literal is [+0].  The mathematical value is rounded to the nearest
    number, ties to even. *)

Module JsConversion.

Definition read_sign (s : string) : bool * string :=
  match s with
  | String "-"%char rest => (true, rest)
  | String "+"%char rest => (false, rest)
  | _ => (false, s)
  end.

(** [ExponentPart], optional, up to the end of the string. *)
Definition read_exponent (s : string) : option Z :=
  match s with
  | EmptyString => Some 0
  | String c rest =>
      if Ascii.eqb c "e" || Ascii.eqb c "E" then
        let '(neg, r1) := read_sign rest in
        let '(v, len, r2) := digits 10 r1 in
        if (0 <? len) && String.eqb r2 EmptyString
        then Some (if neg then - v else v)
        else None
      else None
  end.

(** The number nearest to [(-1)^neg * m * 10^e], for [0 <= m]. *)
Definition round_decimal (neg : bool) (m e : Z) : Number :=
  if m =? 0 then S754_zero neg
  else if 0 <=? e then of_Z (cond_Zopp neg (m * 10 ^ e))
  else of_ratio neg (Z.to_pos m) (Z.to_pos (10 ^ (- e))).

Definition StrUnsignedDecimalLiteral (neg : bool) (s : string) : Number :=
  let '(ip, ilen, r1) := digits 10 s in
  let '(fp, flen, r2) :=
    match r1 with
    | String "."%char rest => digits 10 rest
    | _ => (0, 0, r1)
    end in
  if ilen + flen =? 0 then NaN
  else
    match read_exponent r2 with
    | Some ex => round_decimal neg (ip * 10 ^ flen + fp) (ex - flen)
    | None => NaN
    end.

Definition StrDecimalLiteral (s : string) : Number :=
  let '(neg, rest) := read_sign s in
  if String.eqb rest "Infinity" then S754_infinity neg
  else StrUnsignedDecimalLiteral neg rest.

(** [0b...], [0o...], [0x...]: at least one digit, nothing after. *)
Definition NonDecimalIntegerLiteral (radix : Z) (ds : string) : Number :=
  let '(v, len, rest) := digits radix ds in
  if (0 <? len) && String.eqb rest EmptyString then of_Z v else NaN.

Definition StringToNumber (s : string) : Number :=
  match trim s with
  | EmptyString => pZero
  | String "0"%char (String c ds) as literal =>
      if Ascii.eqb c "x" || Ascii.eqb c "X" then NonDecimalIntegerLiteral 16 ds
      else if Ascii.eqb c "o" || Ascii.eqb c "O" then NonDecimalIntegerLiteral 8 ds
      else if Ascii.eqb c "b" || Ascii.eqb c "B" then NonDecimalIntegerLiteral 2 ds
      else StrDecimalLiteral literal
  | literal => StrDecimalLiteral literal
  end.

End JsConversion.

Import JsConversion.

(** ** Exceptions

    Every exception the program can observe is an [Error] object, of which
    the handlers read the [message] only. *)

Record Error : Type := mkError { message : string }.

Inductive Completion (A : Type) : Type :=
| Normal (a : A)
| Throw (e : Error).
Arguments Normal {A} a.
Arguments Throw {A} e.

(** ** JSON values, as [JSON.parse] and [Response.json()] produce them

    [undefined] (a missing property) is [None] in [option value].  An
    object is the list of its own properties; a later binding of a key
    overrides an earlier one. *)

Module Json.

#[local] Set Warnings "-register-all".

Inductive value : Type :=
| JNull
| JBool (b : bool)
| JNumber (x : Number)
| JString (s : string)
| JArray (elements : list value)
| JObject (props : list (string * value)).

Fixpoint lookup (key : string) (props : list (string * value)) : option value :=
  match props with
  | [] => None
  | (k, v) :: rest =>
      match lookup key rest with
      | Some v' => Some v'
      | None => if String.eqb k key then Some v else None
      end
  end.

Definition has_key (key : string) (props : list (string * value)) : bool :=
  existsb (fun kv => String.eqb (fst kv) key) props.

(** Property access [v.key], for a key that no prototype defines (as the
    keys of the program: [lat1], ..., [access_token], [error]).  Reading a
    property of [null] or [undefined] throws a TypeError. *)
Definition get (v : option value) (key : string) : Completion (option value) :=
  match v with
  | None =>
      Throw (mkError ("Cannot read properties of undefined (reading '" +:+ key +:+ "')"))
  | Some JNull =>
      Throw (mkError ("Cannot read properties of null (reading '" +:+ key +:+ "')"))
  | Some (JObject props) => Normal (lookup key props)
  | Some _ => Normal None
  end.

(** [ToBoolean]: the falsy values are [undefined], [null], [false], [+0],
    [-0], NaN and the empty string. *)
Definition ToBoolean (v : option value) : bool :=
  match v with
  | None | Some JNull => false
  | Some (JBool b) => b
  | Some (JNumber x) =>
      match x with
      | S754_zero _ | S754_nan => false
      | _ => true
      end
  | Some (JString s) => negb (String.eqb s EmptyString)
  | Some (JArray _) | Some (JObject _) => true
  end.

(** Converting an object to a primitive calls its [toString]; an own
    property of that name (which, coming from JSON, is never callable)
    hides [Object.prototype.toString] and the conversion throws.  Arrays
    convert their elements in turn. *)
Fixpoint toString_throws (v : value) : bool :=
  match v with
  | JArray elements => existsb toString_throws elements
  | JObject props => has_key "toString" props
  | _ => false
  end.

Definition cannot_convert : Error :=
  mkError "Cannot convert object to primitive value".

(** Whether [ToString] throws; [undefined] converts. *)
Definition ToString_throws (v : option value) : bool :=
  match v with
  | Some v => toString_throws v
  | None => false
  end.

(** [ToNumber] of a value that converts without throwing.  A plain object
    becomes ["[object Object]"], hence NaN.  An array becomes the join of
    its elements with [","]: the empty string for no element ([+0]), a
    string with a comma for two or more (NaN), and for one element the
    string of that element, where [null] gives the empty string and a
    number [x] gives a numeral that reads back as [x] ([-0] as ["0"]). *)
Fixpoint ToNumber_value (v : value) : Number :=
  match v with
  | JNull => pZero
  | JBool true => of_Z 1
  | JBool false => pZero
  | JNumber x => x
  | JString s => StringToNumber s
  | JObject _ => NaN
  | JArray [] => pZero
  | JArray [e] =>
      match e with
      | JNull => pZero
      | JBool _ => NaN
      | JNumber x => if is_nZero x then pZero else x
      | JString s => StringToNumber s
      | JObject _ => NaN
      | JArray _ => ToNumber_value e
      end
  | JArray (_ :: _ :: _) => NaN
  end.

(** [ToNumber]; [undefined] is NaN. *)
Definition ToNumber (v : option value) : Completion Number :=
  match v with
  | None => Normal NaN
  | Some v =>
      if toString_throws v then Throw cannot_convert
      else Normal (ToNumber_value v)
  end.

End Json.

(** ** Integer-valued numbers

    The numbers that [getNextFilename] computes with are the results of
    [parseInt] and what [Math.max] and [+ 1] make of them: NaN, the
    infinities, [-0], and numbers whose value is an integer.  We carry such
    a number by its exact value: [Int z] is the number of value [z], which
    must be representable ([Int 0] is [+0]).  Rounding an integer to the
    nearest number is the identity up to [2^53] and that of the binary64
    format beyond. *)

Module JsInteger.

Inductive IntNumber : Type :=
| INaN
| NegZero
| Int (z : Z)
| Inf (neg : bool).

Definition two53 : Z := 2 ^ 53.

(** The number nearest to the integer [z] (ties to even). *)
Definition of_Z (z : Z) : IntNumber :=
  if Z.abs z <=? two53 then Int z
  else
    match JsNumber.of_Z z with
    | S754_finite s m e => Int (cond_Zopp s (Z.pos m * 2 ^ e))
    | S754_infinity s => Inf s
    | S754_zero _ => Int 0
    | S754_nan => INaN
    end.

(** The same number as a binary64 value. *)
Definition to_Number (x : IntNumber) : Number :=
  match x with
  | INaN => NaN
  | NegZero => nZero
  | Int z => JsNumber.of_Z z
  | Inf neg => S754_infinity neg
  end.

Definition isNaN (x : IntNumber) : bool :=
  match x with INaN => true | _ => false end.

(** [x < y] *)
Definition ltb (x y : IntNumber) : bool :=
  match x, y with
  | INaN, _ | _, INaN => false
  | Inf true, Inf true => false
  | Inf true, _ => true
  | _, Inf true => false
  | Inf false, _ => false
  | _, Inf false => true
  | NegZero, NegZero => false
  | NegZero, Int b => 0 <? b
  | Int a, NegZero => a <? 0
  | Int a, Int b => a <? b
  end.

(** [Math.max(...args)], as [JsNumber.Math_max].  (The limit of the engine
    on the number of arguments of a call is outside the model.) *)
Fixpoint max_loop (highest : IntNumber) (args : list IntNumber) : IntNumber :=
  match args with
  | [] => highest
  | x :: rest =>
      match x, highest with
      | INaN, _ => INaN
      | Int 0, NegZero => max_loop (Int 0) rest
      | _, _ => if ltb highest x then max_loop x rest else max_loop highest rest
      end
  end.

Definition Math_max (args : list IntNumber) : IntNumber :=
  max_loop (Inf true) args.

(** [x + y]: the exact sum, rounded. *)
Definition add (x y : IntNumber) : IntNumber :=
  match x, y with
  | INaN, _ | _, INaN => INaN
  | Inf a, Inf b => if Bool.eqb a b then Inf a else INaN
  | Inf a, _ => Inf a
  | _, Inf b => Inf b
  | NegZero, NegZero => NegZero
  | NegZero, Int b => Int b
  | Int a, NegZero => Int a
  | Int a, Int b => of_Z (a + b)
  end.

(** [parseInt(s)] without a radix: leading white space is skipped, then
    an optional sign, then [0x] or [0X] selects radix 16, then the longest
    run of digits is read.  [parse_integer] gives the sign and the integer
    the digits denote, or [None] when there is no digit. *)
Definition parse_integer (s : string) : option (bool * Z) :=
  let '(neg, s1) := read_sign (trimStart s) in
  let '(radix, s2) :=
    match s1 with
    | String "0"%char (String c rest) =>
        if Ascii.eqb c "x" || Ascii.eqb c "X" then (16, rest) else (10, s1)
    | _ => (10, s1)
    end in
  let '(mathInt, len, _) := digits radix s2 in
  if len =? 0 then None else Some (neg, mathInt).

Definition parseInt (s : string) : IntNumber :=
  match parse_integer s with
  | None => INaN
  | Some (neg, mathInt) =>
      if mathInt =? 0 then (if neg then NegZero else Int 0)
      else of_Z (cond_Zopp neg mathInt)
  end.

(** *** [Number::toString] in radix 10 *)

Definition rounds_to (z v : Z) : bool :=
  match of_Z v with Int z' => z' =? z | _ => false end.

(** The integer with [k] significant digits (then zeros) that reads back
    as [z] and is nearest to [z], if there is one; [d] is the number of
    digits of [z]. *)
Definition shortest_at (z d k : Z) : option Z :=
  let p := 10 ^ (d - k) in
  let lo := z / p in
  let vlo := lo * p in
  let vhi := (lo + 1) * p in
  match rounds_to z vlo, rounds_to z vhi with
  | true, true =>
      if z - vlo <? vhi - z then Some vlo
      else if vhi - z <? z - vlo then Some vhi
      else if Z.even lo then Some vlo else Some vhi
  | true, false => Some vlo
  | false, true => Some vhi
  | false, false => None
  end.

Fixpoint shortest_go (fuel : nat) (z d k : Z) : Z :=
  match fuel with
  | O => z
  | S fuel' =>
      match shortest_at z d k with
      | Some v => v
      | None => shortest_go fuel' z d (k + 1)
      end
  end.

(** The decimal integer with the fewest significant digits that reads
    back as [z], for [0 < z]. *)
Definition shortest (z : Z) : Z :=
  let d := Z.of_nat (String.length (decimal z)) in
  shortest_go (Z.to_nat d) z d 1.

Fixpoint strip_zeros (rev_digits : string) : string :=
  match rev_digits with
  | String "0"%char rest => strip_zeros rest
  | _ => rev_digits
  end.

(** The numeral of a positive integer-valued number: plain digits below
    [10^21], scientific notation from there on. *)
Definition toString_pos (z : Z) : string :=
  if z <=? two53 then decimal z
  else
    let v := decimal (shortest z) in
    let n := Z.of_nat (String.length v) in
    if n <=? 21 then v
    else
      match String.rev (strip_zeros (String.rev v)) with
      | String c EmptyString => String c ("e+" +:+ decimal (n - 1))
      | String c more => String c ("." +:+ more +:+ "e+" +:+ decimal (n - 1))
      | EmptyString => v
      end.

(** [String(x)], the conversion a template literal applies. *)
Definition toString (x : IntNumber) : string :=
  match x with
  | INaN => "NaN"
  | NegZero => "0"
  | Int z =>
      if z =? 0 then "0"
      else if z <? 0 then "-" +:+ toString_pos (- z)
      else toString_pos z
  | Inf neg => if neg then "-Infinity" else "Infinity"
  end.

End JsInteger.

(** ** Buffers and base64

    A [Buffer] is a list of bytes.  [Buffer.from(buf).toString("base64")]
    writes the standard alphabet with [=] padding.
    [Buffer.from(s, "base64")] reads both the standard and the URL-safe
    alphabet, skips every other character, and stops at the first [=]. *)

Module Base64.

Definition alphabet : string :=
  "ABCDEFGHIJKLMNOPQRSTUVWXYZabcdefghijklmnopqrstuvwxyz0123456789+/".

Definition b64char (v : Z) : ascii :=
  match String.get (Z.to_nat v) alphabet with
  | Some c => c
  | None => "="%char
  end.

(** The value of a character of either alphabet. *)
Definition unbase64 (c : ascii) : option Z :=
  let n := Z.of_N (Ascii.N_of_ascii c) in
  if (65 <=? n) && (n <=? 90) then Some (n - 65)
  else if (97 <=? n) && (n <=? 122) then Some (n - 97 + 26)
  else if (48 <=? n) && (n <=? 57) then Some (n - 48 + 52)
  else if (n =? 43) || (n =? 45) then Some 62
  else if (n =? 47) || (n =? 95) then Some 63
  else None.

Definition byte_to_Z (b : byte) : Z := Z.of_N (Byte.to_N b).

Definition byte_of_Z (z : Z) : byte :=
  match Byte.of_N (Z.to_N (z mod 256)) with
  | Some b => b
  | None => x00
  end.

(** [buf.toString("base64")] *)
Fixpoint encode (buf : list byte) : string :=
  match buf with
  | [] => EmptyString
  | [a] =>
      let a := byte_to_Z a in
      String (b64char (a / 4))
        (String (b64char (a mod 4 * 16)) "==")
  | [a; b] =>
      let a := byte_to_Z a in
      let b := byte_to_Z b in
      String (b64char (a / 4))
        (String (b64char (a mod 4 * 16 + b / 16))
          (String (b64char (b mod 16 * 4)) "="))
  | a :: b :: c :: rest =>
      let a := byte_to_Z a in
      let b := byte_to_Z b in
      let c := byte_to_Z c in
      String (b64char (a / 4))
        (String (b64char (a mod 4 * 16 + b / 16))
          (String (b64char (b mod 16 * 4 + c / 64))
            (String (b64char (c mod 64)) (encode rest))))
  end.

(** The six-bit values of the legal characters before the first [=]. *)
Fixpoint sextets (s : string) : list Z :=
  match s with
  | EmptyString => []
  | String c rest =>
      if Ascii.eqb c "=" then []
      else
        match unbase64 c with
        | Some v => v :: sextets rest
        | None => sextets rest
        end
  end.

Fixpoint bytes_of_sextets (vs : list Z) : list byte :=
  match vs with
  | a :: b :: c :: d :: rest =>
      byte_of_Z (a * 4 + b / 16)
      :: byte_of_Z (b mod 16 * 16 + c / 4)
      :: byte_of_Z (c mod 4 * 64 + d)
      :: bytes_of_sextets rest
  | [a; b; c] =>
      [byte_of_Z (a * 4 + b / 16); byte_of_Z (b mod 16 * 16 + c / 4)]
  | [a; b] => [byte_of_Z (a * 4 + b / 16)]
  | _ => []
  end.

(** [Buffer.from(s, "base64")] *)
Definition decode (s : string) : list byte := bytes_of_sextets (sextets s).

End Base64.

(** ** HTTP responses

    What the program reads of the response of a [fetch]: the status, and
    the body through [text()], [json()] (which rejects when the body is not
    valid JSON) or [arrayBuffer()]. *)

Module Http.

Record Response : Type := mkResponse {
  status : Z;
  text : string;
  json : Completion Json.value;
  arrayBuffer : list byte
}.

(** [res.ok]: a status in the range 200-299. *)
Definition ok (res : Response) : bool :=
  (200 <=? status res) && (status res <=? 299).

End Http.

(** ** The [sentinel-image] route *)

Module Route.

Import Json.

(** The requests the route sends to the imagery provider: the token
    exchange with the client credentials, and the image-processing request
    with the bearer token, the bounding box and the evaluation script. *)
Inductive Outbound : Type :=
| TokenRequest (client_id client_secret : option string)
| ProcessRequest (access_token : option value) (bbox : list Number)
                 (evalscript : string).

(** The environment of a run: the credentials of [process.env] and the
    outcome of each [fetch] (a response, or a rejection). *)
Record Env : Type := mkEnv {
  SENTINELHUB_CLIENT_ID : option string;
  SENTINELHUB_CLIENT_SECRET : option string;
  fetch : Outbound -> Completion Http.Response
}.

(** The state a run acts on: the directory [public/sentinel] ([None] when
    it does not exist, else its files by name), and the requests sent so
    far, oldest first. *)
Record World : Type := mkWorld {
  sentinel : option (gmap string (list byte));
  sent : list Outbound
}.

(** Computations that read and write the world and may throw. *)
Definition M (A : Type) : Type := World -> Completion A * World.

Definition ret {A} (a : A) : M A := fun w => (Normal a, w).
Definition throw {A} (e : Error) : M A := fun w => (Throw e, w).
Definition bind {A B} (m : M A) (k : A -> M B) : M B :=
  fun w =>
    match m w with
    | (Normal a, w') => k a w'
    | (Throw e, w') => (Throw e, w')
    end.
Definition lift {A} (c : Completion A) : M A := fun w => (c, w).

#[export] Instance M_ret : MRet M := @ret.
#[export] Instance M_bind : MBind M := fun A B k m => bind m k.

(** *** The file system

    A file system that works: a call fails only where the directory it
    needs is missing.  Failures for lack of space or of permission, and
    input/output errors, are outside the model. *)

(** [fs.existsSync(dir)] *)
Definition existsSync_dir : M bool :=
  fun w => (Normal (bool_decide (is_Some (sentinel w))), w).

(** [fs.mkdirSync(dir, { recursive: true })] *)
Definition mkdirSync : M unit :=
  fun w =>
    (Normal tt,
     match sentinel w with
     | Some _ => w
     | None => mkWorld (Some ∅) (sent w)
     end).

(** The names in the directory (none when it does not exist). *)
Definition entries (dir : option (gmap string (list byte))) : list string :=
  match dir with
  | Some files => map fst (map_to_list files)
  | None => []
  end.

(** The error of a file-system call on a directory that does not exist
    (the path, which depends on the working directory, is left out of the
    message). *)
Definition ENOENT (syscall : string) : Error :=
  mkError ("ENOENT: no such file or directory, " +:+ syscall).

(** [fs.readdirSync(dir)] *)
Definition readdirSync : M (list string) :=
  fun w =>
    match sentinel w with
    | Some _ => (Normal (entries (sentinel w)), w)
    | None => (Throw (ENOENT "scandir"), w)
    end.

(** [fs.writeFileSync(filePath, buffer)] for a file of the directory: the
    file is created, or replaced when it exists. *)
Definition writeFileSync (name : string) (buffer : list byte) : M unit :=
  fun w =>
    match sentinel w with
    | Some files => (Normal tt, mkWorld (Some (<[name := buffer]> files)) (sent w))
    | None => (Throw (ENOENT "open"), w)
    end.

Definition is_process_request (r : Outbound) : bool :=
  match r with
  | ProcessRequest _ _ _ => true
  | TokenRequest _ _ => false
  end.

(** [fetch]: the request is recorded and the environment answers. *)
Definition send (r : Outbound) (env : Env) : M Http.Response :=
  fun w => (fetch env r, mkWorld (sentinel w) (sent w ++ [r])).

(** *** [getNextFilename] *)

Definition matches (f : string) : bool :=
  startsWith f "true-color-" && endsWith f ".png".

Definition files_of (names : list string) : list string :=
  List.filter matches names.

Definition middle (f : string) : string :=
  replace (replace f "true-color-" EmptyString) ".png" EmptyString.

Definition numbers_of (names : list string) : list JsInteger.IntNumber :=
  List.filter (fun n => negb (JsInteger.isNaN n))
    (map (fun f => JsInteger.parseInt (middle f)) (files_of names)).

Definition next_of (names : list string) : JsInteger.IntNumber :=
  let numbers := numbers_of names in
  if (0 <? length numbers)%nat then JsInteger.add (JsInteger.Math_max numbers) (JsInteger.Int 1)
  else JsInteger.Int 1.

Definition filename_of (next : JsInteger.IntNumber) : string :=
  "true-color-" +:+ JsInteger.toString next +:+ ".png".

Definition getNextFilename : M string :=
  dir_exists ← existsSync_dir;
  (if dir_exists : bool then ret tt else mkdirSync);;
  names ← readdirSync;
  ret (filename_of (next_of names)).

(** *** [downloadImage] *)

Definition invalid_arg : Error :=
  mkError "The first argument must be of type string or an instance of Buffer, ArrayBuffer, or Array or an Array-like Object. Received undefined".

Definition downloadImage (imageBase64 filename : string) : M string :=
  match split imageBase64 "," !! 1%nat with
  | None => throw invalid_arg
  | Some payload =>
      let buffer := Base64.decode payload in
      dir_exists ← existsSync_dir;
      (if dir_exists : bool then ret tt else mkdirSync);;
      writeFileSync filename buffer;;
      ret ("/sentinel/" +:+ filename)
  end.

(** *** [POST] *)

Definition quote : string := String (Ascii.ascii_of_nat 34) EmptyString.

Definition evalscriptTrueColor : string :=
    "
      //VERSION=3
      function setup() {
        return { input: [" +:+ quote +:+ "B04" +:+ quote +:+ "," +:+ quote
      +:+ "B03" +:+ quote +:+ "," +:+ quote +:+ "B02" +:+ quote
      +:+ "], output: { bands: 3 } };
      }
      function evaluatePixel(s) {
        return [s.B04 * 2.5, s.B03 * 2.5, s.B02 * 2.5];
      }
    ".

(** The body of a response of the route, as given to [NextResponse.json]. *)
Inductive Body : Type :=
| Image (trueColorUrl filename : string) (bbox : list Number)
| Failed (error : string).

Record Response : Type := mkResponse { status : Z; body : Body }.

(** [Math.min(a, b)] and [Math.max(a, b)] on values: both arguments are
    coerced, in order. *)
Definition Math_min2 (a b : option value) : M Number :=
  x ← lift (ToNumber a);
  y ← lift (ToNumber b);
  ret (Math_min [x; y]).

Definition Math_max2 (a b : option value) : M Number :=
  x ← lift (ToNumber a);
  y ← lift (ToNumber b);
  ret (Math_max [x; y]).

(** The four properties read off the request body; destructuring [null]
    throws. *)
Definition destructure (data : value)
  : M (option value * option value * option value * option value) :=
  match data with
  | JNull =>
      throw (mkError "Cannot destructure property 'lat1' of '(intermediate value)' as it is null.")
  | JObject props =>
      ret (lookup "lat1" props, lookup "lon1" props,
           lookup "lat2" props, lookup "lon2" props)
  | _ => ret (None, None, None, None)
  end.

(** Lines 48-52: the bounding box [[minLon, minLat, maxLon, maxLat]]. *)
Definition bbox_of (lat1 lon1 lat2 lon2 : option value) : M (list Number) :=
  minLat ← Math_min2 lat1 lat2;
  maxLat ← Math_max2 lat1 lat2;
  minLon ← Math_min2 lon1 lon2;
  maxLon ← Math_max2 lon1 lon2;
  ret [minLon; minLat; maxLon; maxLat].

(** Lines 46-52: the request body is read and the bounding box computed;
    [request_json] is the outcome of [req.json()]. *)
Definition normalize (request_json : Completion value) : M (list Number) :=
  data ← lift request_json;
  '(lat1, lon1, lat2, lon2) ← destructure data;
  bbox_of lat1 lon1 lat2 lon2.

(** Lines 54-71: the token exchange. *)
Definition authenticate (env : Env) : M (option value) :=
  let CLIENT_ID := SENTINELHUB_CLIENT_ID env in
  let CLIENT_SECRET := SENTINELHUB_CLIENT_SECRET env in
  tokenRes ← send (TokenRequest CLIENT_ID CLIENT_SECRET) env;
  tokenData ← lift (Http.json tokenRes);
  access_token ← lift (get (Some tokenData) "access_token");
  if negb (ToBoolean access_token)
  then throw (mkError "Failed to authenticate with SentinelHub")
  else ret access_token.

(** Lines 84-118: the inner function [fetchImage]; building the
    [Authorization] header converts the token to a string. *)
Definition fetchImage (env : Env) (access_token : option value)
    (bbox : list Number) (evalscript : string) : M string :=
  (if ToString_throws access_token then throw cannot_convert else ret tt);;
  res ← send (ProcessRequest access_token bbox evalscript) env;
  if negb (Http.ok res) then throw (mkError (Http.text res))
  else
    let buf := Http.arrayBuffer res in
    ret ("data:image/png;base64," +:+ Base64.encode buf).

(** Lines 123-125: the image is cached under the next filename. *)
Definition cacheImage (imageBase64 : string) : M (string * string) :=
  filename ← getNextFilename;
  fileUrl ← downloadImage imageBase64 filename;
  ret (fileUrl, filename).

(** The [try] block of [POST]. *)
Definition POST_try (env : Env) (request_json : Completion value) : M Response :=
  bbox ← normalize request_json;
  access_token ← authenticate env;
  trueColorBase64 ← fetchImage env access_token bbox evalscriptTrueColor;
  '(fileUrl, filename) ← cacheImage trueColorBase64;
  ret (mkResponse 200 (Image fileUrl filename bbox)).

(** [POST]: whatever the [try] block throws becomes a response of status
    500 that carries the message. *)
Definition POST (env : Env) (request_json : Completion value)
  : World -> Response * World :=
  fun w =>
    match POST_try env request_json w with
    | (Normal res, w') => (res, w')
    | (Throw err, w') => (mkResponse 500 (Failed (message err)), w')
    end.

End Route.

(** ** The page: [fetchSentinelImage] and [runWildfireDetection] *)

Module Page.

Import Json.

(** What [alert] was called with. *)
Inductive Alert : Type :=
| AlertText (s : string)
| AlertValue (v : option value).

(** The state of the component [Home], with the alerts shown and the
    requests sent so far (oldest first).  [null] is [JNull]. *)
Record State : Type := mkState {
  result : value;
  isLoading : bool;
  trueColorUrl : option value;
  fetchingImage : bool;
  lat1 : string;
  lon1 : string;
  lat2 : string;
  lon2 : string;
  alerts : list Alert;
  requests : list (string * value)
}.

Definition setResult (v : value) (st : State) : State :=
  mkState v (isLoading st) (trueColorUrl st) (fetchingImage st)
          (lat1 st) (lon1 st) (lat2 st) (lon2 st) (alerts st) (requests st).
Definition setIsLoading (b : bool) (st : State) : State :=
  mkState (result st) b (trueColorUrl st) (fetchingImage st)
          (lat1 st) (lon1 st) (lat2 st) (lon2 st) (alerts st) (requests st).
Definition setTrueColorUrl (v : option value) (st : State) : State :=
  mkState (result st) (isLoading st) v (fetchingImage st)
          (lat1 st) (lon1 st) (lat2 st) (lon2 st) (alerts st) (requests st).
Definition setFetchingImage (b : bool) (st : State) : State :=
  mkState (result st) (isLoading st) (trueColorUrl st) b
          (lat1 st) (lon1 st) (lat2 st) (lon2 st) (alerts st) (requests st).
Definition alert (a : Alert) (st : State) : State :=
  mkState (result st) (isLoading st) (trueColorUrl st) (fetchingImage st)
          (lat1 st) (lon1 st) (lat2 st) (lon2 st) (alerts st ++ [a]) (requests st).
Definition record_request (url : string) (body : value) (st : State) : State :=
  mkState (result st) (isLoading st) (trueColorUrl st) (fetchingImage st)
          (lat1 st) (lon1 st) (lat2 st) (lon2 st) (alerts st)
          (requests st ++ [(url, body)]).

(** The outcome of [fetch(url, { method: "POST", body })]. *)
Definition Fetch : Type := string -> value -> Completion Http.Response.

Definition is_empty (s : string) : bool := String.eqb s EmptyString.

(** Lines 144-173. *)
Definition fetchSentinelImage (fetch : Fetch) (st : State) : State :=
  if is_empty (lat1 st) || is_empty (lon1 st)
     || is_empty (lat2 st) || is_empty (lon2 st)
  then alert (AlertText "Please enter all coordinates!") st
  else
    let st := setFetchingImage true st in
    let st := setTrueColorUrl (Some JNull) st in
    let st := setResult JNull st in
    let body :=
      JObject [("lat1", JString (lat1 st)); ("lon1", JString (lon1 st));
               ("lat2", JString (lat2 st)); ("lon2", JString (lon2 st))] in
    let st := record_request "/api/sentinel-image" body st in
    let failed := alert (AlertText "Failed to fetch satellite image") st in
    let st :=
      match fetch "/api/sentinel-image" body with
      | Throw _ => failed
      | Normal res =>
          match Http.json res with
          | Throw _ => failed
          | Normal data =>
              match get (Some data) "error" with
              | Throw _ => failed
              | Normal error =>
                  if ToBoolean error then alert (AlertValue error) st
                  else
                    match get (Some data) "trueColorUrl" with
                    | Throw _ => failed
                    | Normal url => setTrueColorUrl url st
                    end
              end
          end
      end in
    setFetchingImage false st.

(** The result set when the request fails:
    [{ error: "Failed to connect to prediction server" }]. *)
Definition connection_error : value :=
  JObject [("error", JString "Failed to connect to prediction server")].

(** Lines 176-201. *)
Definition runWildfireDetection (fetch : Fetch) (st : State) : State :=
  if negb (ToBoolean (trueColorUrl st))
  then alert (AlertText "Please fetch the satellite image first!") st
  else
    let st := setIsLoading true st in
    let st := setResult JNull st in
    let body :=
      JObject (match trueColorUrl st with
               | Some url => [("image_url", url)]
               | None => []
               end) in
    let st := record_request "http://localhost:5000/predict" body st in
    let failed := setResult connection_error st in
    let st :=
      match fetch "http://localhost:5000/predict" body with
      | Throw _ => failed
      | Normal res =>
          match Http.json res with
          | Throw _ => failed
          | Normal data => setResult data st
          end
      end in
    setIsLoading false st.

(** What the page renders of a result: the verdict card when the result
    is set and has no truthy [error], the error card when it has one. *)
Inductive Rendering : Type :=
| Nothing
| VerdictCard (label probability prediction : option value)
| ErrorCard (error : option value).

Definition lookup_field (key : string) (v : value) : option value :=
  match v with
  | JObject props => lookup key props
  | _ => None
  end.

Definition render (st : State) : Rendering :=
  if negb (ToBoolean (Some (result st))) then Nothing
  else if ToBoolean (lookup_field "error" (result st))
  then ErrorCard (lookup_field "error" (result st))
  else VerdictCard (lookup_field "label" (result st))
                   (lookup_field "probability" (result st))
                   (lookup_field "prediction" (result st)).

(** Lines 132-141: the state of the first rendering. *)
Definition initial : State :=
  mkState JNull false (Some JNull) false
          EmptyString EmptyString EmptyString EmptyString [] [].

(** The [onChange] handlers of the four inputs. *)
Definition setLat1 (v : string) (st : State) : State :=
  mkState (result st) (isLoading st) (trueColorUrl st) (fetchingImage st)
          v (lon1 st) (lat2 st) (lon2 st) (alerts st) (requests st).
Definition setLon1 (v : string) (st : State) : State :=
  mkState (result st) (isLoading st) (trueColorUrl st) (fetchingImage st)
          (lat1 st) v (lat2 st) (lon2 st) (alerts st) (requests st).
Definition setLat2 (v : string) (st : State) : State :=
  mkState (result st) (isLoading st) (trueColorUrl st) (fetchingImage st)
          (lat1 st) (lon1 st) v (lon2 st) (alerts st) (requests st).
Definition setLon2 (v : string) (st : State) : State :=
  mkState (result st) (isLoading st) (trueColorUrl st) (fetchingImage st)
          (lat1 st) (lon1 st) (lat2 st) v (alerts st) (requests st).

(** Lines 203-207. *)
Definition handleRecalculate (st : State) : State :=
  let st := setResult JNull st in
  setTrueColorUrl (Some JNull) st.

(** What the page shows of the image: [{trueColorUrl && <img ... />}],
    and with it the button that runs the analysis. *)
Definition image_shown (st : State) : bool := ToBoolean (trueColorUrl st).

(** What the user does, with the outcome of the request for the two
    buttons that send one.  A handler runs to its end before the next
    event is handled. *)
Inductive Event : Type :=
| ChangeLat1 (v : string)
| ChangeLon1 (v : string)
| ChangeLat2 (v : string)
| ChangeLon2 (v : string)
| ClickFetchImage (fetch : Fetch)
| ClickRunAnalysis (fetch : Fetch)
| ClickAnalyzeAgain.

Definition handle (st : State) (e : Event) : State :=
  match e with
  | ChangeLat1 v => setLat1 v st
  | ChangeLon1 v => setLon1 v st
  | ChangeLat2 v => setLat2 v st
  | ChangeLon2 v => setLon2 v st
  | ClickFetchImage fetch => fetchSentinelImage fetch st
  | ClickRunAnalysis fetch => runWildfireDetection fetch st
  | ClickAnalyzeAgain => handleRecalculate st
  end.

Definition handle_all (events : list Event) (st : State) : State :=
  fold_left handle events st.

End Page.

(** ** Predicates on the code units of a string *)

Module Chars.

(** Every code unit of the string satisfies [p]. *)
Fixpoint all_chars (p : ascii -> bool) (s : string) : bool :=
  match s with
  | EmptyString => true
  | String c rest => p c && all_chars p rest
  end.

Definition is_digit (c : ascii) : bool :=
  match digit_value 10 c with Some _ => true | None => false end.

Definition not_dot (c : ascii) : bool := negb (Ascii.eqb c ".").
Definition not_comma (c : ascii) : bool := negb (Ascii.eqb c ",").

End Chars.

(** ** The cache directory in the words of the specification

    The integer suffix of a directory entry is the integer that the [<n>]
    of [true-color-<n>.png] denotes; the next index is one more than the
    maximum suffix, or than 0 when no entry has one. *)

Module CacheSpec.

Import Route.

(** A number that stands for the integer [n] exactly: its value is [n]
    (or it is [-0] and [n] is 0), within the range in which numbers count
    integers one by one. *)
Definition stands_for (x : JsInteger.IntNumber) (n : Z) : Prop :=
  (x = JsInteger.Int n \/ (x = JsInteger.NegZero /\ n = 0)) /\ Z.abs n < 2 ^ 53.

(** The integer suffix of an entry, if it has one: the entry passes the
    filter of [getNextFilename] and what is left of its name after removing
    [true-color-] and [.png] starts with an integer. *)
Definition suffix (name : string) : option Z :=
  if matches name then
    match JsInteger.parse_integer (middle name) with
    | Some (neg, n) => Some (cond_Zopp neg n)
    | None => None
    end
  else None.

Definition suffixes (names : list string) : list Z := omap suffix names.

(** The maximum of a list of integers, or [default] for the empty list. *)
Definition maximum (default : Z) (ns : list Z) : Z :=
  match ns with
  | [] => default
  | n :: rest => fold_left Z.max rest n
  end.

Definition max_suffix (names : list string) : Z := maximum 0 (suffixes names).

(** [true-color-<max+1>.png] *)
Definition next_filename (names : list string) : string :=
  "true-color-" +:+ decimal_int (max_suffix names + 1) +:+ ".png".

(** Every suffix of the directory is an integer that JavaScript numbers
    count exactly: below [2^53] in magnitude. *)
Definition safe (names : list string) : Prop :=
  Forall (fun n => Z.abs n < 2 ^ 53) (suffixes names).

Definition safeb (names : list string) : bool :=
  forallb (fun n => Z.abs n <? 2 ^ 53) (suffixes names).

(** The files of the directory of a world (none when it does not exist). *)
Definition files (w : World) : gmap string (list byte) :=
  default ∅ (sentinel w).

(** A single caller that caches images one after the other; the filenames
    are returned in the order of the calls. *)
Fixpoint cacheImages (images : list string) : M (list string) :=
  match images with
  | [] => mret []
  | image :: rest =>
      '(_, filename) ← cacheImage image;
      filenames ← cacheImages rest;
      mret (filename :: filenames)
  end.

(** [true-color-<m+1>.png], ..., [true-color-<m+n>.png] *)
Fixpoint filenames_from (m : Z) (n : nat) : list string :=
  match n with
  | O => []
  | S n' =>
      ("true-color-" +:+ decimal_int (m + 1) +:+ ".png")
      :: filenames_from (m + 1) n'
  end.

End CacheSpec.


(** ** The route as the page reaches it

    [NextResponse.json(body, init)] serializes the body with
    [JSON.stringify]; the page reads it back with [res.json()]. *)

Module Api.

Import Json Route.

(** A number after [JSON.stringify] and [JSON.parse]: NaN and the
    infinities are written as [null], and [-0] as [0]. *)
Definition json_number (x : Number) : value :=
  if isFinite x then (if is_nZero x then JNumber pZero else JNumber x)
  else JNull.

(** What [res.json()] yields for the body of a response of the route:
    [{ trueColorUrl, filename, bbox }] (lines 127-131) or
    [{ error: err.message }] (line 135). *)
Definition body_json (b : Body) : value :=
  match b with
  | Image trueColorUrl filename bbox =>
      JObject [("trueColorUrl", JString trueColorUrl);
               ("filename", JString filename);
               ("bbox", JArray (map json_number bbox))]
  | Failed error => JObject [("error", JString error)]
  end.

(** The request body of the page for the inputs of a state, as
    [req.json()] reads it. *)
Definition request_of (st : Page.State) : value :=
  JObject [("lat1", JString (Page.lat1 st)); ("lon1", JString (Page.lon1 st));
           ("lat2", JString (Page.lat2 st)); ("lon2", JString (Page.lon2 st))].

End Api.

(** ** The requests of the page *)

Module PageRequests.

Import Json Page.

(** The requests the page is meant to send: the four inputs, none of
    them empty, to the image route; the URL of an image, which is truthy,
    to the classifier. *)
Inductive Sound : string * value -> Prop :=
| ImageRequest (lat1 lon1 lat2 lon2 : string) :
    is_empty lat1 = false -> is_empty lon1 = false ->
    is_empty lat2 = false -> is_empty lon2 = false ->
    Sound ("/api/sentinel-image",
           JObject [("lat1", JString lat1); ("lon1", JString lon1);
                    ("lat2", JString lat2); ("lon2", JString lon2)])
| AnalysisRequest (url : value) :
    ToBoolean (Some url) = true ->
    Sound ("http://localhost:5000/predict", JObject [("image_url", url)]).

(** All four inputs are filled in. *)
Definition complete (st : State) : bool :=
  negb (is_empty (lat1 st) || is_empty (lon1 st)
        || is_empty (lat2 st) || is_empty (lon2 st)).

(** What holds of the page between two events: no request is pending,
    a result is held only together with an image, and every request sent
    so far is sound. *)
Definition settled (st : State) : Prop :=
  isLoading st = false /\ fetchingImage st = false
  /\ (ToBoolean (Some (result st)) = true -> ToBoolean (trueColorUrl st) = true)
  /\ Forall Sound (requests st).

End PageRequests.

(** ** The outcomes of a run of [POST] *)

Module Outcomes.

Import Json Route CacheSpec.

(** The requests of a run, for the credentials of the environment. *)
Definition token_request (env : Env) : Outbound :=
  TokenRequest (SENTINELHUB_CLIENT_ID env) (SENTINELHUB_CLIENT_SECRET env).

(** The world after the token request. *)
Definition after_token (env : Env) (w : World) : World :=
  mkWorld (sentinel w) (sent w ++ [token_request env]).

(** The world after both requests. *)
Definition after_process (env : Env) (tok : option value) (bbox : list Number)
    (w : World) : World :=
  mkWorld (sentinel w)
    (sent w ++ [token_request env; ProcessRequest tok bbox evalscriptTrueColor]).

(** The world after a successful run that received the bytes [buf]. *)
Definition after_success (env : Env) (tok : option value) (bbox : list Number)
    (buf : list byte) (w : World) : World :=
  mkWorld (Some (<[filename_of (next_of (entries (sentinel w))) := buf]> (files w)))
    (sent w ++ [token_request env; ProcessRequest tok bbox evalscriptTrueColor]).

(** The ways a run of [POST] can go. *)
Inductive Outcome (env : Env) (request_json : Completion value) (w : World)
  : Response * World -> Prop :=
| BadRequest e :
    normalize request_json w = (Throw e, w) ->
    Outcome env request_json w (mkResponse 500 (Failed (message e)), w)
| NoToken bbox e :
    normalize request_json w = (Normal bbox, w) ->
    authenticate env w = (Throw e, after_token env w) ->
    Outcome env request_json w
      (mkResponse 500 (Failed (message e)), after_token env w)
| BadToken bbox tok :
    normalize request_json w = (Normal bbox, w) ->
    authenticate env w = (Normal tok, after_token env w) ->
    ToBoolean tok = true ->
    ToString_throws tok = true ->
    Outcome env request_json w
      (mkResponse 500 (Failed (message cannot_convert)), after_token env w)
| NoImage bbox tok e :
    normalize request_json w = (Normal bbox, w) ->
    authenticate env w = (Normal tok, after_token env w) ->
    ToBoolean tok = true ->
    ToString_throws tok = false ->
    fetchImage env tok bbox evalscriptTrueColor (after_token env w)
      = (Throw e, after_process env tok bbox w) ->
    Outcome env request_json w
      (mkResponse 500 (Failed (message e)), after_process env tok bbox w)
| Cached bbox tok res :
    normalize request_json w = (Normal bbox, w) ->
    authenticate env w = (Normal tok, after_token env w) ->
    ToBoolean tok = true ->
    ToString_throws tok = false ->
    fetch env (ProcessRequest tok bbox evalscriptTrueColor) = Normal res ->
    Http.ok res = true ->
    Outcome env request_json w
      (mkResponse 200
         (Image ("/sentinel/" +:+ filename_of (next_of (entries (sentinel w))))
                (filename_of (next_of (entries (sentinel w)))) bbox),
       after_success env tok bbox (Http.arrayBuffer res) w).

End Outcomes.

(** ** Two requests whose caching steps interleave

    [getNextFilename] and [downloadImage] are separate steps of [POST]
    (lines 123 and 125), with an [await] between them: another request can
    run its own [getNextFilename] in between. *)

Module Interleaving.

Import Route.


End Interleaving.

(** ** The [predict] route of the carbon-footprint app:
       [generateRecommendations] and the status of a prediction *)

Module Predict.

Import Json.

#[export] Instance Completion_ret : MRet Completion := @Normal.
#[export] Instance Completion_bind : MBind Completion :=
  fun A B k m =>
    match m with
    | Normal a => k a
    | Throw e => Throw e
    end.

(** [v === s] for a string literal [s]. *)
Definition is_string (v : option value) (s : string) : bool :=
  match v with
  | Some (JString t) => String.eqb t s
  | _ => false
  end.

(** [v > c] and [v < c] for a number literal [c]: [v] is converted to a
    number; a comparison with NaN is false. *)
Definition greater (v : option value) (c : Z) : Completion bool :=
  x ← ToNumber v; mret (ltb (of_Z c) x).

Definition less (v : option value) (c : Z) : Completion bool :=
  x ← ToNumber v; mret (ltb x (of_Z c)).

(** [v.length]: the number of elements of an array and of code units of a
    string, the property of that name of an object. *)
Definition length_of (v : option value) : Completion (option value) :=
  match v with
  | Some (JArray elements) =>
      Normal (Some (JNumber (of_Z (Z.of_nat (length elements)))))
  | Some (JString s) =>
      Normal (Some (JNumber (of_Z (Z.of_nat (String.length s)))))
  | _ => get v "length"
  end.

(** [v === 0] *)
Definition is_zero (v : option value) : bool :=
  match v with
  | Some (JNumber (S754_zero _)) => true
  | _ => false
  end.

(** [a || b] and [a && b], where [b] is evaluated only when needed. *)
Definition or_else (a b : Completion bool) : Completion bool :=
  x ← a; if x : bool then mret true else b.

Definition and_also (a b : Completion bool) : Completion bool :=
  x ← a; if x : bool then b else mret false.

(** [if (condition) recommendations.push(text)] *)
Definition push_if (condition : Completion bool) (text : string)
    (recommendations : list string) : Completion (list string) :=
  c ← condition;
  mret (if c : bool then recommendations ++ [text] else recommendations).

Definition advice_energy : string :=
  "Improve energy efficiency at home (insulation, LED bulbs, etc.)".
Definition advice_transport : string :=
  "Use public transport, cycle, or walk more often".
Definition advice_air : string := "Limit air travel when possible".
Definition advice_diet : string :=
  "Consider a more plant-based diet to reduce carbon footprint".
Definition advice_recycling : string := "Recycle consistently to reduce waste".
Definition advice_consumption : string :=
  "Reduce unnecessary consumption and purchases".
Definition advice_digital : string :=
  "Limit screen time or use energy-efficient devices".
Definition fallback : string := "Maintain your sustainable lifestyle!".
(** The dash of the message is written in UTF-8. *)
Definition warning : string :=
  "Your carbon footprint is high — take immediate action to reduce emissions!".

(** The pieces of advice that depend on the form. *)
Definition advices : list string :=
  [advice_energy; advice_transport; advice_air; advice_diet;
   advice_recycling; advice_consumption; advice_digital].

(** [formData.key] *)
Definition field (formData : value) (key : string)
  : Completion (option value) :=
  get (Some formData) key.

(** Lines 39-77. *)
Definition generateRecommendations (formData : value)
    (emissionScore : option value) : Completion (list string) :=
  let recommendations := [] in
  recommendations ←
    push_if
      (or_else (heatingEnergy ← field formData "heatingEnergy";
                mret (negb (is_string heatingEnergy "electricity")))
               (energyEfficiency ← field formData "energyEfficiency";
                mret (is_string energyEfficiency "no")))
      advice_energy recommendations;
  recommendations ←
    push_if
      (or_else (transport ← field formData "transport";
                mret (is_string transport "private"))
               (vehicleMonthlyKm ← field formData "vehicleMonthlyKm";
                greater vehicleMonthlyKm 200))
      advice_transport recommendations;
  recommendations ←
    push_if
      (and_also (airTravelFrequency ← field formData "airTravelFrequency";
                 mret (negb (is_string airTravelFrequency "never")))
                (airTravelFrequency ← field formData "airTravelFrequency";
                 mret (negb (is_string airTravelFrequency "rarely"))))
      advice_air recommendations;
  recommendations ←
    push_if
      (diet ← field formData "diet"; mret (is_string diet "omnivore"))
      advice_diet recommendations;
  recommendations ←
    push_if
      (or_else (recycling ← field formData "recycling";
                mret (negb (ToBoolean recycling)))
               (recycling ← field formData "recycling";
                n ← length_of recycling;
                mret (is_zero n)))
      advice_recycling recommendations;
  recommendations ←
    push_if
      (or_else (wasteBagWeeklyCount ← field formData "wasteBagWeeklyCount";
                greater wasteBagWeeklyCount 3)
               (newClothesMonthly ← field formData "newClothesMonthly";
                greater newClothesMonthly 5))
      advice_consumption recommendations;
  recommendations ←
    push_if
      (or_else (tvPcHoursDaily ← field formData "tvPcHoursDaily";
                greater tvPcHoursDaily 6)
               (internetHoursDaily ← field formData "internetHoursDaily";
                greater internetHoursDaily 8))
      advice_digital recommendations;
  recommendations ←
    push_if (mret (length recommendations =? 0)%nat) fallback recommendations;
  push_if (greater emissionScore 1000) warning recommendations.

(** Line 146: the status of a prediction,
    [e < 50 ? "Low" : e < 100 ? "Moderate" : "High"]. *)
Definition status_of (emission : option value) : Completion string :=
  low ← less emission 50;
  if low : bool then mret "Low"
  else
    moderate ← less emission 100;
    if moderate : bool then mret "Moderate" else mret "High".

(** [recommendations.includes(text)] *)
Definition listed (recommendations : list string) (text : string) : bool :=
  existsb (String.eqb text) recommendations.

(** A value whose conversion to a primitive does not throw. *)
Definition converts (v : option value) : bool := negb (ToString_throws v).

End Predict.

(** ** The result card of the carbon-footprint app *)

Module ResultCard.

(** Lines 25-36 of the component. *)
Definition getStatusColor (status : string) : string :=
  if String.eqb status "Low" then "bg-green-100 text-green-800 border-green-300"
  else if String.eqb status "Moderate"
  then "bg-yellow-100 text-yellow-800 border-yellow-300"
  else if String.eqb status "High" then "bg-red-100 text-red-800 border-red-300"
  else "bg-gray-100 text-gray-800 border-gray-300".

End ResultCard.

(** ** The multi-select of the form *)

Module MultiSelect.

(** [selected.includes(value)] *)
Definition includes (selected : list string) (value : string) : bool :=
  existsb (String.eqb value) selected.

(** [handleToggle]: what [onChange] is called with. *)
Definition handleToggle (selected : list string) (value : string)
  : list string :=
  if includes selected value
  then List.filter (fun item => negb (String.eqb item value)) selected
  else selected ++ [value].

End MultiSelect.

(** ** The form of the carbon-footprint app *)

Module CarbonForm.

Import Json.

(** The initial state of the form: the properties of the object, in
    order. *)
Definition initialFormData : list (string * value) :=
  [("bodyType", JString EmptyString); ("sex", JString EmptyString);
   ("diet", JString EmptyString);
   ("showerFrequency", JString EmptyString);
   ("heatingEnergy", JString EmptyString);
   ("transport", JString EmptyString);
   ("vehicleType", JString EmptyString);
   ("socialActivity", JString EmptyString);
   ("monthlyGroceryBill", JNumber (of_Z 0));
   ("airTravelFrequency", JString EmptyString);
   ("vehicleMonthlyKm", JNumber (of_Z 0));
   ("wasteBagSize", JString EmptyString);
   ("wasteBagWeeklyCount", JNumber (of_Z 0));
   ("tvPcHoursDaily", JNumber (of_Z 0));
   ("newClothesMonthly", JNumber (of_Z 0));
   ("internetHoursDaily", JNumber (of_Z 0));
   ("energyEfficiency", JString EmptyString);
   ("recycling", JArray []); ("cookingWith", JArray [])].

(** [handleChange]: the next state [{ ...prev, [field]: value }].  A
    property that [prev] has keeps its place and takes the value; a new
    one comes last. *)
Fixpoint handleChange (field : string) (v : value)
    (prev : list (string * value)) : list (string * value) :=
  match prev with
  | [] => [(field, v)]
  | (key, old) :: rest =>
      if String.eqb key field then (key, v) :: rest
      else (key, old) :: handleChange field v rest
  end.

End CarbonForm.

(** ** The page of the carbon-footprint app: [handleFormSubmit] *)

Module Enviro.

Import Json.

(** The state of the component, with the requests sent so far. *)
Record HomeState : Type := mkHomeState {
  results : value;
  isLoading : bool;
  requests : list (string * value)
}.

Definition setResults (v : value) (st : HomeState) : HomeState :=
  mkHomeState v (isLoading st) (requests st).
Definition setIsLoading (b : bool) (st : HomeState) : HomeState :=
  mkHomeState (results st) b (requests st).
Definition record_submission (url : string) (body : value)
    (st : HomeState) : HomeState :=
  mkHomeState (results st) (isLoading st) (requests st ++ [(url, body)]).

Definition handleFormSubmit (fetch : Page.Fetch) (formData : value)
    (st : HomeState) : HomeState :=
  let st := setIsLoading true st in
  let st := record_submission "/api/predict" formData st in
  let st :=
    match fetch "/api/predict" formData with
    | Throw _ => st
    | Normal response =>
        match Http.json response with
        | Throw _ => st
        | Normal data => setResults data st
        end
    end in
  setIsLoading false st.

(** [results && !results.error]: the result card is rendered. *)
Definition card_shown (st : HomeState) : bool :=
  ToBoolean (Some (results st))
  && negb (ToBoolean (Page.lookup_field "error" (results st))).

End Enviro.
(** ** Concrete runs *)

Module Scenario.

Import Json Route.

(** A world in which the cache directory does not exist yet and nothing
    has been sent. *)
Definition fresh_world : World := mkWorld None [].

Definition num (z : Z) : option value := Some (JNumber (of_Z z)).

(** Integers on both sides of [2^53] and of the largest number, and the
    numbers nearest to them. *)
Definition sample_integers : list Z :=
  [0; 1; -1; 4; -4; 9007199254740991; 9007199254740992; 9007199254740993;
   9007199254740994; 9007199254740995; -9007199254740993;
   1152921504606846976; 18446744073709551616; 10 ^ 21; 10 ^ 23; 2 ^ 1023;
   2 ^ 1024 - 2 ^ 970 - 1; 2 ^ 1024 - 2 ^ 970; 2 ^ 1024; - 2 ^ 1024].

Definition sample_numbers : list JsInteger.IntNumber :=
  [JsInteger.INaN; JsInteger.NegZero; JsInteger.Inf false;
   JsInteger.Inf true] ++ map JsInteger.of_Z sample_integers.

(** The first bytes of a PNG file, for the content of images. *)
Definition png : list byte := [x89; x50; x4e; x47].
Definition other_png : list byte := [x89; x50; x4e; x47; x0d; x0a].

Definition world_of (dir : gmap string (list byte)) : World :=
  mkWorld (Some dir) [].

(** An existing, empty cache directory. *)
Definition empty_dir : World := world_of ∅.

(** [true-color-1.png] and [true-color-3.png], no [true-color-2.png]. *)
Definition dir_1_3 : World :=
  world_of {[ "true-color-1.png" := png; "true-color-3.png" := png ]}.

(** A file whose suffix is [2^53]. *)
Definition dir_2_53 : World :=
  world_of {[ "true-color-9007199254740992.png" := png ]}.

(** A file whose suffix is negative. *)
Definition dir_negative : World :=
  world_of {[ "true-color--5.png" := png ]}.

(** Entries that pass the filter without a number, and one that does not
    pass it. *)
Definition dir_no_number : World :=
  world_of {[ "true-color-.png" := png; "true-color-latest.png" := png;
              "notes.txt" := png ]}.

(** A response with a JSON body. *)
Definition json_response (status : Z) (v : value) : Http.Response :=
  Http.mkResponse status EmptyString (Normal v) [].

(** A response whose body is not JSON. *)
Definition raw_response (status : Z) (text : string) (bytes : list byte)
  : Http.Response :=
  Http.mkResponse status text (Throw (mkError "Unexpected token")) bytes.

(** A provider that grants the token [tok] and answers every processing
    request with an image. *)
Definition provider : Env :=
  mkEnv (Some "id") (Some "secret")
    (fun r =>
       match r with
       | TokenRequest _ _ =>
           Normal (json_response 200 (JObject [("access_token", JString "tok")]))
       | ProcessRequest _ _ _ => Normal (raw_response 200 EmptyString png)
       end).

(** A provider whose token response has no [access_token]. *)
Definition provider_without_token : Env :=
  mkEnv (Some "id") (Some "wrong")
    (fun r =>
       match r with
       | TokenRequest _ _ =>
           Normal (json_response 401 (JObject [("error", JString "invalid_client")]))
       | ProcessRequest _ _ _ => Normal (raw_response 200 EmptyString png)
       end).

(** A provider that grants a token and refuses the processing request. *)
Definition provider_refusing : Env :=
  mkEnv (Some "id") (Some "secret")
    (fun r =>
       match r with
       | TokenRequest _ _ =>
           Normal (json_response 200 (JObject [("access_token", JString "tok")]))
       | ProcessRequest _ _ _ =>
           Normal (raw_response 400 "No data found for the given bounding box" [])
       end).

(** The request body the page sends for the four inputs. *)
Definition coordinates (lat1 lon1 lat2 lon2 : string) : value :=
  JObject [("lat1", JString lat1); ("lon1", JString lon1);
           ("lat2", JString lat2); ("lon2", JString lon2)].

(** The classifier response
    [{probability: 0.92, prediction: 1, label: "Wildfire", threshold: 0.5}]. *)
Definition verdict : value :=
  JObject [("probability", JNumber (StringToNumber "0.92"));
           ("prediction", JNumber (of_Z 1));
           ("label", JString "Wildfire");
           ("threshold", JNumber (StringToNumber "0.5"))].

(** The page after an image has been fetched. *)
Definition page_with_image : Page.State :=
  Page.mkState JNull false (Some (JString "/sentinel/true-color-1.png")) false
    "10" "20" "5" "15" [] [].

(** The page with one input left empty. *)
Definition page_incomplete : Page.State :=
  Page.mkState JNull false (Some JNull) false "10" EmptyString "5" "15" [] [].

(** A classifier that answers with the verdict. *)
Definition classifier : Page.Fetch :=
  fun _ _ => Normal (json_response 200 verdict).

(** A classifier that answers with status 500 and a JSON body. *)
Definition classifier_500_json : Page.Fetch :=
  fun _ _ => Normal (json_response 500 verdict).

(** A classifier that answers with status 500 and an HTML page. *)
Definition classifier_500_html : Page.Fetch :=
  fun _ _ => Normal (raw_response 500 "<!doctype html><title>500 Internal Server Error</title>" []).

(** A classifier that cannot be reached. *)
Definition classifier_down : Page.Fetch :=
  fun _ _ => Throw (mkError "Failed to fetch").

(** A provider whose token response has status 500 and carries a token
    all the same. *)
Definition provider_token_500 : Env :=
  mkEnv (Some "id") (Some "secret")
    (fun r =>
       match r with
       | TokenRequest _ _ =>
           Normal (json_response 500 (JObject [("access_token", JString "tok")]))
       | ProcessRequest _ _ _ => Normal (raw_response 200 EmptyString png)
       end).

(** A provider that refuses the processing request with an empty body. *)
Definition provider_silent : Env :=
  mkEnv (Some "id") (Some "secret")
    (fun r =>
       match r with
       | TokenRequest _ _ =>
           Normal (json_response 200 (JObject [("access_token", JString "tok")]))
       | ProcessRequest _ _ _ => Normal (raw_response 503 EmptyString [])
       end).

(** A provider whose token response has the body [null]. *)
Definition provider_null_token : Env :=
  mkEnv (Some "id") (Some "secret")
    (fun r =>
       match r with
       | TokenRequest _ _ => Normal (json_response 200 JNull)
       | ProcessRequest _ _ _ => Normal (raw_response 200 EmptyString png)
       end).

(** A provider whose token response is an HTML page. *)
Definition provider_html_token : Env :=
  mkEnv (Some "id") (Some "secret")
    (fun r =>
       match r with
       | TokenRequest _ _ =>
           Normal (Http.mkResponse 503 "<html>Service Unavailable</html>"
                     (Throw (mkError "Unexpected token '<', <html>Ser... is not valid JSON"))
                     [])
       | ProcessRequest _ _ _ => Normal (raw_response 200 EmptyString png)
       end).

(** A provider that cannot be reached. *)
Definition provider_down : Env :=
  mkEnv (Some "id") (Some "secret")
    (fun _ => Throw (mkError "request to https://services.sentinel-hub.com/oauth/token failed")).

(** A request body in which a coordinate is an object with a property
    [toString]. *)
Definition hostile_coordinates : value :=
  JObject [("lat1", JObject [("toString", JNumber (of_Z 1))]);
           ("lon1", JNumber (of_Z 20));
           ("lat2", JNumber (of_Z 5));
           ("lon2", JNumber (of_Z 15))].

(** The page with the four inputs filled in and no image yet. *)
Definition page_ready : Page.State :=
  Page.mkState JNull false (Some JNull) false "10" "20" "5" "15" [] [].

(** The page with a latitude that is no numeral. *)
Definition page_unparseable : Page.State :=
  Page.mkState JNull false (Some JNull) false "abc" "20" "5" "15" [] [].

(** The page with four blank inputs. *)
Definition page_blank : Page.State :=
  Page.mkState JNull false (Some JNull) false " " " " "  " " " [] [].

(** The route, run in the world [w] for the provider [env], as the
    [fetch] of the page. *)
Definition route_as_fetch (env : Env) (w : World) : Page.Fetch :=
  fun _ body =>
    let r := fst (POST env (Normal body) w) in
    Normal (json_response (Route.status r) (Api.body_json (Route.body r))).

(** The form of the carbon-footprint app as it is before any input
    (the initial state of [CarbonForm]). *)
Definition empty_form : value := JObject CarbonForm.initialFormData.

(** A result of the carbon-footprint app, and its page with that result
    on display. *)
Definition footprint : value :=
  JObject [("emissionScore", JNumber (StringToNumber "72.5"));
           ("status", JString "Moderate");
           ("recommendations",
            JArray [JString "Limit air travel when possible"])].

Definition page_with_footprint : Enviro.HomeState :=
  Enviro.mkHomeState footprint false [].

(** A server that answers with an HTML error page. *)
Definition server_error_page : Page.Fetch :=
  fun _ _ => Normal (raw_response 502 "<html><h1>502 Bad Gateway</h1></html>" []).

End Scenario.

(** * Properties *)

(** ** The order of numbers, and [Math.min] and [Math.max] of two numbers *)

Section NumberOrder.

Lemma SFcompare_antisym (x y : Number) :
  SFcompare y x = option_map CompOpp (SFcompare x y).
Proof.
  destruct x as [sx|sx| |sx mx ex], y as [sy|sy| |sy my ey]; simpl;
    try reflexivity;
    try (destruct sx; reflexivity); try (destruct sy; reflexivity);
    try (destruct sx, sy; reflexivity).
  destruct sx, sy; try reflexivity; simpl;
    rewrite (Z.compare_antisym ex ey); destruct (ex ?= ey); simpl;
    try reflexivity;
    rewrite (Pos.compare_cont_antisym mx my Eq); reflexivity.
Qed.

Lemma SFcompare_finite (x y : Number) :
  isFinite x = true -> isFinite y = true -> exists c, SFcompare x y = Some c.
Proof.
  destruct x, y; simpl; intros; try discriminate; eauto.
Qed.

Lemma ltb_leb (x y : Number) : ltb x y = true -> leb x y = true.
Proof.
  unfold ltb, leb, SFltb, SFleb.
  destruct (SFcompare x y) as [[]|]; congruence.
Qed.

Lemma ltb_asym (x y : Number) : ltb x y = true -> ltb y x = false.
Proof.
  unfold ltb, SFltb. rewrite (SFcompare_antisym x y).
  destruct (SFcompare x y) as [[]|]; simpl; congruence.
Qed.

Lemma not_ltb_leb (x y : Number) :
  isFinite x = true -> isFinite y = true -> ltb x y = false -> leb y x = true.
Proof.
  intros Hx Hy. unfold ltb, leb, SFltb, SFleb.
  rewrite (SFcompare_antisym x y).
  destruct (SFcompare_finite x y Hx Hy) as [c ->].
  destruct c; simpl; congruence.
Qed.

Lemma leb_refl (x : Number) : isFinite x = true -> leb x x = true.
Proof.
  intros Hx. apply not_ltb_leb; try assumption.
  destruct (ltb x x) eqn:E; [|reflexivity].
  pose proof (ltb_asym _ _ E). congruence.
Qed.

(** Two finite numbers that compare equal are the same number, or are
    both zeros. *)
Lemma SFcompare_Eq (x y : Number) :
  isFinite x = true -> isFinite y = true -> SFcompare x y = Some Eq ->
  x = y \/ (exists s t, x = S754_zero s /\ y = S754_zero t).
Proof.
  destruct x as [sx|sx| |sx mx ex], y as [sy|sy| |sy my ey]; simpl;
    try discriminate; intros _ _ H.
  - right; eauto.
  - destruct sy; discriminate.
  - destruct sx; discriminate.
  - left. destruct sx, sy; try discriminate;
      destruct (ex ?= ey) eqn:E; try discriminate;
      apply Z.compare_eq in E; subst ey;
      destruct (Pos.compare_cont Eq mx my) eqn:E'; try discriminate;
      apply Pos.compare_eq in E'; subst my; reflexivity.
Qed.

Lemma isFinite_not_NaN (x : Number) : isFinite x = true -> isNaN x = false.
Proof. destruct x; simpl; congruence. Qed.

Lemma ltb_nInfinity (x : Number) : isFinite x = true -> ltb nInfinity x = true.
Proof. destruct x; simpl; try discriminate; reflexivity. Qed.

Lemma ltb_pInfinity (x : Number) : isFinite x = true -> ltb x pInfinity = true.
Proof. destruct x; simpl; try discriminate; reflexivity. Qed.

Lemma zero_cases (x y : Number) :
  is_nZero y && is_pZero x = true -> y = nZero /\ x = pZero.
Proof.
  destruct y as [[]| | |], x as [[]| | |]; simpl; try discriminate; auto.
Qed.

Lemma zero_cases' (x y : Number) :
  is_pZero y && is_nZero x = true -> y = pZero /\ x = nZero.
Proof.
  destruct y as [[]| | |], x as [[]| | |]; simpl; try discriminate; auto.
Qed.

End NumberOrder.

Create HintDb number_order.
#[export] Hint Resolve ltb_leb leb_refl not_ltb_leb : number_order.

(** [Math.min] and [Math.max] of two finite numbers. *)

Section FinitePair.

Variables x y : Number.
Hypothesis Hx : isFinite x = true.
Hypothesis Hy : isFinite y = true.

(** [Math.min(x, y)]: [-0] for the zeros of opposite sign, else [y] when
    [y < x], else [x]. *)
Lemma Math_min_pair :
  Math_min [x; y] =
    if is_nZero y && is_pZero x then nZero
    else if ltb y x then y else x.
Proof.
  unfold Math_min.
  destruct x as [[]|?| |sx mx ex]; try discriminate;
    destruct y as [[]|?| |sy my ey]; try discriminate;
    cbn [min_loop isNaN is_nZero is_pZero andb pInfinity nZero];
    try reflexivity;
    repeat match goal with
           | |- context [ltb ?a ?b] => destruct (ltb a b) eqn:?
           end;
    try reflexivity; try discriminate.
Qed.

Lemma Math_max_pair :
  Math_max [x; y] =
    if is_pZero y && is_nZero x then pZero
    else if ltb x y then y else x.
Proof.
  unfold Math_max.
  destruct x as [[]|?| |sx mx ex]; try discriminate;
    destruct y as [[]|?| |sy my ey]; try discriminate;
    cbn [max_loop isNaN is_nZero is_pZero andb nInfinity pZero];
    try reflexivity;
    repeat match goal with
           | |- context [ltb ?a ?b] => destruct (ltb a b) eqn:?
           end;
    try reflexivity; try discriminate.
Qed.

(** The minimum is one of the two numbers and below both. *)
Lemma Math_min_lower :
  (Math_min [x; y] = x \/ Math_min [x; y] = y)
  /\ leb (Math_min [x; y]) x = true /\ leb (Math_min [x; y]) y = true.
Proof.
  rewrite Math_min_pair.
  destruct (is_nZero y && is_pZero x) eqn:Ez.
  - apply zero_cases in Ez as [Ey Ex]. rewrite Ey, Ex. repeat split; auto.
  - destruct (ltb y x) eqn:E; repeat split; auto with number_order.
Qed.

(** The maximum is one of the two numbers and above both. *)
Lemma Math_max_upper :
  (Math_max [x; y] = x \/ Math_max [x; y] = y)
  /\ leb x (Math_max [x; y]) = true /\ leb y (Math_max [x; y]) = true.
Proof.
  rewrite Math_max_pair.
  destruct (is_pZero y && is_nZero x) eqn:Ez.
  - apply zero_cases' in Ez as [Ey Ex]. rewrite Ey, Ex. repeat split; auto.
  - destruct (ltb x y) eqn:E; repeat split; auto with number_order.
Qed.

Lemma Math_min_le_max : leb (Math_min [x; y]) (Math_max [x; y]) = true.
Proof.
  rewrite Math_min_pair, Math_max_pair.
  destruct (is_nZero y && is_pZero x) eqn:Ez.
  { apply zero_cases in Ez as [Ey Ex]. rewrite Ey, Ex. reflexivity. }
  destruct (is_pZero y && is_nZero x) eqn:Ez'.
  { apply zero_cases' in Ez' as [Ey Ex]. rewrite Ey, Ex. reflexivity. }
  destruct (ltb y x) eqn:E.
  - rewrite (ltb_asym _ _ E). auto with number_order.
  - destruct (ltb x y) eqn:E'; auto with number_order.
Qed.

(** Two finite numbers of which neither is below the other are the same
    number, or are zeros. *)
Lemma not_ltb_same :
  ltb x y = false -> ltb y x = false ->
  x = y \/ (exists s t, x = S754_zero s /\ y = S754_zero t).
Proof.
  unfold ltb, SFltb. rewrite (SFcompare_antisym x y).
  destruct (SFcompare_finite x y Hx Hy) as [c Hc]. rewrite Hc.
  destruct c; simpl; try discriminate. intros _ _.
  now apply SFcompare_Eq.
Qed.

End FinitePair.

Section FinitePairSwapped.

Variables x y : Number.
Hypothesis Hx : isFinite x = true.
Hypothesis Hy : isFinite y = true.

Lemma Math_min_comm : Math_min [x; y] = Math_min [y; x].
Proof.
  rewrite (Math_min_pair x y Hx Hy), (Math_min_pair y x Hy Hx).
  destruct (is_nZero y && is_pZero x) eqn:Ez.
  { apply zero_cases in Ez as [Ey Ex]. rewrite Ey, Ex. reflexivity. }
  destruct (is_nZero x && is_pZero y) eqn:Ez'.
  { apply zero_cases in Ez' as [Ex Ey]. rewrite Ey, Ex. reflexivity. }
  destruct (ltb y x) eqn:E.
  - now rewrite (ltb_asym _ _ E).
  - destruct (ltb x y) eqn:E'; [reflexivity|].
    destruct (not_ltb_same x y Hx Hy E' E) as [->|(s & t & Ex & Ey)];
      [reflexivity|].
    rewrite Ex, Ey in *. destruct s, t; simpl in *; congruence.
Qed.

Lemma Math_max_comm : Math_max [x; y] = Math_max [y; x].
Proof.
  rewrite (Math_max_pair x y Hx Hy), (Math_max_pair y x Hy Hx).
  destruct (is_pZero y && is_nZero x) eqn:Ez.
  { apply zero_cases' in Ez as [Ey Ex]. rewrite Ey, Ex. reflexivity. }
  destruct (is_pZero x && is_nZero y) eqn:Ez'.
  { apply zero_cases' in Ez' as [Ex Ey]. rewrite Ey, Ex. reflexivity. }
  destruct (ltb x y) eqn:E.
  - now rewrite (ltb_asym _ _ E).
  - destruct (ltb y x) eqn:E'; [reflexivity|].
    destruct (not_ltb_same x y Hx Hy E E') as [->|(s & t & Ex & Ey)];
      [reflexivity|].
    rewrite Ex, Ey in *. destruct s, t; simpl in *; congruence.
Qed.

End FinitePairSwapped.

(** ** Strings: prefixes, suffixes, [replace], decimal numerals *)

Module StringFacts.

Import Chars.

Lemma app_cons c a b : String c a +:+ b = String c (a +:+ b).
Proof. reflexivity. Qed.

Lemma app_nil s : EmptyString +:+ s = s.
Proof. reflexivity. Qed.

Lemma all_chars_app p a b :
  all_chars p (a +:+ b) = all_chars p a && all_chars p b.
Proof.
  induction a as [|c a IH]; [reflexivity|].
  rewrite app_cons. simpl. now rewrite IH, andb_assoc.
Qed.

Lemma all_chars_impl (p q : ascii -> bool) s :
  (forall c, p c = true -> q c = true) ->
  all_chars p s = true -> all_chars q s = true.
Proof.
  intros Hpq. induction s as [|c s IH]; simpl; [reflexivity|].
  intros [Hc Hs]%andb_true_iff. rewrite (Hpq _ Hc). now apply IH.
Qed.

Lemma length_app a b :
  String.length (a +:+ b) = (String.length a + String.length b)%nat.
Proof.
  induction a as [|c a IH]; [reflexivity|].
  rewrite app_cons. simpl. now rewrite IH.
Qed.

Lemma app_empty_r a : a +:+ EmptyString = a.
Proof.
  induction a as [|c a IH]; [reflexivity|]. rewrite app_cons. now rewrite IH.
Qed.

Lemma app_assoc a b c : (a +:+ b) +:+ c = a +:+ (b +:+ c).
Proof.
  induction a as [|x a IH]; [reflexivity|]. rewrite !app_cons. now rewrite IH.
Qed.

Lemma prefix_app p r : String.prefix p (p +:+ r) = true.
Proof.
  induction p as [|c p IH]; [destruct r; reflexivity|].
  rewrite app_cons. simpl.
  destruct (Ascii.ascii_dec c c); [assumption|congruence].
Qed.

Lemma substring_zero_length n s : String.substring n 0 s = EmptyString.
Proof.
  revert n. induction s as [|c s IH]; intros [|n]; simpl; auto.
Qed.

Lemma substring_all s : String.substring 0 (String.length s) s = s.
Proof. induction s as [|c s IH]; simpl; [reflexivity|]. now rewrite IH. Qed.

Lemma substring_app_l a b :
  String.substring 0 (String.length a) (a +:+ b) = a.
Proof.
  induction a as [|c a IH].
  - apply substring_zero_length.
  - rewrite app_cons. simpl. now rewrite IH.
Qed.

Lemma substring_app_r a n b :
  String.substring (String.length a) n (a +:+ b) = String.substring 0 n b.
Proof.
  induction a as [|c a IH]; [reflexivity|]. rewrite app_cons. simpl. apply IH.
Qed.

Lemma startsWith_app p r : startsWith (p +:+ r) p = true.
Proof. apply prefix_app. Qed.

Lemma endsWith_app a p : endsWith (a +:+ p) p = true.
Proof.
  unfold endsWith. rewrite length_app.
  replace (String.length a + String.length p - String.length p)%nat
    with (String.length a) by lia.
  rewrite substring_app_r, substring_all, String.eqb_refl, andb_true_r.
  apply Nat.leb_le. lia.
Qed.

Lemma index_prefix p r : String.index 0 p (p +:+ r) = Some 0%nat.
Proof.
  destruct (p +:+ r) as [|c s] eqn:E.
  - destruct p; [reflexivity|discriminate].
  - cbn [String.index]. rewrite <- E at 1. now rewrite prefix_app.
Qed.

(** Removing a prefix. *)
Lemma replace_prefix p r : replace (p +:+ r) p EmptyString = r.
Proof.
  unfold replace. rewrite index_prefix. simpl String.substring at 1.
  rewrite substring_zero_length. simpl.
  rewrite length_app.
  replace (String.length p + String.length r - String.length p)%nat
    with (String.length r) by lia.
  now rewrite substring_app_r, substring_all.
Qed.

Lemma index_png d :
  all_chars not_dot d = true ->
  String.index 0 ".png" (d +:+ ".png") = Some (String.length d).
Proof.
  induction d as [|c d IH]; [reflexivity|].
  simpl all_chars. intros [Hc Hd]%andb_true_iff.
  rewrite app_cons.
  cbn [String.index String.prefix].
  destruct (Ascii.ascii_dec "." c) as [<-|_]; [discriminate|].
  now rewrite (IH Hd).
Qed.

(** Removing the extension from a name without another dot. *)
Lemma replace_png d :
  all_chars not_dot d = true -> replace (d +:+ ".png") ".png" EmptyString = d.
Proof.
  intros Hd. unfold replace. rewrite (index_png d Hd).
  rewrite substring_app_l, length_app. simpl String.length.
  replace (String.length d + 4 - (String.length d + 4))%nat with 0%nat by lia.
  rewrite substring_zero_length. simpl. apply app_empty_r.
Qed.

(** *** Decimal numerals *)

Lemma digit_value_digit_char d :
  0 <= d < 10 -> digit_value 10 (digit_char d) = Some d.
Proof.
  intros H.
  assert (d = 0 \/ d = 1 \/ d = 2 \/ d = 3 \/ d = 4 \/ d = 5 \/ d = 6
          \/ d = 7 \/ d = 8 \/ d = 9) as Hd by lia.
  repeat (destruct Hd as [->|Hd]; [reflexivity|]). subst; reflexivity.
Qed.

Lemma is_digit_digit_char d : 0 <= d < 10 -> is_digit (digit_char d) = true.
Proof. intros H. unfold is_digit. now rewrite digit_value_digit_char. Qed.

(** With enough fuel, [decimal_go] writes the digits of [z] in front of
    [acc]: reading them back in front of any accumulator [a] gives
    [a * 10^n + z], where [n] is the number of digits written. *)
Lemma decimal_go_digits fuel : forall z acc,
  0 <= z < 10 ^ (Z.of_nat fuel + 1) ->
  exists n ds,
    0 < n /\ decimal_go fuel z acc = ds +:+ acc
    /\ all_chars is_digit ds = true
    /\ forall a l rest,
         digits_go 10 a l (ds +:+ rest) = digits_go 10 (a * 10 ^ n + z) (l + n) rest.
Proof.
  induction fuel as [|fuel IH]; intros z acc Hz.
  - change (10 ^ (Z.of_nat 0 + 1)) with 10 in Hz.
    exists 1, (String (digit_char (z mod 10)) EmptyString).
    assert (z mod 10 = z) as Hm by (apply Z.mod_small; lia).
    split; [lia|]. split; [reflexivity|]. split.
    + cbn [all_chars]. rewrite is_digit_digit_char by lia. reflexivity.
    + intros a l rest. rewrite app_cons, app_nil. cbn [digits_go].
      rewrite digit_value_digit_char by lia.
      f_equal; lia.
  - cbn [decimal_go].
    assert (0 <= z mod 10 < 10) as Hm by (apply Z.mod_pos_bound; lia).
    destruct (z / 10 =? 0) eqn:E.
    + apply Z.eqb_eq in E.
      assert (z = z mod 10) as Hsmall.
      { pose proof (Z.div_mod z 10 ltac:(lia)). lia. }
      exists 1, (String (digit_char (z mod 10)) EmptyString).
      repeat split; try lia.
      * cbn [all_chars]. now rewrite is_digit_digit_char.
      * intros a l rest. rewrite app_cons, app_nil. cbn [digits_go].
        rewrite digit_value_digit_char by lia.
        f_equal; lia.
    + assert (0 <= z / 10 < 10 ^ (Z.of_nat fuel + 1)) as Hq.
      { split; [apply Z.div_pos; lia|].
        apply Z.div_lt_upper_bound; [lia|].
        replace (Z.of_nat (S fuel) + 1) with (Z.succ (Z.of_nat fuel + 1)) in Hz by lia.
        rewrite Z.pow_succ_r in Hz by lia. lia. }
      destruct (IH (z / 10) (String (digit_char (z mod 10)) acc) Hq)
        as (n & ds & Hn & Hgo & Hds & Hread).
      exists (n + 1), (ds +:+ String (digit_char (z mod 10)) EmptyString).
      repeat split; try lia.
      * rewrite Hgo, app_assoc. reflexivity.
      * rewrite all_chars_app, Hds. cbn [all_chars andb].
        now rewrite is_digit_digit_char.
      * intros a l rest. rewrite app_assoc. rewrite Hread.
        rewrite app_cons, app_nil. cbn [digits_go].
        rewrite digit_value_digit_char by lia.
        pose proof (Z.div_mod z 10 ltac:(lia)) as Hdm.
        replace ((a * 10 ^ n + z / 10) * 10 + z mod 10)
          with (a * 10 ^ (n + 1) + z)
          by (rewrite Z.pow_add_r by lia; change (10 ^ 1) with 10; lia).
        now replace (l + n + 1) with (l + (n + 1)) by lia.
Qed.

Lemma decimal_fuel z : 0 <= z -> z < 10 ^ (Z.of_nat (Z.to_nat (Z.log2 z)) + 1).
Proof.
  intros Hz. rewrite Z2Nat.id by apply Z.log2_nonneg.
  destruct (Z.eq_dec z 0) as [->|Hnz]; [reflexivity|].
  pose proof (Z.log2_spec z ltac:(lia)) as [_ Hlt].
  eapply Z.lt_le_trans; [exact Hlt|].
  replace (Z.succ (Z.log2 z)) with (Z.log2 z + 1) by lia.
  apply Z.pow_le_mono_l. lia.
Qed.

(** The numeral of [z] is a non-empty run of digits that reads back as
    [z]. *)
Lemma decimal_digits z :
  0 <= z ->
  exists n,
    0 < n /\ all_chars is_digit (decimal z) = true
    /\ forall rest, digits 10 (decimal z +:+ rest) = digits_go 10 z n rest.
Proof.
  intros Hz. unfold decimal, digits.
  destruct (decimal_go_digits (Z.to_nat (Z.log2 z)) z EmptyString)
    as (n & ds & Hn & Hgo & Hds & Hread).
  { split; [assumption|]. now apply decimal_fuel. }
  rewrite app_empty_r in Hgo. rewrite Hgo.
  exists n. repeat split; try assumption.
  intros rest. rewrite Hread. f_equal.
Qed.

Lemma decimal_nonempty z : 0 <= z -> exists c s, decimal z = String c s /\ is_digit c = true.
Proof.
  intros Hz. destruct (decimal_digits z Hz) as (n & Hn & Hds & Hread).
  destruct (decimal z) as [|c s] eqn:E.
  - specialize (Hread EmptyString). simpl in Hread. unfold digits in Hread.
    simpl in Hread. injection Hread as _ Hlen. lia.
  - simpl in Hds. apply andb_true_iff in Hds as [Hc _]. eauto.
Qed.

End StringFacts.

(** ** Integer-valued numbers: [parseInt], [Math.max], [+ 1], [toString] *)

Module IntegerFacts.

Import Chars StringFacts JsInteger CacheSpec Scenario.

Lemma digit_not_special c :
  is_digit c = true ->
  is_whitespace c = false
  /\ Ascii.eqb c "x" = false /\ Ascii.eqb c "X" = false
  /\ Ascii.eqb c "." = false
  /\ (forall s, read_sign (String c s) = (false, String c s)).
Proof.
  destruct c as [[] [] [] [] [] [] [] []]; intros H;
    try discriminate H; repeat split.
Qed.

Lemma trimStart_digit c s :
  is_whitespace c = false -> trimStart (String c s) = String c s.
Proof. intros H. simpl. now rewrite H. Qed.

(** Reading a run of digits to the end of the string. *)
Lemma digits_decimal z :
  0 <= z -> exists n, 0 < n /\ digits 10 (decimal z) = (z, n, EmptyString).
Proof.
  intros Hz. destruct (decimal_digits z Hz) as (n & Hn & _ & Hread).
  exists n. split; [assumption|].
  specialize (Hread EmptyString). now rewrite app_empty_r in Hread.
Qed.

Lemma parse_integer_digits z (neg : bool) s0 :
  0 <= z ->
  trimStart s0 = (if neg then "-" +:+ decimal z else decimal z) ->
  parse_integer s0 = Some (neg, z).
Proof.
  intros Hz Hs. unfold parse_integer. rewrite Hs.
  destruct (decimal_nonempty z Hz) as (c & s & Hd & Hc).
  destruct (digit_not_special c Hc) as (_ & Hx & HX & _ & Hsign).
  assert (read_sign (if neg then "-" +:+ decimal z else decimal z)
          = (neg, decimal z)) as ->.
  { destruct neg; [reflexivity|]. rewrite Hd. apply Hsign. }
  destruct (digits_decimal z Hz) as (n & Hn & Hread).
  assert (all_chars is_digit (decimal z) = true) as Hall
    by (destruct (decimal_digits z Hz) as (? & _ & H & _); exact H).
  rewrite Hd in *.
  assert ((let '(radix, s2) :=
             match String c s with
             | String "0"%char (String c0 rest) =>
                 if Ascii.eqb c0 "x" || Ascii.eqb c0 "X"
                 then (16, rest) else (10, String c s)
             | _ => (10, String c s)
             end in
           let '(mathInt, len, _) := digits radix s2 in
           if len =? 0 then None else Some (neg, mathInt))
          = Some (neg, z)) as Hgoal.
  { assert (match String c s with
            | String "0"%char (String c0 rest) =>
                if Ascii.eqb c0 "x" || Ascii.eqb c0 "X"
                then (16, rest) else (10, String c s)
            | _ => (10, String c s)
            end = (10, String c s)) as ->.
    { destruct s as [|c0 rest].
      - destruct c as [[] [] [] [] [] [] [] []]; reflexivity.
      - cbn [all_chars] in Hall.
        apply andb_true_iff in Hall as [_ Hall].
        apply andb_true_iff in Hall as [Hc0 _].
        destruct (digit_not_special c0 Hc0) as (_ & -> & -> & _).
        destruct c as [[] [] [] [] [] [] [] []]; reflexivity. }
    rewrite Hread.
    destruct (n =? 0) eqn:E; [apply Z.eqb_eq in E; lia|reflexivity]. }
  exact Hgoal.
Qed.

(** [parse_integer] reads back the numeral of an integer. *)
Lemma parse_integer_decimal_int k :
  parse_integer (decimal_int k) = Some (k <? 0, Z.abs k).
Proof.
  unfold decimal_int. destruct (k <? 0) eqn:E.
  - apply Z.ltb_lt in E.
    apply parse_integer_digits; [lia|].
    replace (Z.abs k) with (- k) by lia. reflexivity.
  - apply Z.ltb_ge in E.
    apply parse_integer_digits; [lia|].
    replace (Z.abs k) with k by lia.
    destruct (decimal_nonempty k E) as (c & s & -> & Hc).
    apply trimStart_digit. now destruct (digit_not_special c Hc).
Qed.

Lemma decimal_int_no_dot k : all_chars not_dot (decimal_int k) = true.
Proof.
  assert (forall z, 0 <= z -> all_chars not_dot (decimal z) = true) as Hd.
  { intros z Hz. destruct (decimal_digits z Hz) as (n & _ & Hall & _).
    eapply all_chars_impl; [|exact Hall].
    intros c Hc. unfold not_dot.
    destruct (digit_not_special c Hc) as (_ & _ & _ & -> & _). reflexivity. }
  unfold decimal_int. destruct (k <? 0) eqn:E.
  - apply Z.ltb_lt in E. rewrite app_cons, app_nil. cbn [all_chars].
    rewrite Hd by lia. reflexivity.
  - apply Z.ltb_ge in E. now apply Hd.
Qed.

Lemma of_Z_small z : Z.abs z <= 2 ^ 53 -> of_Z z = Int z.
Proof.
  intros H. unfold of_Z, two53.
  destruct (Z.abs z <=? 2 ^ 53) eqn:E; [reflexivity|].
  apply Z.leb_gt in E. lia.
Qed.

(** Up to [2^53] in magnitude the numeral of a number is that of its
    integer value. *)
Lemma toString_small k :
  Z.abs k <= 2 ^ 53 -> toString (Int k) = decimal_int k.
Proof.
  intros H. unfold toString, decimal_int, toString_pos, two53.
  destruct (k =? 0) eqn:E0.
  - apply Z.eqb_eq in E0. subst k. reflexivity.
  - destruct (k <? 0) eqn:E.
    + apply Z.ltb_lt in E.
      destruct (- k <=? 2 ^ 53) eqn:E'; [reflexivity|].
      apply Z.leb_gt in E'. lia.
    + apply Z.ltb_ge in E.
      destruct (k <=? 2 ^ 53) eqn:E'; [reflexivity|].
      apply Z.leb_gt in E'. lia.
Qed.

Lemma stands_for_not_NaN x n : stands_for x n -> isNaN x = false.
Proof. intros [[->|[-> _]] _]; reflexivity. Qed.

Lemma parseInt_stands_for s neg m :
  parse_integer s = Some (neg, m) -> Z.abs (cond_Zopp neg m) < 2 ^ 53 ->
  stands_for (parseInt s) (cond_Zopp neg m).
Proof.
  intros Hp Hs. unfold parseInt. rewrite Hp.
  destruct (m =? 0) eqn:E.
  - apply Z.eqb_eq in E. subst m.
    destruct neg; split; simpl; auto; lia.
  - rewrite of_Z_small by lia. split; auto.
Qed.

Lemma max_loop_stands_for xs : forall ns h hn,
  Forall2 stands_for xs ns -> stands_for h hn ->
  stands_for (max_loop h xs) (fold_left Z.max ns hn).
Proof.
  induction xs as [|x xs IH]; intros ns h hn Hxs Hh.
  - inversion Hxs; subst. exact Hh.
  - inversion Hxs as [|? n ? ns' Hx Hrest]; subst.
    cbn [fold_left]. 
    assert (exists h', stands_for h' (Z.max hn n)
                       /\ max_loop h (x :: xs) = max_loop h' xs) as (h' & Hh' & ->).
    { destruct Hx as [[->|[-> ->]] Hn], Hh as [[->|[-> ->]] Hhn].
      - (* Int n against Int hn *)
        cbn [max_loop ltb].
        destruct (hn <? n) eqn:E.
        + apply Z.ltb_lt in E. exists (Int n).
          rewrite Z.max_r by lia. split; [split; auto|].
          destruct n; reflexivity.
        + apply Z.ltb_ge in E. exists (Int hn).
          rewrite Z.max_l by lia. split; [split; auto|].
          destruct n; reflexivity.
      - (* Int n against -0 *)
        destruct (Z.eq_dec n 0) as [->|Hnz].
        + exists (Int 0). split; [split; auto|]. reflexivity.
        + assert (max_loop NegZero (Int n :: xs)
                  = if 0 <? n then max_loop (Int n) xs else max_loop NegZero xs)
            as -> by (destruct n; try reflexivity; congruence).
          destruct (0 <? n) eqn:E.
          * apply Z.ltb_lt in E. exists (Int n).
            rewrite Z.max_r by lia. split; [split; auto|]. reflexivity.
          * apply Z.ltb_ge in E. exists NegZero.
            rewrite Z.max_l by lia. split; [split; auto|]. reflexivity.
      - (* -0 against Int hn *)
        cbn [max_loop ltb].
        destruct (hn <? 0) eqn:E.
        + apply Z.ltb_lt in E. exists NegZero.
          rewrite Z.max_r by lia. split; [split; auto|]. reflexivity.
        + apply Z.ltb_ge in E. exists (Int hn).
          rewrite Z.max_l by lia. split; [split; auto|]. reflexivity.
      - (* -0 against -0 *)
        exists NegZero. split; [split; auto|]. reflexivity. }
    now apply IH.
Qed.

(** [Math.max] of numbers that stand for integers stands for their
    maximum. *)
Lemma Math_max_stands_for x xs n ns :
  stands_for x n -> Forall2 stands_for xs ns ->
  stands_for (Math_max (x :: xs)) (fold_left Z.max ns n).
Proof.
  intros Hx Hxs. unfold Math_max.
  assert (max_loop (Inf true) (x :: xs) = max_loop x xs) as ->.
  { destruct Hx as [[->|[-> _]] _]; [destruct n|]; reflexivity. }
  now apply max_loop_stands_for.
Qed.

Lemma add_one_stands_for x n :
  stands_for x n -> add x (Int 1) = Int (n + 1).
Proof.
  intros [[->|[-> ->]] Hn]; [|reflexivity].
  cbn [add]. apply of_Z_small. lia.
Qed.


(** *** Agreement with binary64 arithmetic

    On sample values on both sides of [2^53], the integer-valued numbers
    behave as the binary64 numbers they stand for. *)

Example of_Z_agrees :
  forallb (fun z => SFeqb (to_Number (of_Z z)) (JsNumber.of_Z z)
                    || JsNumber.isNaN (JsNumber.of_Z z))
          sample_integers = true.
Proof. vm_compute. reflexivity. Qed.

Example add_agrees :
  forallb (fun x =>
    forallb (fun y =>
      same_number (to_Number (add x y))
                  (SFadd prec emax (to_Number x) (to_Number y)))
      sample_numbers) sample_numbers = true.
Proof. vm_compute. reflexivity. Qed.

Example ltb_agrees :
  forallb (fun x =>
    forallb (fun y =>
      Bool.eqb (ltb x y) (JsNumber.ltb (to_Number x) (to_Number y)))
      sample_numbers) sample_numbers = true.
Proof. vm_compute. reflexivity. Qed.

Example Math_max_agrees :
  forallb (fun x =>
    forallb (fun y =>
      same_number (to_Number (Math_max [x; y; x]))
                  (JsNumber.Math_max [to_Number x; to_Number y; to_Number x]))
      sample_numbers) sample_numbers = true.
Proof. vm_compute. reflexivity. Qed.

End IntegerFacts.

(** ** Base64 and the data URI *)

Module Base64Facts.

Import Chars StringFacts Base64.

Lemma b64char_nat (n : nat) :
  (n < 64)%nat ->
  unbase64 (b64char (Z.of_nat n)) = Some (Z.of_nat n)
  /\ Ascii.eqb (b64char (Z.of_nat n)) "=" = false.
Proof.
  intros H. unfold b64char. rewrite Nat2Z.id.
  do 64 (destruct n as [|n]; [split; reflexivity|]). lia.
Qed.

Lemma unbase64_b64char v :
  0 <= v < 64 ->
  unbase64 (b64char v) = Some v /\ Ascii.eqb (b64char v) "=" = false.
Proof.
  intros H. rewrite <- (Z2Nat.id v) by lia. apply b64char_nat. lia.
Qed.

Lemma b64char_not_comma v : not_comma (b64char v) = true.
Proof.
  unfold b64char. generalize (Z.to_nat v) as n. intros n.
  do 65 (destruct n as [|n]; [reflexivity|]). reflexivity.
Qed.

Lemma byte_to_Z_range b : 0 <= byte_to_Z b < 256.
Proof.
  unfold byte_to_Z. pose proof (Byte.to_N_bounded b). lia.
Qed.

Lemma byte_of_to_Z b : byte_of_Z (byte_to_Z b) = b.
Proof.
  unfold byte_of_Z. rewrite Z.mod_small by apply byte_to_Z_range.
  unfold byte_to_Z. now rewrite N2Z.id, Byte.of_to_N.
Qed.

Lemma sextets_cons v rest :
  0 <= v < 64 -> sextets (String (b64char v) rest) = v :: sextets rest.
Proof.
  intros H. destruct (unbase64_b64char v H) as [Hv Hpad].
  cbn [sextets]. now rewrite Hpad, Hv.
Qed.

Ltac sextet_range :=
  match goal with
  | |- 0 <= _ < 64 => Z.to_euclidean_division_equations; lia
  end.

Ltac recover_byte b :=
  etransitivity; [|apply (byte_of_to_Z b)]; f_equal;
  Z.to_euclidean_division_equations; lia.

(** Decoding undoes encoding. *)
Lemma decode_encode buf : decode (encode buf) = buf.
Proof.
  unfold decode.
  assert (forall n (l : list byte), (length l < n)%nat ->
            bytes_of_sextets (sextets (encode l)) = l) as H.
  { induction n as [|n IH]; intros l Hl; [lia|].
    destruct l as [|a [|b [|c rest]]].
    - reflexivity.
    - pose proof (byte_to_Z_range a).
      cbn [encode]. rewrite !sextets_cons by sextet_range.
      cbn [sextets Ascii.eqb Bool.eqb bytes_of_sextets].
      f_equal. recover_byte a.
    - pose proof (byte_to_Z_range a). pose proof (byte_to_Z_range b).
      cbn [encode]. rewrite !sextets_cons by sextet_range.
      cbn [sextets Ascii.eqb Bool.eqb bytes_of_sextets].
      f_equal; [recover_byte a|]. f_equal. recover_byte b.
    - pose proof (byte_to_Z_range a). pose proof (byte_to_Z_range b).
      pose proof (byte_to_Z_range c).
      cbn [encode]. rewrite !sextets_cons by sextet_range.
      cbn [bytes_of_sextets].
      rewrite (IH rest) by (simpl in Hl; lia).
      f_equal; [recover_byte a|]. f_equal; [recover_byte b|].
      f_equal. recover_byte c. }
  apply (H (S (length buf))). lia.
Qed.

(** The encoding contains no comma. *)
Lemma encode_no_comma buf : all_chars not_comma (encode buf) = true.
Proof.
  assert (forall n (l : list byte), (length l < n)%nat ->
            all_chars not_comma (encode l) = true) as H.
  { induction n as [|n IH]; intros l Hl; [lia|].
    destruct l as [|a [|b [|c rest]]]; cbn [encode all_chars];
      rewrite ?b64char_not_comma; try reflexivity.
    rewrite (IH rest) by (simpl in Hl; lia). reflexivity. }
  apply (H (S (length buf))). lia.
Qed.

Lemma split_go_no_sep sep s : forall cur,
  all_chars (fun c => negb (Ascii.eqb c sep)) s = true ->
  split_go sep cur s = [String.rev_app cur s].
Proof.
  induction s as [|c s IH]; intros cur Hs; [reflexivity|].
  cbn [all_chars] in Hs. apply andb_true_iff in Hs as [Hc Hs].
  cbn [split_go]. apply negb_true_iff in Hc. rewrite Hc.
  now rewrite IH.
Qed.

Lemma split_go_sep sep p rest : forall cur,
  all_chars (fun c => negb (Ascii.eqb c sep)) p = true ->
  split_go sep cur (p +:+ String sep rest)
  = String.rev_app cur p :: split_go sep EmptyString rest.
Proof.
  induction p as [|c p IH]; intros cur Hp.
  - rewrite app_nil. cbn [split_go]. now rewrite Ascii.eqb_refl.
  - cbn [all_chars] in Hp. apply andb_true_iff in Hp as [Hc Hp].
    rewrite app_cons. cbn [split_go]. apply negb_true_iff in Hc. rewrite Hc.
    now rewrite IH.
Qed.

(** What [downloadImage] finds after the first comma of the data URI. *)
Lemma split_data_uri buf :
  split ("data:image/png;base64," +:+ encode buf) "," !! 1%nat
  = Some (encode buf).
Proof.
  change ("data:image/png;base64," +:+ encode buf)
    with ("data:image/png;base64" +:+ String "," (encode buf)).
  unfold split. rewrite split_go_sep by reflexivity.
  rewrite split_go_no_sep by apply encode_no_comma. reflexivity.
Qed.

End Base64Facts.

(** ** The cache directory: [getNextFilename] and [downloadImage] *)

Module CacheFacts.

Import Chars StringFacts IntegerFacts CacheSpec Route.

Lemma matches_filename (x : JsInteger.IntNumber) : matches (filename_of x) = true.
Proof.
  unfold matches, filename_of. rewrite startsWith_app.
  rewrite <- app_assoc. now rewrite endsWith_app.
Qed.

Lemma middle_filename d :
  all_chars not_dot d = true -> middle ("true-color-" +:+ d +:+ ".png") = d.
Proof.
  intros Hd. unfold middle. rewrite replace_prefix. now apply replace_png.
Qed.

(** The filename written for a number up to [2^53] in magnitude has that
    number as its suffix. *)
Lemma suffix_filename k :
  Z.abs k <= 2 ^ 53 -> suffix (filename_of (JsInteger.Int k)) = Some k.
Proof.
  intros Hk. unfold suffix. rewrite matches_filename.
  unfold filename_of. rewrite (toString_small k Hk).
  rewrite (middle_filename _ (decimal_int_no_dot k)).
  rewrite parse_integer_decimal_int.
  f_equal. destruct (k <? 0) eqn:E; simpl; lia.
Qed.

Lemma suffixes_cons name names :
  suffixes (name :: names) =
    match suffix name with
    | Some n => n :: suffixes names
    | None => suffixes names
    end.
Proof. reflexivity. Qed.

Lemma numbers_of_cons name names :
  numbers_of (name :: names) =
    if matches name then
      if JsInteger.isNaN (JsInteger.parseInt (middle name)) then numbers_of names
      else JsInteger.parseInt (middle name) :: numbers_of names
    else numbers_of names.
Proof.
  unfold numbers_of, files_of. cbn [List.filter].
  destruct (matches name); [|reflexivity].
  cbn [map List.filter].
  now destruct (JsInteger.isNaN (JsInteger.parseInt (middle name))).
Qed.

(** [Math.max] is never given a NaN. *)
Lemma numbers_of_not_NaN names :
  Forall (fun n => JsInteger.isNaN n = false) (numbers_of names).
Proof.
  unfold numbers_of. apply Forall_forall. intros n Hn.
  apply list_elem_of_In, filter_In in Hn as [_ Hn].
  now apply negb_true_iff in Hn.
Qed.

(** In a safe directory the numbers that [getNextFilename] collects stand
    for the suffixes of the entries, one for one. *)
Lemma numbers_suffixes names :
  safe names -> Forall2 stands_for (numbers_of names) (suffixes names).
Proof.
  unfold safe. induction names as [|name names IH]; intros Hsafe.
  - constructor.
  - rewrite numbers_of_cons. rewrite suffixes_cons in Hsafe |- *.
    unfold suffix in *. destruct (matches name); [|now apply IH].
    destruct (JsInteger.parse_integer (middle name)) as [[neg m]|] eqn:Hp.
    + apply Forall_cons in Hsafe as [Hn Hrest].
      pose proof (parseInt_stands_for _ _ _ Hp Hn) as Hst.
      rewrite (stands_for_not_NaN _ _ Hst).
      constructor; [exact Hst|now apply IH].
    + unfold JsInteger.parseInt. rewrite Hp. simpl. now apply IH.
Qed.

(** In a safe directory the next number is the maximum suffix plus one
    (one when no entry has a suffix). *)
Lemma next_of_safe names :
  safe names -> next_of names = JsInteger.Int (max_suffix names + 1).
Proof.
  intros Hsafe. pose proof (numbers_suffixes names Hsafe) as H.
  unfold next_of, max_suffix, maximum.
  destruct H as [|x n xs ns Hx Hxs]; [reflexivity|].
  cbn [length Nat.ltb Nat.leb].
  apply add_one_stands_for. now apply Math_max_stands_for.
Qed.

Lemma fold_max_ge ns : forall n, n <= fold_left Z.max ns n
  /\ forall k, k ∈ ns -> k <= fold_left Z.max ns n.
Proof.
  induction ns as [|a ns IH]; intros n; simpl.
  - split; [lia|]. intros k Hk. inversion Hk.
  - destruct (IH (Z.max n a)) as [H1 H2]. split; [lia|].
    intros k [->|Hk]%elem_of_cons; [lia|now apply H2].
Qed.

Lemma fold_max_in ns : forall n,
  fold_left Z.max ns n = n \/ fold_left Z.max ns n ∈ ns.
Proof.
  induction ns as [|a ns IH]; intros n; simpl; [now left|].
  destruct (IH (Z.max n a)) as [H|H].
  - rewrite H. destruct (Z.max_spec n a) as [[_ ->]|[_ ->]];
      [right; left|left; reflexivity].
  - right. now right.
Qed.

(** [maximum] is the maximum: a member of a non-empty list, above all
    members. *)
Lemma maximum_spec d ns :
  (ns = [] /\ maximum d ns = d)
  \/ (maximum d ns ∈ ns /\ forall k, k ∈ ns -> k <= maximum d ns).
Proof.
  destruct ns as [|n ns]; [now left|right]. unfold maximum.
  destruct (fold_max_ge ns n) as [H1 H2]. split.
  - destruct (fold_max_in ns n) as [->|H]; [left|now right].
  - intros k [->|Hk]%elem_of_cons; [exact H1|now apply H2].
Qed.

Lemma suffix_in_suffixes name names n :
  name ∈ names -> suffix name = Some n -> n ∈ suffixes names.
Proof.
  intros Hin Hs. unfold suffixes. apply list_elem_of_omap. eauto.
Qed.

(** Every suffix of the directory is at most the maximum suffix. *)
Lemma suffix_le_max name names n :
  name ∈ names -> suffix name = Some n -> n <= max_suffix names.
Proof.
  intros Hin Hs. pose proof (suffix_in_suffixes _ _ _ Hin Hs) as Hn.
  unfold max_suffix.
  destruct (maximum_spec 0 (suffixes names)) as [[E _]|[_ H]].
  - rewrite E in Hn. inversion Hn.
  - now apply H.
Qed.

Lemma safe_max names : safe names -> Z.abs (max_suffix names) < 2 ^ 53.
Proof.
  intros Hsafe. unfold max_suffix.
  destruct (maximum_spec 0 (suffixes names)) as [[_ ->]|[H _]]; [lia|].
  unfold safe in Hsafe. rewrite Forall_forall in Hsafe. now apply Hsafe.
Qed.

Lemma safeb_safe names : safeb names = true -> safe names.
Proof.
  unfold safeb, safe. intros H. apply Forall_forall. intros n Hn.
  rewrite forallb_forall in H. apply Z.ltb_lt, H. now apply list_elem_of_In.
Qed.

(** The world after the directory has been made sure to exist. *)
Lemma getNextFilename_run w :
  getNextFilename w =
    (Normal (filename_of (next_of (entries (sentinel w)))),
     mkWorld (Some (files w)) (sent w)).
Proof.
  destruct w as [[dir|] trace]; reflexivity.
Qed.

Lemma entries_files w name :
  name ∈ entries (sentinel w) <-> is_Some (files w !! name).
Proof.
  unfold entries, files. destruct (sentinel w) as [dir|]; simpl.
  - rewrite list_elem_of_fmap. split.
    + intros ([k v] & -> & H). apply elem_of_map_to_list in H. eauto.
    + intros [v Hv]. exists (name, v). split; [reflexivity|].
      now apply elem_of_map_to_list.
  - rewrite lookup_empty. split; [intros H; inversion H|intros [? ?]; discriminate].
Qed.


Import Scenario.

(** C2 (amended).  For every state of the cache directory whose integer
    suffixes are all below [2^53] in magnitude, the next filename is
    [true-color-<m+1>.png], where [m] is the maximum integer suffix among
    the entries that have one, or 0 when none has: [m] is above every
    suffix, and is one of them unless there is none. *)
Theorem next_filename_max_plus_one (w : World) :
  safe (entries (sentinel w)) ->
  getNextFilename w
    = (Normal (next_filename (entries (sentinel w))),
       mkWorld (Some (files w)) (sent w))
  /\ (forall name n,
        is_Some (files w !! name) -> suffix name = Some n ->
        n <= max_suffix (entries (sentinel w)))
  /\ ((suffixes (entries (sentinel w)) = []
       /\ max_suffix (entries (sentinel w)) = 0)
      \/ max_suffix (entries (sentinel w)) ∈ suffixes (entries (sentinel w))).
Proof.
  intros Hsafe. split; [|split].
  - rewrite getNextFilename_run, (next_of_safe _ Hsafe).
    unfold filename_of, next_filename.
    rewrite toString_small; [reflexivity|].
    pose proof (safe_max _ Hsafe). lia.
  - intros name n Hin Hs. apply entries_files in Hin.
    now apply (suffix_le_max name).
  - unfold max_suffix.
    destruct (maximum_spec 0 (suffixes (entries (sentinel w))))
      as [[E H]|[H _]]; [left|right]; auto.
Qed.

(** The example of C2: with [true-color-1.png] and [true-color-3.png]
    the next filename is [true-color-4.png]. *)
Lemma next_filename_max_plus_one_witness :
  getNextFilename dir_1_3 = (Normal "true-color-4.png", dir_1_3)
  /\ (forall name n,
        is_Some (files dir_1_3 !! name) -> suffix name = Some n -> n <= 3)
  /\ ((suffixes (entries (sentinel dir_1_3)) = [] /\ 3 = 0)
      \/ 3 ∈ suffixes (entries (sentinel dir_1_3))).
Proof.
  exact (next_filename_max_plus_one dir_1_3
           (safeb_safe (entries (sentinel dir_1_3)) eq_refl)).
Defined.

(** An empty or absent directory gives [true-color-1.png]. *)
Example first_filename :
  fst (getNextFilename empty_dir) = Normal "true-color-1.png"
  /\ fst (getNextFilename fresh_world) = Normal "true-color-1.png".
Proof. split; reflexivity. Qed.

(** C2, as stated, fails where numbers stop counting integers one by one:
    with [true-color-9007199254740992.png] in the directory the maximum
    suffix is [2^53], the claim gives [true-color-9007199254740993.png],
    and [getNextFilename] returns the existing name. *)
Lemma next_filename_beyond_2_53 :
  max_suffix (entries (sentinel dir_2_53)) = 9007199254740992
  /\ next_filename (entries (sentinel dir_2_53))
     = "true-color-9007199254740993.png"
  /\ fst (getNextFilename dir_2_53)
     = Normal "true-color-9007199254740992.png"
  /\ fst (getNextFilename dir_2_53)
     <> Normal (next_filename (entries (sentinel dir_2_53))).
Proof. repeat split; try reflexivity. vm_compute. discriminate. Qed.


Lemma numbers_of_nil names :
  (forall name, name ∈ names ->
     matches name = false \/ JsInteger.parseInt (middle name) = JsInteger.INaN) ->
  numbers_of names = [].
Proof.
  induction names as [|name names IH]; intros H; [reflexivity|].
  rewrite numbers_of_cons.
  assert (numbers_of names = []) as ->
    by (apply IH; intros n Hn; apply H; now right).
  destruct (H name ltac:(left)) as [->| ->]; [reflexivity|].
  now destruct (matches name).
Qed.

(** C10 (amended).  [Math.max] is never given a NaN, and is not called on
    an empty list: entries that pass the filter but whose middle does not
    parse to an integer are ignored, and a directory with only such
    entries, or with no matching entry, yields [true-color-1.png].  When
    the suffixes of the directory are below [2^53] in magnitude and the
    maximum suffix is not negative, the suffix of the returned filename is
    an integer that is at least 1. *)
Theorem next_filename_at_least_one (w : World) :
  Forall (fun n => JsInteger.isNaN n = false)
         (numbers_of (entries (sentinel w)))
  /\ (numbers_of (entries (sentinel w)) = [] ->
      next_of (entries (sentinel w)) = JsInteger.Int 1
      /\ fst (getNextFilename w) = Normal "true-color-1.png")
  /\ ((forall name, is_Some (files w !! name) ->
         matches name = false
         \/ JsInteger.parseInt (middle name) = JsInteger.INaN) ->
      fst (getNextFilename w) = Normal "true-color-1.png")
  /\ (safe (entries (sentinel w)) ->
      0 <= max_suffix (entries (sentinel w)) ->
      exists k,
        1 <= k
        /\ next_of (entries (sentinel w)) = JsInteger.Int k
        /\ fst (getNextFilename w)
           = Normal ("true-color-" +:+ decimal k +:+ ".png")).
Proof.
  assert (numbers_of (entries (sentinel w)) = [] ->
          next_of (entries (sentinel w)) = JsInteger.Int 1
          /\ fst (getNextFilename w) = Normal "true-color-1.png") as Hnil.
  { intros E. rewrite getNextFilename_run. unfold next_of. rewrite E.
    split; reflexivity. }
  split; [apply numbers_of_not_NaN|]. split; [exact Hnil|]. split.
  - intros H. apply Hnil, numbers_of_nil.
    intros name Hin. apply H. now apply entries_files.
  - intros Hsafe Hmax. exists (max_suffix (entries (sentinel w)) + 1).
    split; [lia|]. split; [now apply next_of_safe|].
    rewrite getNextFilename_run, (next_of_safe _ Hsafe). cbn [fst].
    unfold filename_of. rewrite toString_small
      by (pose proof (safe_max _ Hsafe); lia).
    unfold decimal_int.
    destruct (max_suffix (entries (sentinel w)) + 1 <? 0) eqn:E;
      [apply Z.ltb_lt in E; lia|reflexivity].
Qed.

(** A directory whose matching entries carry no number, and a directory
    with suffixes 1 and 3. *)
Lemma next_filename_at_least_one_witness :
  fst (getNextFilename dir_no_number) = Normal "true-color-1.png"
  /\ exists k,
       1 <= k
       /\ next_of (entries (sentinel dir_1_3)) = JsInteger.Int k
       /\ fst (getNextFilename dir_1_3)
          = Normal ("true-color-" +:+ decimal k +:+ ".png").
Proof.
  split.
  - exact (proj2 (proj1 (proj2 (next_filename_at_least_one dir_no_number)) eq_refl)).
  - apply (proj2 (proj2 (proj2 (next_filename_at_least_one dir_1_3)))).
    + exact (safeb_safe (entries (sentinel dir_1_3)) eq_refl).
    + vm_compute. discriminate.
Defined.

(** C10, as stated, fails for a negative suffix: with
    [true-color--5.png] in the directory, [parseInt] gives [-5] and the
    filename returned is [true-color--4.png], whose suffix is below 1. *)
Lemma next_filename_negative :
  JsInteger.parseInt (middle "true-color--5.png") = JsInteger.Int (-5)
  /\ next_of (entries (sentinel dir_negative)) = JsInteger.Int (-4)
  /\ fst (getNextFilename dir_negative) = Normal "true-color--4.png"
  /\ suffix "true-color--4.png" = Some (-4)
  /\ -4 < 1.
Proof. repeat split. Qed.


Lemma files_mkWorld dir trace : files (mkWorld (Some dir) trace) = dir.
Proof. reflexivity. Qed.

Lemma downloadImage_run imageBase64 filename w :
  downloadImage imageBase64 filename w =
    match split imageBase64 "," !! 1%nat with
    | Some payload =>
        (Normal ("/sentinel/" +:+ filename),
         mkWorld (Some (<[filename := Base64.decode payload]> (files w))) (sent w))
    | None => (Throw invalid_arg, w)
    end.
Proof.
  unfold downloadImage.
  destruct (split imageBase64 "," !! 1%nat) as [payload|]; [|reflexivity].
  destruct w as [[dir|] trace]; reflexivity.
Qed.

Lemma cacheImage_run imageBase64 w :
  cacheImage imageBase64 w =
    let filename := filename_of (next_of (entries (sentinel w))) in
    match split imageBase64 "," !! 1%nat with
    | Some payload =>
        (Normal ("/sentinel/" +:+ filename, filename),
         mkWorld (Some (<[filename := Base64.decode payload]> (files w))) (sent w))
    | None => (Throw invalid_arg, mkWorld (Some (files w)) (sent w))
    end.
Proof.
  unfold cacheImage. unfold mbind at 1, M_bind at 1, bind at 1.
  rewrite getNextFilename_run.
  unfold mbind at 1, M_bind at 1, bind at 1.
  rewrite downloadImage_run. cbv zeta.
  destruct (split imageBase64 "," !! 1%nat) as [payload|]; reflexivity.
Qed.

(** What a successful call does to a safe directory, with the name of the
    new file spelled out. *)
Lemma cacheImage_effect (w w' : World)
    (imageBase64 fileUrl filename : string) :
  safe (entries (sentinel w)) ->
  cacheImage imageBase64 w = (Normal (fileUrl, filename), w') ->
  exists (buffer : list byte) (k : Z),
    fileUrl = "/sentinel/" +:+ filename
    /\ files w !! filename = None
    /\ sentinel w' = Some (<[filename := buffer]> (files w))
    /\ dom (files w') = {[filename]} ∪ dom (files w)
    /\ (forall name content,
          files w !! name = Some content -> files w' !! name = Some content)
    /\ suffix filename = Some k
    /\ k = max_suffix (entries (sentinel w)) + 1
    /\ (forall name n,
          is_Some (files w !! name) -> suffix name = Some n -> n < k)
    /\ sent w' = sent w
    /\ filename = "true-color-" +:+ decimal_int k +:+ ".png".
Proof.
  intros Hsafe Hrun. rewrite cacheImage_run in Hrun. cbv zeta in Hrun.
  destruct (split imageBase64 "," !! 1%nat) as [payload|]; [|discriminate].
  injection Hrun as <- <- <-.
  rewrite (next_of_safe _ Hsafe).
  set (k := max_suffix (entries (sentinel w)) + 1).
  assert (Z.abs k <= 2 ^ 53) as Hk
    by (pose proof (safe_max _ Hsafe); unfold k; lia).
  pose proof (suffix_filename k Hk) as Hsuffix.
  assert (forall name n,
            is_Some (files w !! name) -> suffix name = Some n -> n < k) as Hlt.
  { intros name n Hin Hs. apply entries_files in Hin.
    pose proof (suffix_le_max _ _ _ Hin Hs). unfold k. lia. }
  assert (files w !! filename_of (JsInteger.Int k) = None) as Hnew.
  { destruct (files w !! filename_of (JsInteger.Int k)) as [c|] eqn:E;
      [|reflexivity].
    pose proof (Hlt _ _ (mk_is_Some _ _ E) Hsuffix). lia. }
  exists (Base64.decode payload), k. rewrite !files_mkWorld.
  cbn [sentinel sent].
  repeat split; auto.
  - now rewrite dom_insert_L.
  - intros name content Hname. rewrite lookup_insert_ne; [assumption|].
    intros <-. congruence.
  - unfold filename_of. now rewrite toString_small.
Qed.


(** C6 (amended).  In a cache directory whose integer suffixes are all
    below [2^53] in magnitude, every successful call of the image cache
    creates exactly one new file, whose integer suffix exceeds every
    integer suffix already present, and leaves every file that existed
    unchanged; it sends nothing. *)
Theorem cacheImage_creates_one_file (w w' : World)
    (imageBase64 fileUrl filename : string) :
  safe (entries (sentinel w)) ->
  cacheImage imageBase64 w = (Normal (fileUrl, filename), w') ->
  exists (buffer : list byte) (k : Z),
    fileUrl = "/sentinel/" +:+ filename
    /\ files w !! filename = None
    /\ sentinel w' = Some (<[filename := buffer]> (files w))
    /\ dom (files w') = {[filename]} ∪ dom (files w)
    /\ (forall name content,
          files w !! name = Some content -> files w' !! name = Some content)
    /\ suffix filename = Some k
    /\ k = max_suffix (entries (sentinel w)) + 1
    /\ (forall name n,
          is_Some (files w !! name) -> suffix name = Some n -> n < k)
    /\ sent w' = sent w.
Proof.
  intros Hsafe Hrun.
  destruct (cacheImage_effect w w' imageBase64 fileUrl filename
              Hsafe Hrun)
    as (buffer & k & H1 & H2 & H3 & H4 & H5 & H6 & H7 & H8 & H9 & _).
  exists buffer, k. repeat split; assumption.
Qed.

(** An image cached next to [true-color-1.png] and [true-color-3.png]. *)
Lemma cacheImage_creates_one_file_witness :
  exists (buffer : list byte) (k : Z),
    "/sentinel/true-color-4.png" = "/sentinel/" +:+ "true-color-4.png"
    /\ files dir_1_3 !! "true-color-4.png" = None
    /\ Some (<[ "true-color-4.png" := other_png ]> (files dir_1_3))
       = Some (<[ "true-color-4.png" := buffer ]> (files dir_1_3))
    /\ dom (<[ "true-color-4.png" := other_png ]> (files dir_1_3))
       = {[ "true-color-4.png" ]} ∪ dom (files dir_1_3)
    /\ (forall name content,
          files dir_1_3 !! name = Some content ->
          <[ "true-color-4.png" := other_png ]> (files dir_1_3) !! name
          = Some content)
    /\ suffix "true-color-4.png" = Some k
    /\ k = max_suffix (entries (sentinel dir_1_3)) + 1
    /\ (forall name n,
          is_Some (files dir_1_3 !! name) -> suffix name = Some n -> n < k)
    /\ [] = sent dir_1_3.
Proof.
  exact (cacheImage_creates_one_file dir_1_3
           (world_of (<[ "true-color-4.png" := other_png ]> (files dir_1_3)))
           "data:image/png;base64,iVBORw0K"
           "/sentinel/true-color-4.png" "true-color-4.png"
           (safeb_safe (entries (sentinel dir_1_3)) eq_refl) eq_refl).
Defined.

(** C6, as stated, fails where numbers stop counting integers one by one:
    with [true-color-9007199254740992.png] in the directory, a successful
    call returns that very name, creates no file and overwrites the
    existing one. *)
Lemma cacheImage_overwrites_beyond_2_53 :
  files dir_2_53 !! "true-color-9007199254740992.png" = Some png
  /\ cacheImage "data:image/png;base64,iVBORw0K" dir_2_53
     = (Normal ("/sentinel/true-color-9007199254740992.png",
                "true-color-9007199254740992.png"),
        world_of {[ "true-color-9007199254740992.png" := other_png ]})
  /\ dom (files (world_of {[ "true-color-9007199254740992.png" := other_png ]}))
     = dom (files dir_2_53)
  /\ png <> other_png.
Proof.
  split; [reflexivity|]. split; [vm_compute; reflexivity|].
  split; [vm_compute; reflexivity|]. discriminate.
Qed.


(** *** Successive calls by a single caller *)

Lemma safe_iff names :
  safe names <->
  forall name n, name ∈ names -> suffix name = Some n -> Z.abs n < 2 ^ 53.
Proof.
  unfold safe, suffixes. rewrite Forall_forall. split.
  - intros H name n Hin Hs. apply H, list_elem_of_omap. eauto.
  - intros H n (name & Hin & Hs)%list_elem_of_omap. eauto.
Qed.

Lemma max_suffix_unique names name m :
  name ∈ names -> suffix name = Some m ->
  (forall name' n, name' ∈ names -> suffix name' = Some n -> n <= m) ->
  max_suffix names = m.
Proof.
  intros Hin Hs Hub.
  pose proof (suffix_le_max _ _ _ Hin Hs) as Hle.
  unfold max_suffix in *.
  destruct (maximum_spec 0 (suffixes names)) as [[E _]|[Hmem _]].
  - pose proof (suffix_in_suffixes _ _ _ Hin Hs) as H. rewrite E in H.
    inversion H.
  - apply list_elem_of_omap in Hmem as (name' & Hin' & Hs').
    pose proof (Hub _ _ Hin' Hs'). lia.
Qed.

Lemma entries_Some (dir : gmap string (list byte)) name :
  name ∈ entries (Some dir) <-> is_Some (dir !! name).
Proof. apply (entries_files (mkWorld (Some dir) [])). Qed.

Lemma entries_insert (dir : gmap string (list byte)) filename buffer name :
  name ∈ entries (Some (<[filename := buffer]> dir)) <->
  name = filename \/ name ∈ entries (Some dir).
Proof.
  rewrite !entries_Some.
  destruct (decide (filename = name)) as [->|Hne].
  - rewrite lookup_insert_eq. split; eauto.
  - rewrite lookup_insert_ne by assumption. split; [now right|].
    intros [->|H]; [congruence|exact H].
Qed.

(** After a successful call the directory is safe again as long as the
    new suffix is below [2^53], and the new suffix is its maximum. *)
Lemma cacheImage_next_state w w' imageBase64 fileUrl filename :
  safe (entries (sentinel w)) ->
  max_suffix (entries (sentinel w)) + 1 < 2 ^ 53 ->
  cacheImage imageBase64 w = (Normal (fileUrl, filename), w') ->
  filename = "true-color-" +:+ decimal_int (max_suffix (entries (sentinel w)) + 1)
             +:+ ".png"
  /\ safe (entries (sentinel w'))
  /\ max_suffix (entries (sentinel w')) = max_suffix (entries (sentinel w)) + 1.
Proof.
  intros Hsafe Hbound Hrun.
  destruct (cacheImage_effect w w' imageBase64 fileUrl filename
              Hsafe Hrun)
    as (buffer & k & _ & _ & Hdir & _ & _ & Hsuffix & -> & Hlt & _ & Hname).
  pose proof (safe_max _ Hsafe) as Hm.
  assert (forall name,
            name ∈ entries (sentinel w') <->
            name = filename \/ name ∈ entries (sentinel w)) as Hentries.
  { intros name. rewrite Hdir, entries_insert, entries_Some.
    now rewrite (entries_files w). }
  split; [exact Hname|]. split.
  - apply safe_iff. intros name n [->|Hin]%Hentries Hs.
    + rewrite Hsuffix in Hs. injection Hs as <-. lia.
    + rewrite safe_iff in Hsafe. eauto.
  - apply (max_suffix_unique _ filename); [apply Hentries; now left|exact Hsuffix|].
    intros name n [->|Hin]%Hentries Hs.
    + rewrite Hsuffix in Hs. injection Hs as <-. lia.
    + apply entries_files in Hin. pose proof (Hlt _ _ Hin Hs). lia.
Qed.

(** A single caller that caches [n] images, in a safe directory with room
    for [n] more suffixes below [2^53], gets the filenames
    [true-color-<m+1>.png], ..., [true-color-<m+n>.png]: distinct names,
    with increasing suffixes. *)
Lemma cacheImages_filenames images : forall w,
  safe (entries (sentinel w)) ->
  max_suffix (entries (sentinel w)) + Z.of_nat (length images) < 2 ^ 53 ->
  Forall (fun image => is_Some (split image "," !! 1%nat)) images ->
  fst (cacheImages images w)
  = Normal (filenames_from (max_suffix (entries (sentinel w))) (length images)).
Proof.
  induction images as [|image rest IH]; intros w Hsafe Hbound Himages;
    [reflexivity|].
  apply Forall_cons in Himages as [[payload Hpayload] Hrest].
  cbn [cacheImages length filenames_from].
  unfold mbind at 1, M_bind at 1, bind at 1.
  destruct (cacheImage image w) as [[[fileUrl filename]|e] w'] eqn:Hrun.
  - destruct (cacheImage_next_state w w' image fileUrl filename Hsafe
                ltac:(cbn [length] in Hbound; lia) Hrun)
      as (-> & Hsafe' & Hmax').
    unfold mbind at 1, M_bind at 1, bind at 1.
    specialize (IH w' Hsafe'
                  ltac:(rewrite Hmax'; cbn [length] in Hbound; lia) Hrest).
    destruct (cacheImages rest w') as [[names|e] w''];
      cbn [fst] in IH |- *; [|discriminate].
    injection IH as ->. now rewrite Hmax'.
  - rewrite cacheImage_run, Hpayload in Hrun. discriminate.
Qed.

End CacheFacts.
(** ** The bounding box *)

Module RouteFacts.

Import Json Route Scenario CacheSpec CacheFacts Base64Facts.

Ltac run :=
  unfold mbind, M_bind, mret, M_ret, bind, ret, lift, throw in *; cbn beta iota.

Lemma Math_min2_normal (a b : option value) (x y : Number) (w : World) :
  ToNumber a = Normal x -> ToNumber b = Normal y ->
  Math_min2 a b w = (Normal (Math_min [x; y]), w).
Proof. intros Ha Hb. unfold Math_min2. run. now rewrite Ha, Hb. Qed.

Lemma Math_max2_normal (a b : option value) (x y : Number) (w : World) :
  ToNumber a = Normal x -> ToNumber b = Normal y ->
  Math_max2 a b w = (Normal (Math_max [x; y]), w).
Proof. intros Ha Hb. unfold Math_max2. run. now rewrite Ha, Hb. Qed.

Lemma bbox_of_normal (lat1 lon1 lat2 lon2 : option value)
    (a1 o1 a2 o2 : Number) (w : World) :
  ToNumber lat1 = Normal a1 -> ToNumber lon1 = Normal o1 ->
  ToNumber lat2 = Normal a2 -> ToNumber lon2 = Normal o2 ->
  bbox_of lat1 lon1 lat2 lon2 w =
    (Normal [Math_min [o1; o2]; Math_min [a1; a2];
             Math_max [o1; o2]; Math_max [a1; a2]], w).
Proof.
  intros H1 H2 H3 H4. unfold bbox_of.
  unfold mbind at 1, M_bind at 1, bind at 1.
  rewrite (Math_min2_normal _ _ _ _ w H1 H3).
  unfold mbind at 1, M_bind at 1, bind at 1.
  rewrite (Math_max2_normal _ _ _ _ w H1 H3).
  unfold mbind at 1, M_bind at 1, bind at 1.
  rewrite (Math_min2_normal _ _ _ _ w H2 H4).
  unfold mbind at 1, M_bind at 1, bind at 1.
  rewrite (Math_max2_normal _ _ _ _ w H2 H4).
  reflexivity.
Qed.

(** C3.  For four coordinate inputs that coerce to finite numbers, the
    bounding box is [[minLon, minLat, maxLon, maxLat]], where on each
    axis the minimum (maximum) is one of the two inputs and is below
    (above) both; hence [minLon <= maxLon] and [minLat <= maxLat].  The
    box is the same whichever way the two latitudes, or the two
    longitudes, are given. *)
Theorem bbox_normalized (lat1 lon1 lat2 lon2 : option value)
    (a1 o1 a2 o2 : Number) (w : World) :
  ToNumber lat1 = Normal a1 -> ToNumber lon1 = Normal o1 ->
  ToNumber lat2 = Normal a2 -> ToNumber lon2 = Normal o2 ->
  isFinite a1 = true -> isFinite o1 = true ->
  isFinite a2 = true -> isFinite o2 = true ->
  exists minLon minLat maxLon maxLat,
    bbox_of lat1 lon1 lat2 lon2 w
      = (Normal [minLon; minLat; maxLon; maxLat], w)
    /\ minLon = Math_min [o1; o2] /\ maxLon = Math_max [o1; o2]
    /\ minLat = Math_min [a1; a2] /\ maxLat = Math_max [a1; a2]
    /\ (minLon = o1 \/ minLon = o2) /\ (maxLon = o1 \/ maxLon = o2)
    /\ (minLat = a1 \/ minLat = a2) /\ (maxLat = a1 \/ maxLat = a2)
    /\ leb minLon o1 = true /\ leb minLon o2 = true
    /\ leb o1 maxLon = true /\ leb o2 maxLon = true
    /\ leb minLat a1 = true /\ leb minLat a2 = true
    /\ leb a1 maxLat = true /\ leb a2 maxLat = true
    /\ leb minLon maxLon = true /\ leb minLat maxLat = true
    /\ bbox_of lat2 lon1 lat1 lon2 w = bbox_of lat1 lon1 lat2 lon2 w
    /\ bbox_of lat1 lon2 lat2 lon1 w = bbox_of lat1 lon1 lat2 lon2 w
    /\ bbox_of lat2 lon2 lat1 lon1 w = bbox_of lat1 lon1 lat2 lon2 w.
Proof.
  intros H1 H2 H3 H4 F1 F2 F3 F4.
  exists (Math_min [o1; o2]), (Math_min [a1; a2]),
         (Math_max [o1; o2]), (Math_max [a1; a2]).
  destruct (Math_min_lower o1 o2 F2 F4) as (Hm1 & Hm2 & Hm3).
  destruct (Math_max_upper o1 o2 F2 F4) as (HM1 & HM2 & HM3).
  destruct (Math_min_lower a1 a2 F1 F3) as (Hn1 & Hn2 & Hn3).
  destruct (Math_max_upper a1 a2 F1 F3) as (HN1 & HN2 & HN3).
  rewrite (bbox_of_normal _ _ _ _ _ _ _ _ w H1 H2 H3 H4).
  rewrite (bbox_of_normal _ _ _ _ _ _ _ _ w H3 H2 H1 H4).
  rewrite (bbox_of_normal _ _ _ _ _ _ _ _ w H1 H4 H3 H2).
  rewrite (bbox_of_normal _ _ _ _ _ _ _ _ w H3 H4 H1 H2).
  rewrite (Math_min_comm a2 a1 F3 F1), (Math_max_comm a2 a1 F3 F1).
  rewrite (Math_min_comm o2 o1 F4 F2), (Math_max_comm o2 o1 F4 F2).
  repeat split; auto using Math_min_le_max.
Qed.

(** The example of C3: [(lat1=10, lon1=20, lat2=5, lon2=15)] gives the
    box [[15, 5, 20, 10]]. *)
Lemma bbox_normalized_witness :
  exists minLon minLat maxLon maxLat,
    bbox_of (num 10) (num 20) (num 5) (num 15) fresh_world
      = (Normal [minLon; minLat; maxLon; maxLat], fresh_world)
    /\ minLon = of_Z 15 /\ maxLon = of_Z 20
    /\ minLat = of_Z 5 /\ maxLat = of_Z 10
    /\ (minLon = of_Z 20 \/ minLon = of_Z 15)
    /\ (maxLon = of_Z 20 \/ maxLon = of_Z 15)
    /\ (minLat = of_Z 10 \/ minLat = of_Z 5)
    /\ (maxLat = of_Z 10 \/ maxLat = of_Z 5)
    /\ leb minLon (of_Z 20) = true /\ leb minLon (of_Z 15) = true
    /\ leb (of_Z 20) maxLon = true /\ leb (of_Z 15) maxLon = true
    /\ leb minLat (of_Z 10) = true /\ leb minLat (of_Z 5) = true
    /\ leb (of_Z 10) maxLat = true /\ leb (of_Z 5) maxLat = true
    /\ leb minLon maxLon = true /\ leb minLat maxLat = true
    /\ bbox_of (num 5) (num 20) (num 10) (num 15) fresh_world
       = bbox_of (num 10) (num 20) (num 5) (num 15) fresh_world
    /\ bbox_of (num 10) (num 15) (num 5) (num 20) fresh_world
       = bbox_of (num 10) (num 20) (num 5) (num 15) fresh_world
    /\ bbox_of (num 5) (num 15) (num 10) (num 20) fresh_world
       = bbox_of (num 10) (num 20) (num 5) (num 15) fresh_world.
Proof.
  exact (bbox_normalized (num 10) (num 20) (num 5) (num 15)
           (of_Z 10) (of_Z 20) (of_Z 5) (of_Z 15) fresh_world
           eq_refl eq_refl eq_refl eq_refl eq_refl eq_refl eq_refl eq_refl).
Defined.


(** *** The steps of [POST] *)

(** Computations that leave the world as it is. *)
Lemma pure_bind {A B} (m : M A) (k : A -> M B) w :
  (forall w0, snd (m w0) = w0) -> (forall a w0, snd (k a w0) = w0) ->
  snd ((m ≫= k) w) = w.
Proof.
  intros Hm Hk. unfold mbind, M_bind, bind.
  specialize (Hm w). destruct (m w) as [[a|e] w']; simpl in Hm; subst w';
    [apply Hk|reflexivity].
Qed.

Lemma Math_min2_pure a b w : snd (Math_min2 a b w) = w.
Proof.
  unfold Math_min2. apply pure_bind; [reflexivity|].
  intros x w0. apply pure_bind; reflexivity.
Qed.

Lemma Math_max2_pure a b w : snd (Math_max2 a b w) = w.
Proof.
  unfold Math_max2. apply pure_bind; [reflexivity|].
  intros x w0. apply pure_bind; reflexivity.
Qed.

Lemma bbox_of_pure lat1 lon1 lat2 lon2 w :
  snd (bbox_of lat1 lon1 lat2 lon2 w) = w.
Proof.
  unfold bbox_of.
  apply pure_bind; [apply Math_min2_pure|]. intros minLat w0.
  apply pure_bind; [apply Math_max2_pure|]. intros maxLat w1.
  apply pure_bind; [apply Math_min2_pure|]. intros minLon w2.
  apply pure_bind; [apply Math_max2_pure|]. reflexivity.
Qed.

Lemma normalize_run request_json w :
  snd (normalize request_json w) = w.
Proof.
  unfold normalize. apply pure_bind; [reflexivity|]. intros data w0.
  apply pure_bind.
  - intros w1. destruct data; reflexivity.
  - intros [[[lat1 lon1] lat2] lon2] w1. apply bbox_of_pure.
Qed.

Lemma normalize_normal data lat1 lon1 lat2 lon2 a1 o1 a2 o2 w :
  destructure data w = (Normal (lat1, lon1, lat2, lon2), w) ->
  ToNumber lat1 = Normal a1 -> ToNumber lon1 = Normal o1 ->
  ToNumber lat2 = Normal a2 -> ToNumber lon2 = Normal o2 ->
  normalize (Normal data) w =
    (Normal [Math_min [o1; o2]; Math_min [a1; a2];
             Math_max [o1; o2]; Math_max [a1; a2]], w).
Proof.
  intros Hd H1 H2 H3 H4. unfold normalize.
  unfold mbind at 1, M_bind at 1, bind at 1, lift at 1.
  unfold mbind at 1, M_bind at 1, bind at 1. rewrite Hd.
  now apply bbox_of_normal.
Qed.

(** The outcome of the token exchange, read off the provider's answer. *)
Lemma authenticate_run env w :
  authenticate env w =
    (match fetch env (TokenRequest (SENTINELHUB_CLIENT_ID env)
                                   (SENTINELHUB_CLIENT_SECRET env)) with
     | Throw e => Throw e
     | Normal tokenRes =>
         match Http.json tokenRes with
         | Throw e => Throw e
         | Normal tokenData =>
             match get (Some tokenData) "access_token" with
             | Throw e => Throw e
             | Normal access_token =>
                 if negb (ToBoolean access_token)
                 then Throw (mkError "Failed to authenticate with SentinelHub")
                 else Normal access_token
             end
         end
     end,
     mkWorld (sentinel w)
       (sent w ++ [TokenRequest (SENTINELHUB_CLIENT_ID env)
                                (SENTINELHUB_CLIENT_SECRET env)])).
Proof.
  unfold authenticate, send. run.
  destruct (fetch env (TokenRequest (SENTINELHUB_CLIENT_ID env)
                                    (SENTINELHUB_CLIENT_SECRET env)))
    as [tokenRes|e]; [|reflexivity].
  destruct (Http.json tokenRes) as [tokenData|e]; [|reflexivity].
  destruct (get (Some tokenData) "access_token") as [tok|e]; [|reflexivity].
  now destruct (ToBoolean tok).
Qed.

Lemma fetchImage_run env access_token bbox evalscript w :
  fetchImage env access_token bbox evalscript w =
    if ToString_throws access_token then (Throw cannot_convert, w)
    else
      (match fetch env (ProcessRequest access_token bbox evalscript) with
       | Throw e => Throw e
       | Normal res =>
           if negb (Http.ok res) then Throw (mkError (Http.text res))
           else Normal ("data:image/png;base64," +:+ Base64.encode (Http.arrayBuffer res))
       end,
       mkWorld (sentinel w)
         (sent w ++ [ProcessRequest access_token bbox evalscript])).
Proof.
  unfold fetchImage, send. run.
  destruct (ToString_throws access_token); [reflexivity|].
  destruct (fetch env (ProcessRequest access_token bbox evalscript))
    as [res|e]; [|reflexivity].
  now destruct (Http.ok res).
Qed.

(** [POST] in terms of its steps. *)
Lemma POST_run env request_json w :
  POST env request_json w =
    match normalize request_json w with
    | (Throw e, w0) => (mkResponse 500 (Failed (message e)), w0)
    | (Normal bbox, w0) =>
        match authenticate env w0 with
        | (Throw e, w1) => (mkResponse 500 (Failed (message e)), w1)
        | (Normal access_token, w1) =>
            match fetchImage env access_token bbox evalscriptTrueColor w1 with
            | (Throw e, w2) => (mkResponse 500 (Failed (message e)), w2)
            | (Normal trueColorBase64, w2) =>
                match cacheImage trueColorBase64 w2 with
                | (Throw e, w3) => (mkResponse 500 (Failed (message e)), w3)
                | (Normal (fileUrl, filename), w3) =>
                    (mkResponse 200 (Image fileUrl filename bbox), w3)
                end
            end
        end
    end.
Proof.
  unfold POST, POST_try. run.
  destruct (normalize request_json w) as [[bbox|e] w0]; [|reflexivity].
  destruct (authenticate env w0) as [[tok|e] w1]; [|reflexivity].
  destruct (fetchImage env tok bbox evalscriptTrueColor w1) as [[img|e] w2];
    [|reflexivity].
  destruct (cacheImage img w2) as [[[url name]|e] w3]; reflexivity.
Qed.


(** *** Coordinates are not validated *)

Ltac sent_more :=
  cbn [snd sent];
  first [ exists []; reflexivity
        | eexists; rewrite <- app_assoc; reflexivity ].

(** C1 (amended).  The route does not validate its four coordinate
    inputs.  For every request whose body is a JSON value other than
    [null] and whose inputs convert to numbers without throwing - so for
    inputs that are missing or not parseable as a finite number, which
    convert to NaN or to an infinity - it computes the bounding box from
    the converted values and goes on to contact the provider: the token
    request is sent.  Only the page checks the inputs, and only for
    presence: while one of its four inputs is empty it shows an alert and
    sends no request; once none is empty it sends the four as they are,
    whatever they are. *)
Theorem coordinates_not_validated (env : Env) (data : value)
    (lat1 lon1 lat2 lon2 : option value) (a1 o1 a2 o2 : Number) (w : World)
    (fetch : Page.Fetch) (st : Page.State) :
  destructure data w = (Normal (lat1, lon1, lat2, lon2), w) ->
  ToNumber lat1 = Normal a1 -> ToNumber lon1 = Normal o1 ->
  ToNumber lat2 = Normal a2 -> ToNumber lon2 = Normal o2 ->
  normalize (Normal data) w =
    (Normal [Math_min [o1; o2]; Math_min [a1; a2];
             Math_max [o1; o2]; Math_max [a1; a2]], w)
  /\ (exists more,
        sent (snd (POST env (Normal data) w)) =
          sent w ++ TokenRequest (SENTINELHUB_CLIENT_ID env)
                                 (SENTINELHUB_CLIENT_SECRET env) :: more)
  /\ (if Page.is_empty (Page.lat1 st) || Page.is_empty (Page.lon1 st)
         || Page.is_empty (Page.lat2 st) || Page.is_empty (Page.lon2 st)
      then Page.fetchSentinelImage fetch st
           = Page.alert (Page.AlertText "Please enter all coordinates!") st
           /\ Page.requests (Page.fetchSentinelImage fetch st)
              = Page.requests st
      else Page.requests (Page.fetchSentinelImage fetch st)
           = Page.requests st ++
               [("/api/sentinel-image",
                 JObject [("lat1", JString (Page.lat1 st));
                          ("lon1", JString (Page.lon1 st));
                          ("lat2", JString (Page.lat2 st));
                          ("lon2", JString (Page.lon2 st))])]).
Proof.
  intros Hd H1 H2 H3 H4.
  pose proof (normalize_normal _ _ _ _ _ _ _ _ _ w Hd H1 H2 H3 H4) as Hn.
  split; [exact Hn|]. split.
  - rewrite POST_run, Hn, authenticate_run.
    destruct (Route.fetch env (TokenRequest (SENTINELHUB_CLIENT_ID env)
                                            (SENTINELHUB_CLIENT_SECRET env)))
      as [tokenRes|e]; [|sent_more].
    destruct (Http.json tokenRes) as [tokenData|e]; [|sent_more].
    destruct (get (Some tokenData) "access_token") as [tok|e]; [|sent_more].
    destruct (negb (ToBoolean tok)); [sent_more|].
    rewrite fetchImage_run. destruct (ToString_throws tok); [sent_more|].
    match goal with
    | |- context [Route.fetch env ?r] => destruct (Route.fetch env r) as [res|e]
    end; [|sent_more].
    destruct (negb (Http.ok res)); [sent_more|].
    rewrite cacheImage_run. cbv zeta.
    match goal with
    | |- context [split ?s ?c !! ?i] => destruct (split s c !! i)
    end; sent_more.
  - unfold Page.fetchSentinelImage.
    destruct (Page.is_empty (Page.lat1 st) || Page.is_empty (Page.lon1 st)
              || Page.is_empty (Page.lat2 st) || Page.is_empty (Page.lon2 st));
      [split; reflexivity|].
    repeat match goal with
           | |- context [match ?x with _ => _ end] => destruct x
           end; reflexivity.
Qed.

(** The page with the inputs ["abc"], ["20"], ["5"], ["15"] sends them,
    and the route makes NaN of the unparseable latitude and contacts the
    provider. *)
Lemma coordinates_not_validated_witness :
  normalize (Normal (coordinates "abc" "20" "5" "15")) fresh_world =
    (Normal [of_Z 15; NaN; of_Z 20; NaN], fresh_world)
  /\ (exists more,
        sent (snd (POST provider (Normal (coordinates "abc" "20" "5" "15"))
                        fresh_world)) =
          sent fresh_world ++ TokenRequest (Some "id") (Some "secret") :: more)
  /\ Page.requests
       (Page.fetchSentinelImage (route_as_fetch provider fresh_world)
                                page_unparseable)
     = Page.requests page_unparseable ++
         [("/api/sentinel-image", coordinates "abc" "20" "5" "15")].
Proof.
  exact (coordinates_not_validated provider (coordinates "abc" "20" "5" "15")
           (Some (JString "abc")) (Some (JString "20"))
           (Some (JString "5")) (Some (JString "15"))
           NaN (of_Z 20) (of_Z 5) (of_Z 15) fresh_world
           (route_as_fetch provider fresh_world) page_unparseable
           eq_refl eq_refl eq_refl eq_refl eq_refl).
Defined.

(** C1, as stated, fails: with an unparseable [lat1], and with [lat1]
    missing, the route answers 200 with a bounding box that contains NaN,
    after sending both requests to the provider and caching the image. *)
Lemma unparseable_coordinate_accepted :
  POST provider (Normal (coordinates "abc" "20" "5" "15")) fresh_world
  = (mkResponse 200
       (Image "/sentinel/true-color-1.png" "true-color-1.png"
              [of_Z 15; NaN; of_Z 20; NaN]),
     mkWorld (Some {[ "true-color-1.png" := png ]})
       [TokenRequest (Some "id") (Some "secret");
        ProcessRequest (Some (JString "tok")) [of_Z 15; NaN; of_Z 20; NaN]
                       evalscriptTrueColor])
  /\ POST provider
          (Normal (JObject [("lon1", JNumber (of_Z 20));
                            ("lat2", JNumber (of_Z 5));
                            ("lon2", JNumber (of_Z 15))]))
          fresh_world
     = (mkResponse 200
          (Image "/sentinel/true-color-1.png" "true-color-1.png"
                 [of_Z 15; NaN; of_Z 20; NaN]),
        mkWorld (Some {[ "true-color-1.png" := png ]})
          [TokenRequest (Some "id") (Some "secret");
           ProcessRequest (Some (JString "tok")) [of_Z 15; NaN; of_Z 20; NaN]
                          evalscriptTrueColor]).
Proof. split; vm_compute; reflexivity. Qed.

(** *** The token exchange *)

(** C4 (amended).  In every run that reaches the token exchange and
    receives a response that yields no truthy [access_token], the route
    answers 500 and the only request it has sent is the token request: no
    image-processing request is issued, and the cache directory is
    untouched.  The error is the authentication error when the body of
    the response is a JSON value other than [null] whose [access_token] is
    missing or falsy; when the body is not JSON, or is [null], the error
    is the message of the parse failure, or of the TypeError of reading a
    property of [null]. *)
Theorem no_access_token_no_image_request (env : Env)
    (request_json : Completion value) (bbox : list Number)
    (tokenRes : Http.Response) (w : World) :
  normalize request_json w = (Normal bbox, w) ->
  fetch env (TokenRequest (SENTINELHUB_CLIENT_ID env)
                          (SENTINELHUB_CLIENT_SECRET env)) = Normal tokenRes ->
  (forall tokenData access_token,
     Http.json tokenRes = Normal tokenData ->
     get (Some tokenData) "access_token" = Normal access_token ->
     ToBoolean access_token = false) ->
  POST env request_json w =
    (mkResponse 500
       (Failed
          match Http.json tokenRes with
          | Throw e => message e
          | Normal tokenData =>
              match get (Some tokenData) "access_token" with
              | Throw e => message e
              | Normal _ => "Failed to authenticate with SentinelHub"
              end
          end),
     mkWorld (sentinel w)
       (sent w ++ [TokenRequest (SENTINELHUB_CLIENT_ID env)
                                (SENTINELHUB_CLIENT_SECRET env)]))
  /\ List.filter is_process_request (sent (snd (POST env request_json w)))
     = List.filter is_process_request (sent w).
Proof.
  intros Hn Hf Hfalsy.
  assert (POST env request_json w =
    (mkResponse 500
       (Failed
          match Http.json tokenRes with
          | Throw e => message e
          | Normal tokenData =>
              match get (Some tokenData) "access_token" with
              | Throw e => message e
              | Normal _ => "Failed to authenticate with SentinelHub"
              end
          end),
     mkWorld (sentinel w)
       (sent w ++ [TokenRequest (SENTINELHUB_CLIENT_ID env)
                                (SENTINELHUB_CLIENT_SECRET env)]))) as H.
  { rewrite POST_run, Hn, authenticate_run, Hf.
    destruct (Http.json tokenRes) as [tokenData|e]; [|reflexivity].
    destruct (get (Some tokenData) "access_token") as [tok|e] eqn:Hg;
      [|reflexivity].
    now rewrite (Hfalsy tokenData tok eq_refl Hg). }
  split; [exact H|].
  rewrite H. cbn [snd sent]. rewrite List.filter_app. cbn.
  apply app_nil_r.
Qed.

(** The provider answers the token request with
    [{"error": "invalid_client"}]. *)
Lemma no_access_token_no_image_request_witness :
  POST provider_without_token (Normal (coordinates "10" "20" "5" "15"))
       fresh_world =
    (mkResponse 500 (Failed "Failed to authenticate with SentinelHub"),
     mkWorld None [TokenRequest (Some "id") (Some "wrong")])
  /\ List.filter is_process_request
       (sent (snd (POST provider_without_token
                        (Normal (coordinates "10" "20" "5" "15")) fresh_world)))
     = [].
Proof.
  apply (no_access_token_no_image_request provider_without_token
           (Normal (coordinates "10" "20" "5" "15"))
           [of_Z 15; of_Z 5; of_Z 20; of_Z 10]
           (json_response 401 (JObject [("error", JString "invalid_client")]))
           fresh_world eq_refl eq_refl).
  intros tokenData access_token Hj Hg.
  injection Hj as <-. injection Hg as <-. reflexivity.
Defined.

(** C4, as stated, fails for a token response without an [access_token]
    whose body is [null], or is not JSON: the route does answer 500
    without issuing the image-processing request, but the error is not the
    authentication error. *)
Lemma token_response_without_json_object :
  POST provider_null_token (Normal (coordinates "10" "20" "5" "15")) fresh_world
  = (mkResponse 500
       (Failed "Cannot read properties of null (reading 'access_token')"),
     mkWorld None [TokenRequest (Some "id") (Some "secret")])
  /\ POST provider_html_token (Normal (coordinates "10" "20" "5" "15"))
          fresh_world
     = (mkResponse 500
          (Failed "Unexpected token '<', <html>Ser... is not valid JSON"),
        mkWorld None [TokenRequest (Some "id") (Some "secret")])
  /\ "Cannot read properties of null (reading 'access_token')"
     <> "Failed to authenticate with SentinelHub"
  /\ "Unexpected token '<', <html>Ser... is not valid JSON"
     <> "Failed to authenticate with SentinelHub".
Proof.
  split; [vm_compute; reflexivity|]. split; [vm_compute; reflexivity|].
  split; discriminate.
Qed.

(** *** The image request *)

(** C7.  In every run in which the image-processing request is sent and
    receives a response that is not successful, the route answers 500 with
    an error that is exactly the text of the provider's response; nothing
    is cached. *)
Theorem provider_error_propagates (env : Env)
    (request_json : Completion value) (bbox : list Number)
    (access_token : option value) (res : Http.Response) (w w1 : World) :
  normalize request_json w = (Normal bbox, w) ->
  authenticate env w = (Normal access_token, w1) ->
  ToString_throws access_token = false ->
  fetch env (ProcessRequest access_token bbox evalscriptTrueColor) = Normal res ->
  Http.ok res = false ->
  POST env request_json w =
    (mkResponse 500 (Failed (Http.text res)),
     mkWorld (sentinel w)
       (sent w1 ++ [ProcessRequest access_token bbox evalscriptTrueColor])).
Proof.
  intros Hn Ha Ht Hf Hok.
  rewrite POST_run, Hn, Ha, fetchImage_run, Ht, Hf, Hok. cbn [negb].
  rewrite authenticate_run in Ha. injection Ha as _ <-. reflexivity.
Qed.

(** The provider refuses the processing request with status 400 and a
    message. *)
Lemma provider_error_propagates_witness :
  POST provider_refusing (Normal (coordinates "10" "20" "5" "15")) fresh_world =
    (mkResponse 500 (Failed "No data found for the given bounding box"),
     mkWorld None
       [TokenRequest (Some "id") (Some "secret");
        ProcessRequest (Some (JString "tok"))
                       [of_Z 15; of_Z 5; of_Z 20; of_Z 10] evalscriptTrueColor]).
Proof.
  exact (provider_error_propagates provider_refusing
           (Normal (coordinates "10" "20" "5" "15"))
           [of_Z 15; of_Z 5; of_Z 20; of_Z 10]
           (Some (JString "tok"))
           (raw_response 400 "No data found for the given bounding box" [])
           fresh_world
           (mkWorld None [TokenRequest (Some "id") (Some "secret")])
           eq_refl eq_refl eq_refl eq_refl eq_refl).
Defined.

(** *** From the provider's bytes to the cached file *)

(** C9.  For every byte sequence that the provider returns in a
    successful response, [fetchImage] returns the data URI
    [data:image/png;base64,<b64>] of those bytes; what follows its first
    comma is their base64 encoding, which decodes to the bytes
    themselves; and [downloadImage], given that data URI, writes exactly
    the bytes received. *)
Theorem data_uri_roundtrip (env : Env) (access_token : option value)
    (bbox : list Number) (evalscript : string) (res : Http.Response)
    (filename : string) (w : World) :
  ToString_throws access_token = false ->
  fetch env (ProcessRequest access_token bbox evalscript) = Normal res ->
  Http.ok res = true ->
  exists trueColorBase64 w1,
    fetchImage env access_token bbox evalscript w
    = (Normal trueColorBase64, w1)
    /\ trueColorBase64
       = "data:image/png;base64," +:+ Base64.encode (Http.arrayBuffer res)
    /\ split trueColorBase64 "," !! 1%nat
       = Some (Base64.encode (Http.arrayBuffer res))
    /\ Base64.decode (Base64.encode (Http.arrayBuffer res))
       = Http.arrayBuffer res
    /\ downloadImage trueColorBase64 filename w1
       = (Normal ("/sentinel/" +:+ filename),
          mkWorld (Some (<[filename := Http.arrayBuffer res]> (files w1)))
                  (sent w1)).
Proof.
  intros Ht Hf Hok.
  exists ("data:image/png;base64," +:+ Base64.encode (Http.arrayBuffer res)),
         (mkWorld (sentinel w)
            (sent w ++ [ProcessRequest access_token bbox evalscript])).
  split; [now rewrite fetchImage_run, Ht, Hf, Hok|].
  split; [reflexivity|]. split; [apply split_data_uri|].
  split; [apply decode_encode|].
  rewrite downloadImage_run, split_data_uri. now rewrite decode_encode.
Qed.

(** The provider returns the first bytes of a PNG file. *)
Lemma data_uri_roundtrip_witness :
  exists trueColorBase64 w1,
    fetchImage provider (Some (JString "tok"))
      [of_Z 15; of_Z 5; of_Z 20; of_Z 10] evalscriptTrueColor fresh_world
    = (Normal trueColorBase64, w1)
    /\ trueColorBase64 = "data:image/png;base64," +:+ Base64.encode png
    /\ split trueColorBase64 "," !! 1%nat = Some (Base64.encode png)
    /\ Base64.decode (Base64.encode png) = png
    /\ downloadImage trueColorBase64 "true-color-1.png" w1
       = (Normal ("/sentinel/" +:+ "true-color-1.png"),
          mkWorld (Some (<[ "true-color-1.png" := png ]> (files w1)))
                  (sent w1)).
Proof.
  exact (data_uri_roundtrip provider (Some (JString "tok"))
           [of_Z 15; of_Z 5; of_Z 20; of_Z 10] evalscriptTrueColor
           (raw_response 200 EmptyString png) "true-color-1.png" fresh_world
           eq_refl eq_refl eq_refl).
Defined.

(** A successful run: the file cached holds the bytes of the provider's
    response, and the response carries the bounding box
    [[15, 5, 20, 10]]. *)
Example POST_success :
  POST provider (Normal (coordinates "10" "20" "5" "15")) fresh_world
  = (mkResponse 200
       (Image "/sentinel/true-color-1.png" "true-color-1.png"
              [of_Z 15; of_Z 5; of_Z 20; of_Z 10]),
     mkWorld (Some {[ "true-color-1.png" := png ]})
       [TokenRequest (Some "id") (Some "secret");
        ProcessRequest (Some (JString "tok"))
                       [of_Z 15; of_Z 5; of_Z 20; of_Z 10] evalscriptTrueColor]).
Proof. vm_compute. reflexivity. Qed.

End RouteFacts.

(** ** The page *)

Module PageFacts.

Import Json Page Scenario.

(** The page sends nothing when one of the four inputs is empty. *)
Lemma fetchSentinelImage_incomplete (fetch : Fetch) (st : State) :
  lat1 st = EmptyString \/ lon1 st = EmptyString
  \/ lat2 st = EmptyString \/ lon2 st = EmptyString ->
  fetchSentinelImage fetch st
  = alert (AlertText "Please enter all coordinates!") st.
Proof.
  intros H. unfold fetchSentinelImage, is_empty.
  destruct H as [H|[H|[H|H]]]; rewrite H; cbn [String.eqb orb];
    rewrite ?orb_true_r; reflexivity.
Qed.

(** Non-empty inputs are sent as they are, as strings. *)
Lemma fetchSentinelImage_sends (fetch : Fetch) (st : State) :
  lat1 st <> EmptyString -> lon1 st <> EmptyString ->
  lat2 st <> EmptyString -> lon2 st <> EmptyString ->
  requests (fetchSentinelImage fetch st)
  = requests st ++
      [("/api/sentinel-image",
        JObject [("lat1", JString (lat1 st)); ("lon1", JString (lon1 st));
                 ("lat2", JString (lat2 st)); ("lon2", JString (lon2 st))])].
Proof.
  intros H1 H2 H3 H4. unfold fetchSentinelImage, is_empty.
  apply String.eqb_neq in H1, H2, H3, H4. rewrite H1, H2, H3, H4.
  cbn [orb].
  repeat match goal with
         | |- context [match ?x with _ => _ end] => destruct x
         end; reflexivity.
Qed.

Lemma runWildfireDetection_run (fetch : Fetch) (st : State) (url : value) :
  trueColorUrl st = Some url -> ToBoolean (Some url) = true ->
  runWildfireDetection fetch st =
    let st1 :=
      record_request "http://localhost:5000/predict"
        (JObject [("image_url", url)])
        (setResult JNull (setIsLoading true st)) in
    setIsLoading false
      (match fetch "http://localhost:5000/predict" (JObject [("image_url", url)]) with
       | Throw _ => setResult connection_error st1
       | Normal res =>
           match Http.json res with
           | Throw _ => setResult connection_error st1
           | Normal data => setResult data st1
           end
       end).
Proof.
  intros Hurl Htruthy. unfold runWildfireDetection.
  rewrite Hurl, Htruthy. cbn [negb]. cbn [trueColorUrl setResult setIsLoading].
  rewrite Hurl. reflexivity.
Qed.

(** C8.  For every classifier response with a JSON body, the result the
    page holds is that body itself: every field, among them probability,
    prediction, label, threshold and the image reference, reads as in the
    response, and a field that the response lacks - an error field - is
    not added. *)
Theorem verdict_passed_through (fetch : Fetch) (st : State)
    (url : value) (res : Http.Response) (data : value) :
  trueColorUrl st = Some url -> ToBoolean (Some url) = true ->
  fetch "http://localhost:5000/predict" (JObject [("image_url", url)])
    = Normal res ->
  Http.json res = Normal data ->
  result (runWildfireDetection fetch st) = data
  /\ (forall key,
        lookup_field key (result (runWildfireDetection fetch st))
        = lookup_field key data)
  /\ trueColorUrl (runWildfireDetection fetch st) = Some url
  /\ isLoading (runWildfireDetection fetch st) = false.
Proof.
  intros Hurl Htruthy Hfetch Hjson.
  rewrite (runWildfireDetection_run fetch st url Hurl Htruthy). cbv zeta.
  rewrite Hfetch, Hjson. cbn. repeat split; auto.
Qed.

(** The example of C8. *)
Lemma verdict_passed_through_witness :
  result (runWildfireDetection classifier page_with_image) = verdict
  /\ (forall key,
        lookup_field key (result (runWildfireDetection classifier page_with_image))
        = lookup_field key verdict)
  /\ trueColorUrl (runWildfireDetection classifier page_with_image)
     = Some (JString "/sentinel/true-color-1.png")
  /\ isLoading (runWildfireDetection classifier page_with_image) = false.
Proof.
  exact (verdict_passed_through classifier page_with_image
           (JString "/sentinel/true-color-1.png")
           (json_response 200 verdict) verdict
           eq_refl eq_refl eq_refl eq_refl).
Defined.

Example verdict_rendered :
  lookup_field "error" (result (runWildfireDetection classifier page_with_image))
  = None
  /\ render (runWildfireDetection classifier page_with_image)
     = VerdictCard (Some (JString "Wildfire"))
                   (Some (JNumber (StringToNumber "0.92")))
                   (Some (JNumber (of_Z 1))).
Proof. split; reflexivity. Qed.

(** C5 (amended).  When the inference endpoint cannot be reached, or its
    response has a body that is not valid JSON, the page holds the result
    [{error: "Failed to connect to prediction server"}], which has none of
    the verdict fields.  The status of the response is not looked at: a
    response with a JSON body, successful or not, is held as the result as
    it is. *)
Theorem inference_failure_reported (fetch : Fetch) (st : State) (url : value) :
  trueColorUrl st = Some url -> ToBoolean (Some url) = true ->
  match fetch "http://localhost:5000/predict" (JObject [("image_url", url)]) with
  | Throw _ => result (runWildfireDetection fetch st) = connection_error
  | Normal res =>
      match Http.json res with
      | Throw _ => result (runWildfireDetection fetch st) = connection_error
      | Normal data => result (runWildfireDetection fetch st) = data
      end
  end
  /\ lookup_field "error" connection_error
     = Some (JString "Failed to connect to prediction server")
  /\ lookup_field "probability" connection_error = None
  /\ lookup_field "prediction" connection_error = None
  /\ lookup_field "label" connection_error = None
  /\ lookup_field "threshold" connection_error = None.
Proof.
  intros Hurl Htruthy. split; [|repeat split].
  rewrite (runWildfireDetection_run fetch st url Hurl Htruthy). cbv zeta.
  destruct (fetch _ _) as [res|e]; [|reflexivity].
  destruct (Http.json res) as [data|e]; reflexivity.
Qed.

(** A status 500 with an HTML body. *)
Lemma inference_failure_reported_witness :
  result (runWildfireDetection classifier_500_html page_with_image)
    = connection_error
  /\ lookup_field "error" connection_error
     = Some (JString "Failed to connect to prediction server")
  /\ lookup_field "probability" connection_error = None
  /\ lookup_field "prediction" connection_error = None
  /\ lookup_field "label" connection_error = None
  /\ lookup_field "threshold" connection_error = None.
Proof.
  exact (inference_failure_reported classifier_500_html page_with_image
           (JString "/sentinel/true-color-1.png") eq_refl eq_refl).
Defined.

(** C5, as stated, fails for a response that is not successful and has a
    JSON body: the body is held as the result, here with all the verdict
    fields and no error field, and the verdict card is rendered. *)
Lemma status_ignored :
  Http.ok (json_response 500 verdict) = false
  /\ result (runWildfireDetection classifier_500_json page_with_image) = verdict
  /\ lookup_field "error" verdict = None
  /\ lookup_field "probability" verdict = Some (JNumber (StringToNumber "0.92"))
  /\ render (runWildfireDetection classifier_500_json page_with_image)
     = VerdictCard (Some (JString "Wildfire"))
                   (Some (JNumber (StringToNumber "0.92")))
                   (Some (JNumber (of_Z 1))).
Proof. repeat split. Qed.

(** The endpoint cannot be reached. *)
Example classifier_unreachable :
  result (runWildfireDetection classifier_down page_with_image)
    = connection_error
  /\ render (runWildfireDetection classifier_down page_with_image)
     = ErrorCard (Some (JString "Failed to connect to prediction server")).
Proof. split; reflexivity. Qed.

(** An empty longitude: the page alerts and sends nothing. *)
Example incomplete_coordinates :
  fetchSentinelImage (fun _ _ => Throw (mkError "Failed to fetch")) page_incomplete
  = alert (AlertText "Please enter all coordinates!") page_incomplete
  /\ requests (fetchSentinelImage (fun _ _ => Throw (mkError "Failed to fetch"))
                                  page_incomplete) = [].
Proof. split; reflexivity. Qed.

End PageFacts.

(** ** More about the route: its outcomes, its requests and its cache *)

Module RouteOutcomes.

Import Chars StringFacts Json Route Scenario CacheSpec CacheFacts Base64Facts
       RouteFacts Outcomes.

Lemma authenticate_truthy env w tok w1 :
  authenticate env w = (Normal tok, w1) ->
  ToBoolean tok = true /\ w1 = after_token env w.
Proof.
  intros H. rewrite authenticate_run in H.
  destruct (fetch env _) as [tokenRes|e]; [|discriminate H].
  destruct (Http.json tokenRes) as [tokenData|e]; [|discriminate H].
  destruct (get (Some tokenData) "access_token") as [t|e] eqn:G;
    [|discriminate H].
  destruct (ToBoolean t) eqn:E; simpl in H; [|discriminate H].
  injection H as Htok Hw. subst. now split.
Qed.

Lemma after_token_process env tok bbox w :
  mkWorld (sentinel (after_token env w))
    (sent (after_token env w) ++ [ProcessRequest tok bbox evalscriptTrueColor])
  = after_process env tok bbox w.
Proof.
  unfold after_process, after_token. cbn [sentinel sent].
  now rewrite <- List.app_assoc.
Qed.

(** Every run of [POST] goes one of the five ways. *)
Lemma POST_outcome env request_json w :
  Outcome env request_json w (POST env request_json w).
Proof.
  rewrite POST_run.
  pose proof (normalize_run request_json w) as Hw.
  destruct (normalize request_json w) as [[bbox|e] w0] eqn:Hn;
    cbn [snd] in Hw; subst w0; [|now apply BadRequest].
  destruct (authenticate env w) as [[tok|e] w1] eqn:Ha.
  2:{ assert (w1 = after_token env w) as ->
        by (rewrite authenticate_run in Ha; injection Ha as _ Hw1; now subst w1).
      now apply (NoToken _ _ _ bbox). }
  destruct (authenticate_truthy _ _ _ _ Ha) as [Htruthy ->].
  assert (fetchImage env tok bbox evalscriptTrueColor (after_token env w)
          = fetchImage env tok bbox evalscriptTrueColor (after_token env w))
    as Hrun by reflexivity.
  rewrite fetchImage_run in Hrun at 2. rewrite fetchImage_run.
  rewrite after_token_process in *.
  destruct (ToString_throws tok) eqn:Ht; [now apply (BadToken _ _ _ bbox tok)|].
  destruct (fetch env (ProcessRequest tok bbox evalscriptTrueColor))
    as [res|e] eqn:Hf; [|now apply (NoImage _ _ _ bbox tok e)].
  destruct (Http.ok res) eqn:Hok; cbn [negb] in *;
    [|now apply (NoImage _ _ _ bbox tok (mkError (Http.text res)))].
  rewrite cacheImage_run. cbv zeta. rewrite split_data_uri, decode_encode.
  exact (Cached env request_json w bbox tok res Hn Ha Htruthy Ht Hf Hok).
Qed.

(** *** The requests of a run *)

(** X1.  Whatever the request and whatever the provider answers, a run
    of [POST] sends nothing, or the token request alone, or the token
    request followed by one processing request: never more than two
    requests, never the processing request first.  The processing request
    carries the bounding box computed from the request body, a token that
    is truthy, and the true-colour script. *)
Theorem POST_sends_at_most_two (env : Env) (request_json : Completion value)
    (w : World) :
  sent (snd (POST env request_json w)) = sent w
  \/ sent (snd (POST env request_json w)) = sent w ++ [token_request env]
  \/ exists tok bbox,
       sent (snd (POST env request_json w))
       = sent w ++ [token_request env;
                    ProcessRequest tok bbox evalscriptTrueColor]
       /\ normalize request_json w = (Normal bbox, w)
       /\ ToBoolean tok = true.
Proof.
  destruct (POST_outcome env request_json w); cbn [snd];
    [now left|right; now left|right; now left| |];
    right; right; exists tok, bbox; auto.
Qed.

(** *** Failure and the cache *)

(** X2.  A run of [POST] in which the request body, the token exchange
    or the image request fails - the steps that come before the caching
    step - answers 500 with the message of that failure, and has made no
    call to the file system: the cache directory is exactly as it was,
    not even created. *)
Theorem POST_failure_leaves_cache (env : Env)
    (request_json : Completion value) (e : Error) (w w' : World) :
  normalize request_json w = (Throw e, w')
  \/ (exists bbox w0,
        normalize request_json w = (Normal bbox, w0)
        /\ authenticate env w0 = (Throw e, w'))
  \/ (exists bbox w0 access_token w1,
        normalize request_json w = (Normal bbox, w0)
        /\ authenticate env w0 = (Normal access_token, w1)
        /\ fetchImage env access_token bbox evalscriptTrueColor w1
           = (Throw e, w')) ->
  POST env request_json w = (mkResponse 500 (Failed (message e)), w')
  /\ sentinel w' = sentinel w.
Proof.
  intros [Hn|[(bbox & w0 & Hn & Ha)|(bbox & w0 & tok & w1 & Hn & Ha & Hi)]];
    rewrite POST_run, Hn;
    pose proof (normalize_run request_json w) as Hw;
    rewrite Hn in Hw; cbn [snd] in Hw; subst.
  - now split.
  - rewrite Ha. split; [reflexivity|].
    rewrite authenticate_run in Ha. now injection Ha as _ <-.
  - rewrite Ha, Hi. split; [reflexivity|].
    rewrite authenticate_run in Ha. injection Ha as _ <-.
    rewrite fetchImage_run in Hi.
    destruct (ToString_throws tok); now injection Hi as _ <-.
Qed.

(** The provider refuses the processing request. *)
Lemma POST_failure_leaves_cache_witness :
  POST provider_refusing (Normal (coordinates "10" "20" "5" "15")) dir_1_3
  = (mkResponse 500 (Failed "No data found for the given bounding box"),
     after_process provider_refusing (Some (JString "tok"))
       [of_Z 15; of_Z 5; of_Z 20; of_Z 10] dir_1_3)
  /\ sentinel (after_process provider_refusing (Some (JString "tok"))
                 [of_Z 15; of_Z 5; of_Z 20; of_Z 10] dir_1_3)
     = sentinel dir_1_3.
Proof.
  apply (POST_failure_leaves_cache provider_refusing
           (Normal (coordinates "10" "20" "5" "15"))
           (mkError "No data found for the given bounding box") dir_1_3).
  right. right.
  exists [of_Z 15; of_Z 5; of_Z 20; of_Z 10], dir_1_3,
         (Some (JString "tok")), (after_token provider_refusing dir_1_3).
  repeat split.
Defined.

(** X3.  When the request body yields a bounding box, the token response
    carries an [access_token] that is truthy and converts to a string, and
    the processing response is successful, the route answers 200 with
    [/sentinel/<filename>], the filename and the bounding box, and the
    file of that name holds exactly the bytes of the processing response.
    The status of the token response plays no part. *)
Theorem POST_caches_provider_bytes (env : Env)
    (request_json : Completion value) (bbox : list Number)
    (tokenRes : Http.Response) (tokenData : value) (tok : option value)
    (res : Http.Response) (w : World) :
  normalize request_json w = (Normal bbox, w) ->
  fetch env (token_request env) = Normal tokenRes ->
  Http.json tokenRes = Normal tokenData ->
  get (Some tokenData) "access_token" = Normal tok ->
  ToBoolean tok = true ->
  ToString_throws tok = false ->
  fetch env (ProcessRequest tok bbox evalscriptTrueColor) = Normal res ->
  Http.ok res = true ->
  POST env request_json w
  = (mkResponse 200
       (Image ("/sentinel/" +:+ filename_of (next_of (entries (sentinel w))))
              (filename_of (next_of (entries (sentinel w)))) bbox),
     after_success env tok bbox (Http.arrayBuffer res) w)
  /\ files (snd (POST env request_json w))
       !! filename_of (next_of (entries (sentinel w)))
     = Some (Http.arrayBuffer res).
Proof.
  intros Hn Hf Hj Hg Htruthy Ht Hp Hok.
  assert (POST env request_json w
    = (mkResponse 200
         (Image ("/sentinel/" +:+ filename_of (next_of (entries (sentinel w))))
                (filename_of (next_of (entries (sentinel w)))) bbox),
       after_success env tok bbox (Http.arrayBuffer res) w)) as H.
  { rewrite POST_run, Hn, authenticate_run.
    unfold token_request in Hf. rewrite Hf, Hj, Hg, Htruthy. cbn [negb].
    rewrite fetchImage_run, Ht, Hp, Hok. cbn [negb].
    rewrite cacheImage_run. cbv zeta. rewrite split_data_uri, decode_encode.
    unfold after_success, files. cbn [sentinel sent].
    now rewrite <- List.app_assoc. }
  split; [exact H|]. rewrite H. cbn [snd]. unfold after_success.
  rewrite files_mkWorld. apply lookup_insert_eq.
Qed.

(** A token response of status 500 that carries a token. *)
Lemma POST_caches_provider_bytes_witness :
  POST provider_token_500 (Normal (coordinates "10" "20" "5" "15")) fresh_world
  = (mkResponse 200
       (Image ("/sentinel/" +:+ "true-color-1.png") "true-color-1.png"
              [of_Z 15; of_Z 5; of_Z 20; of_Z 10]),
     after_success provider_token_500 (Some (JString "tok"))
       [of_Z 15; of_Z 5; of_Z 20; of_Z 10] png fresh_world)
  /\ files (snd (POST provider_token_500
                      (Normal (coordinates "10" "20" "5" "15")) fresh_world))
       !! "true-color-1.png"
     = Some png.
Proof.
  exact (POST_caches_provider_bytes provider_token_500
           (Normal (coordinates "10" "20" "5" "15"))
           [of_Z 15; of_Z 5; of_Z 20; of_Z 10]
           (json_response 500 (JObject [("access_token", JString "tok")]))
           (JObject [("access_token", JString "tok")])
           (Some (JString "tok"))
           (raw_response 200 EmptyString png) fresh_world
           eq_refl eq_refl eq_refl eq_refl eq_refl eq_refl eq_refl eq_refl).
Defined.

(** *** Requests that are refused before the provider is contacted *)

Lemma ToNumber_cases (v : option value) :
  (ToString_throws v = true /\ ToNumber v = Throw cannot_convert)
  \/ (ToString_throws v = false /\ exists x, ToNumber v = Normal x).
Proof.
  destruct v as [v|]; [|right; split; [reflexivity|now exists NaN]].
  unfold ToNumber, ToString_throws.
  destruct (toString_throws v); [left|right]; split; eauto.
Qed.

Lemma bbox_of_throws lat1 lon1 lat2 lon2 w :
  existsb ToString_throws [lat1; lon1; lat2; lon2] = true ->
  bbox_of lat1 lon1 lat2 lon2 w = (Throw cannot_convert, w).
Proof.
  intros H. unfold bbox_of, Math_min2, Math_max2. run.
  destruct (ToNumber_cases lat1) as [[T1 ->]|[T1 [a1 ->]]]; [reflexivity|].
  destruct (ToNumber_cases lat2) as [[T3 ->]|[T3 [a2 ->]]]; [reflexivity|].
  destruct (ToNumber_cases lon1) as [[T2 ->]|[T2 [o1 ->]]]; [reflexivity|].
  destruct (ToNumber_cases lon2) as [[T4 ->]|[T4 [o2 ->]]]; [reflexivity|].
  cbn [existsb] in H. rewrite T1, T2, T3, T4 in H. discriminate.
Qed.

(** X4.  A request whose body cannot be read as JSON, or is [null], or
    holds a coordinate that cannot be converted to a primitive (an object
    with a property [toString], or an array that contains one), is
    answered 500 with the message of the exception, and the provider is
    not contacted: nothing is sent and the cache directory is untouched. *)
Theorem bad_request_contacts_nobody (env : Env)
    (request_json : Completion value) (m : string) (w : World) :
  (exists e, request_json = Throw e /\ m = message e)
  \/ (request_json = Normal JNull
      /\ m = "Cannot destructure property 'lat1' of '(intermediate value)' as it is null.")
  \/ (exists props,
        request_json = Normal (JObject props)
        /\ existsb ToString_throws
             [lookup "lat1" props; lookup "lon1" props;
              lookup "lat2" props; lookup "lon2" props] = true
        /\ m = "Cannot convert object to primitive value") ->
  POST env request_json w = (mkResponse 500 (Failed m), w).
Proof.
  intros [(e & -> & ->)|[[-> ->]|(props & -> & H & ->)]];
    rewrite POST_run; try reflexivity.
  unfold normalize.
  unfold mbind at 1, M_bind at 1, bind at 1, lift at 1.
  unfold mbind at 1, M_bind at 1, bind at 1. cbn [destructure].
  unfold ret at 1. now rewrite (bbox_of_throws _ _ _ _ w H).
Qed.

(** A latitude that is an object with a property [toString]. *)
Lemma bad_request_contacts_nobody_witness :
  POST provider (Normal hostile_coordinates) fresh_world
  = (mkResponse 500 (Failed "Cannot convert object to primitive value"),
     fresh_world).
Proof.
  apply (bad_request_contacts_nobody provider (Normal hostile_coordinates)
           "Cannot convert object to primitive value" fresh_world).
  right. right. exists [("lat1", JObject [("toString", JNumber (of_Z 1))]);
                        ("lon1", JNumber (of_Z 20));
                        ("lat2", JNumber (of_Z 5));
                        ("lon2", JNumber (of_Z 15))].
  repeat split.
Defined.

(** *** The token exchange *)

(** X5.  When the token request is rejected (the provider cannot be
    reached), or its response is not JSON, the route answers 500 with the
    message of that failure; when the response is JSON and its
    [access_token] is falsy - missing, [null], [false], [0] or the empty
    string - it answers 500 with the authentication error.  In each case
    the token request is the only request sent and the cache directory is
    untouched. *)
Theorem token_exchange_failure (env : Env) (request_json : Completion value)
    (bbox : list Number) (m : string) (w : World) :
  normalize request_json w = (Normal bbox, w) ->
  (exists e, fetch env (token_request env) = Throw e /\ m = message e)
  \/ (exists tokenRes e,
        fetch env (token_request env) = Normal tokenRes
        /\ Http.json tokenRes = Throw e /\ m = message e)
  \/ (exists tokenRes tokenData tok,
        fetch env (token_request env) = Normal tokenRes
        /\ Http.json tokenRes = Normal tokenData
        /\ get (Some tokenData) "access_token" = Normal tok
        /\ ToBoolean tok = false
        /\ m = "Failed to authenticate with SentinelHub") ->
  POST env request_json w = (mkResponse 500 (Failed m), after_token env w).
Proof.
  intros Hn H. rewrite POST_run, Hn, authenticate_run.
  unfold token_request in H.
  destruct H as [(e & -> & ->)|[(tokenRes & e & -> & -> & ->)
                               |(tokenRes & tokenData & tok & -> & -> & -> & -> & ->)]];
    reflexivity.
Qed.

(** The provider cannot be reached. *)
Lemma token_exchange_failure_witness :
  POST provider_down (Normal (coordinates "10" "20" "5" "15")) fresh_world
  = (mkResponse 500
       (Failed "request to https://services.sentinel-hub.com/oauth/token failed"),
     after_token provider_down fresh_world).
Proof.
  apply (token_exchange_failure provider_down
           (Normal (coordinates "10" "20" "5" "15"))
           [of_Z 15; of_Z 5; of_Z 20; of_Z 10]
           "request to https://services.sentinel-hub.com/oauth/token failed"
           fresh_world eq_refl).
  left. eexists. split; reflexivity.
Defined.

(** *** Coordinates that are not numbers *)

Lemma Math_min_NaN (x y : Number) :
  isNaN x || isNaN y = true -> Math_min [x; y] = NaN.
Proof.
  destruct x as [[]| [] | |[] ? ?], y as [[]| [] | |[] ? ?];
    try discriminate; intros _; reflexivity.
Qed.

Lemma Math_max_NaN (x y : Number) :
  isNaN x || isNaN y = true -> Math_max [x; y] = NaN.
Proof.
  destruct x as [[]| [] | |[] ? ?], y as [[]| [] | |[] ? ?];
    try discriminate; intros _; reflexivity.
Qed.

(** X6.  When one of the two latitudes is not a number (missing, or a
    string that is no numeral), both the minimum and the maximum latitude
    of the bounding box are NaN, whatever the other latitude is; likewise
    for the longitudes.  The bounding box is computed all the same. *)
Theorem NaN_spoils_both_bounds (lat1 lon1 lat2 lon2 : option value)
    (a1 o1 a2 o2 : Number) (w : World) :
  ToNumber lat1 = Normal a1 -> ToNumber lon1 = Normal o1 ->
  ToNumber lat2 = Normal a2 -> ToNumber lon2 = Normal o2 ->
  bbox_of lat1 lon1 lat2 lon2 w
  = (Normal
       [if isNaN o1 || isNaN o2 then NaN else Math_min [o1; o2];
        if isNaN a1 || isNaN a2 then NaN else Math_min [a1; a2];
        if isNaN o1 || isNaN o2 then NaN else Math_max [o1; o2];
        if isNaN a1 || isNaN a2 then NaN else Math_max [a1; a2]], w).
Proof.
  intros H1 H2 H3 H4.
  rewrite (bbox_of_normal _ _ _ _ _ _ _ _ w H1 H2 H3 H4).
  destruct (isNaN o1 || isNaN o2) eqn:Eo, (isNaN a1 || isNaN a2) eqn:Ea;
    rewrite ?(Math_min_NaN _ _ Eo), ?(Math_max_NaN _ _ Eo),
            ?(Math_min_NaN _ _ Ea), ?(Math_max_NaN _ _ Ea);
    reflexivity.
Qed.

(** A missing [lat1], with longitudes 20 and 15. *)
Lemma NaN_spoils_both_bounds_witness :
  bbox_of None (num 20) (num 5) (num 15) fresh_world
  = (Normal [of_Z 15; NaN; of_Z 20; NaN], fresh_world).
Proof.
  exact (NaN_spoils_both_bounds None (num 20) (num 5) (num 15)
           NaN (of_Z 20) (of_Z 5) (of_Z 15) fresh_world
           eq_refl eq_refl eq_refl eq_refl).
Defined.

End RouteOutcomes.

(** ** More about the cache: names that are not reserved, and what counts
       as a numbered file *)

Module CacheMore.

Import Chars StringFacts IntegerFacts Base64Facts CacheSpec Route CacheFacts
       Scenario Interleaving.

Lemma entries_Some_files w : entries (Some (files w)) = entries (sentinel w).
Proof.
  unfold files. destruct (sentinel w) as [dir|]; [reflexivity|].
  cbn [default entries]. now rewrite map_to_list_empty.
Qed.

(** X7.  [getNextFilename] always returns a name, which passes its own
    filter ([true-color-] ... [.png]); it creates the directory when it is
    missing and changes no file and sends nothing.  It does not reserve
    the name: a second call made before a file is written returns the same
    name. *)
Theorem getNextFilename_reserves_nothing (w : World) :
  exists name,
    getNextFilename w = (Normal name, mkWorld (Some (files w)) (sent w))
    /\ matches name = true
    /\ getNextFilename (snd (getNextFilename w))
       = (Normal name, snd (getNextFilename w)).
Proof.
  exists (filename_of (next_of (entries (sentinel w)))).
  rewrite getNextFilename_run. cbn [snd].
  split; [reflexivity|]. split; [apply matches_filename|].
  rewrite getNextFilename_run. cbn [sentinel sent].
  now rewrite files_mkWorld, entries_Some_files.
Qed.


(** X9.  [downloadImage] takes the part of its argument that follows the
    first comma.  For an argument without a comma there is no such part:
    the call throws before it touches the file system - the directory is
    not created and no file is written. *)
Theorem downloadImage_without_comma (imageBase64 filename : string)
    (w : World) :
  all_chars not_comma imageBase64 = true ->
  downloadImage imageBase64 filename w = (Throw invalid_arg, w).
Proof.
  intros H. rewrite downloadImage_run. unfold split.
  now rewrite (split_go_no_sep "," imageBase64 EmptyString H).
Qed.

(** Bare base64 text, without the [data:] prefix. *)
Lemma downloadImage_without_comma_witness :
  downloadImage "iVBORw0K" "true-color-1.png" fresh_world
  = (Throw invalid_arg, fresh_world).
Proof.
  exact (downloadImage_without_comma "iVBORw0K" "true-color-1.png" fresh_world
           eq_refl).
Defined.

(** *** Names with text after the number *)

(** [parseInt] reads the digits and ignores what follows them. *)
Lemma parse_integer_trailing k c t :
  0 < k -> is_digit c = false ->
  JsInteger.parse_integer (decimal k +:+ String c t) = Some (false, k).
Proof.
  intros Hk Hc. assert (0 <= k) as Hk0 by lia.
  destruct (decimal_digits k Hk0) as (n & Hn & Hall & Hread).
  destruct (decimal_nonempty k Hk0) as (c0 & s & Hd & Hc0).
  destruct (digit_not_special c0 Hc0) as (Hws & _ & _ & _ & Hsign).
  unfold JsInteger.parse_integer.
  assert (trimStart (decimal k +:+ String c t) = decimal k +:+ String c t)
    as -> by (rewrite Hd, app_cons; now apply trimStart_digit).
  assert (read_sign (decimal k +:+ String c t)
          = (false, decimal k +:+ String c t))
    as -> by (rewrite Hd, app_cons; apply Hsign).
  assert (match decimal k +:+ String c t with
          | String "0"%char (String c1 rest) =>
              if Ascii.eqb c1 "x" || Ascii.eqb c1 "X"
              then (16, rest) else (10, decimal k +:+ String c t)
          | _ => (10, decimal k +:+ String c t)
          end = (10, decimal k +:+ String c t)) as ->.
  { rewrite Hd in Hall, Hread |- *. rewrite app_cons.
    destruct s as [|c1 rest].
    - specialize (Hread EmptyString).
      destruct c0 as [[] [] [] [] [] [] [] []]; try discriminate Hc0;
        try reflexivity.
      vm_compute in Hread. injection Hread as Hz _. lia.
    - cbn [all_chars] in Hall.
      apply andb_true_iff in Hall as [_ Hall].
      apply andb_true_iff in Hall as [Hc1 _].
      destruct (digit_not_special c1 Hc1) as (_ & Hx & HX & _).
      rewrite app_cons, Hx, HX.
      destruct c0 as [[] [] [] [] [] [] [] []]; reflexivity. }
  rewrite Hread. cbn [digits_go].
  assert (digit_value 10 c = None) as ->
    by (unfold is_digit in Hc; now destruct (digit_value 10 c)).
  destruct (n =? 0) eqn:E; [apply Z.eqb_eq in E; lia|reflexivity].
Qed.

(** X10.  A file whose name has text between the number and [.png] -
    such as [true-color-7-copy.png] - counts as the file of that number:
    in a directory that holds only such a file with the number [k], the
    next filename is [true-color-<k+1>.png]. *)
Theorem trailing_text_counts (k : Z) (c : ascii) (t : string)
    (content : list byte) (trace : list Outbound) :
  0 < k < 2 ^ 53 ->
  is_digit c = false ->
  all_chars not_dot (String c t) = true ->
  fst (getNextFilename
         (mkWorld (Some {[ "true-color-" +:+ decimal k +:+ String c t +:+ ".png"
                           := content ]}) trace))
  = Normal ("true-color-" +:+ decimal (k + 1) +:+ ".png").
Proof.
  intros Hk Hc Ht. rewrite getNextFilename_run. cbn [fst sentinel entries].
  rewrite map_to_list_singleton. cbn [map fst].
  f_equal. unfold filename_of, next_of, numbers_of, files_of.
  assert (matches ("true-color-" +:+ decimal k +:+ String c t +:+ ".png") = true)
    as Hm.
  { unfold matches. rewrite startsWith_app.
    rewrite <- !app_assoc. now rewrite endsWith_app. }
  cbn [List.filter]. rewrite Hm. cbn [map].
  assert (middle ("true-color-" +:+ decimal k +:+ String c t +:+ ".png")
          = decimal k +:+ String c t) as ->.
  { rewrite <- (app_assoc (decimal k)). apply middle_filename.
    rewrite all_chars_app, Ht.
    pose proof (decimal_int_no_dot k) as Hd. unfold decimal_int in Hd.
    destruct (k <? 0) eqn:E; [apply Z.ltb_lt in E; lia|]. now rewrite Hd. }
  unfold JsInteger.parseInt. rewrite (parse_integer_trailing k c t ltac:(lia) Hc).
  destruct (k =? 0) eqn:E; [apply Z.eqb_eq in E; lia|]. cbn [cond_Zopp].
  rewrite (of_Z_small k) by lia.
  cbn [List.filter JsInteger.isNaN negb length Nat.ltb Nat.leb].
  assert (JsInteger.Math_max [JsInteger.Int k] = JsInteger.Int k) as ->
    by (destruct k; reflexivity || lia).
  cbn [JsInteger.add]. rewrite (of_Z_small (k + 1)) by lia.
  rewrite (toString_small (k + 1)) by lia.
  unfold decimal_int. destruct (k + 1 <? 0) eqn:E1;
    [apply Z.ltb_lt in E1; lia|reflexivity].
Qed.

(** [true-color-7-copy.png] *)
Lemma trailing_text_counts_witness :
  fst (getNextFilename (world_of {[ "true-color-7-copy.png" := png ]}))
  = Normal "true-color-8.png".
Proof.
  apply (trailing_text_counts 7 "-" "copy" png []); [lia|reflexivity..].
Defined.

(** *** One request after the other *)

Lemma suffix_numbered k :
  Z.abs k <= 2 ^ 53 ->
  suffix ("true-color-" +:+ decimal_int k +:+ ".png") = Some k.
Proof.
  intros Hk. rewrite <- (toString_small k Hk). now apply suffix_filename.
Qed.

(** The names [true-color-<m+1>.png], ..., [true-color-<m+n>.png] have
    the suffixes [m+1], ..., [m+n], and no two of them are the same. *)
Lemma filenames_from_distinct n : forall m,
  - 2 ^ 53 <= m -> m + Z.of_nat n <= 2 ^ 53 ->
  NoDup (filenames_from m n)
  /\ forall name, name ∈ filenames_from m n ->
       exists k, m < k <= m + Z.of_nat n /\ suffix name = Some k.
Proof.
  induction n as [|n IH]; intros m Hlo Hhi.
  - split; [constructor|]. intros name H. inversion H.
  - destruct (IH (m + 1)) as [Hnd Hin]; [lia..|].
    cbn [filenames_from]. split.
    + constructor; [|exact Hnd]. intros (k & Hk & Hs)%Hin.
      rewrite suffix_numbered in Hs by lia. injection Hs as Hs. lia.
    + intros name [->|H]%elem_of_cons.
      * exists (m + 1). split; [lia|]. apply suffix_numbered. lia.
      * destruct (Hin name H) as (k & Hk & Hs). exists k. split; [lia|exact Hs].
Qed.

(** X25.  A single caller that caches [n] images one after the other,
    in a directory whose suffixes are below [2^53] in magnitude and leave
    room for [n] more, gets the filenames [true-color-<m+1>.png], ...,
    [true-color-<m+n>.png] for the maximum suffix [m] found at the start:
    no two of them are the same, and none of them is the name of a file
    that was there before. *)
Theorem sequential_requests_get_distinct_names (images : list string)
    (w : World) :
  safe (entries (sentinel w)) ->
  max_suffix (entries (sentinel w)) + Z.of_nat (length images) < 2 ^ 53 ->
  Forall (fun image => is_Some (split image "," !! 1%nat)) images ->
  fst (cacheImages images w)
  = Normal (filenames_from (max_suffix (entries (sentinel w))) (length images))
  /\ NoDup (filenames_from (max_suffix (entries (sentinel w))) (length images))
  /\ Forall (fun name => files w !! name = None)
            (filenames_from (max_suffix (entries (sentinel w))) (length images)).
Proof.
  intros Hsafe Hroom Himages.
  pose proof (safe_max _ Hsafe) as Hm.
  destruct (filenames_from_distinct (length images)
              (max_suffix (entries (sentinel w)))) as [Hnd Hin]; [lia..|].
  split; [now apply cacheImages_filenames|]. split; [exact Hnd|].
  apply Forall_forall. intros name (k & Hk & Hs)%Hin.
  destruct (files w !! name) as [content|] eqn:E; [|reflexivity].
  assert (name ∈ entries (sentinel w)) as Hname
    by (apply entries_files; eauto).
  pose proof (suffix_le_max _ _ _ Hname Hs). lia.
Qed.

(** Two images cached next to [true-color-1.png] and [true-color-3.png]. *)
Lemma sequential_requests_get_distinct_names_witness :
  fst (cacheImages ["data:image/png;base64,iVBORw0K";
                    "data:image/png;base64,iVBORw0KDQo="] dir_1_3)
  = Normal ["true-color-4.png"; "true-color-5.png"]
  /\ NoDup ["true-color-4.png"; "true-color-5.png"]
  /\ Forall (fun name => files dir_1_3 !! name = None)
            ["true-color-4.png"; "true-color-5.png"].
Proof.
  apply (sequential_requests_get_distinct_names
           ["data:image/png;base64,iVBORw0K";
            "data:image/png;base64,iVBORw0KDQo="] dir_1_3).
  - exact (safeb_safe (entries (sentinel dir_1_3)) eq_refl).
  - vm_compute. reflexivity.
  - repeat constructor; vm_compute; eauto.
Defined.

End CacheMore.

(** ** More about the page: its handlers one after the other *)

Module PageMore.

Import Json Page Scenario Api PageRequests.

Lemma complete_inputs st :
  complete st = true ->
  is_empty (lat1 st) = false /\ is_empty (lon1 st) = false
  /\ is_empty (lat2 st) = false /\ is_empty (lon2 st) = false.
Proof.
  unfold complete. intros H. apply negb_true_iff in H.
  apply orb_false_iff in H as [H H4]. apply orb_false_iff in H as [H H3].
  apply orb_false_iff in H as [H1 H2]. auto.
Qed.

(** What [fetchSentinelImage] does once the inputs are complete. *)
Lemma fetchSentinelImage_run (fetch : Fetch) (st : State) :
  complete st = true ->
  fetchSentinelImage fetch st =
    let st1 :=
      record_request "/api/sentinel-image" (request_of st)
        (setResult JNull (setTrueColorUrl (Some JNull)
                            (setFetchingImage true st))) in
    let failed := alert (AlertText "Failed to fetch satellite image") st1 in
    setFetchingImage false
      (match fetch "/api/sentinel-image" (request_of st) with
       | Throw _ => failed
       | Normal res =>
           match Http.json res with
           | Throw _ => failed
           | Normal data =>
               match get (Some data) "error" with
               | Throw _ => failed
               | Normal error =>
                   if ToBoolean error then alert (AlertValue error) st1
                   else
                     match get (Some data) "trueColorUrl" with
                     | Throw _ => failed
                     | Normal url => setTrueColorUrl url st1
                     end
               end
           end
       end).
Proof.
  intros H. unfold complete in H. apply negb_true_iff in H.
  unfold fetchSentinelImage. rewrite H. reflexivity.
Qed.

(** X11.  Once the four inputs are filled in, [fetchSentinelImage] sends
    exactly one request, with the four inputs as strings, and ends with
    the fetching flag off and the previous result cleared, whatever
    happens to the request.  It then either shows one alert and leaves no
    image (the previous image is cleared too), or shows no alert and holds
    the [trueColorUrl] of a response whose [error] is falsy - never
    both. *)
Theorem fetchSentinelImage_alerts_or_shows (fetch : Fetch) (st : State) :
  complete st = true ->
  fetchingImage (fetchSentinelImage fetch st) = false
  /\ result (fetchSentinelImage fetch st) = JNull
  /\ requests (fetchSentinelImage fetch st)
     = requests st ++ [("/api/sentinel-image", request_of st)]
  /\ ((exists a,
         alerts (fetchSentinelImage fetch st) = alerts st ++ [a]
         /\ trueColorUrl (fetchSentinelImage fetch st) = Some JNull)
      \/ (alerts (fetchSentinelImage fetch st) = alerts st
          /\ exists res data,
               fetch "/api/sentinel-image" (request_of st) = Normal res
               /\ Http.json res = Normal data
               /\ data <> JNull
               /\ ToBoolean (lookup_field "error" data) = false
               /\ trueColorUrl (fetchSentinelImage fetch st)
                  = lookup_field "trueColorUrl" data)).
Proof.
  intros H. rewrite (fetchSentinelImage_run fetch st H). cbv zeta.
  destruct (fetch "/api/sentinel-image" (request_of st)) as [res|e];
    [|repeat split; left; eexists; split; reflexivity].
  destruct (Http.json res) as [data|e] eqn:Hj;
    [|repeat split; left; eexists; split; reflexivity].
  destruct data as [|b|x|s|l|props].
  1: repeat split; left; eexists; split; reflexivity.
  1-4: cbn [get ToBoolean]; repeat split; right; split; [reflexivity|];
       match goal with
       | Hd : Http.json ?r = Normal ?d |- _ => exists r, d
       end; repeat split; try discriminate; assumption.
  cbn [get].
  destruct (ToBoolean (lookup "error" props)) eqn:E;
    [repeat split; left; eexists; split; reflexivity|].
  repeat split. right. split; [reflexivity|].
  exists res, (JObject props). repeat split; auto; discriminate.
Qed.

(** The route answers with an error. *)
Lemma fetchSentinelImage_alerts_or_shows_witness :
  fetchingImage
    (fetchSentinelImage (fun _ _ => Throw (mkError "Failed to fetch")) page_ready)
  = false
  /\ result
       (fetchSentinelImage (fun _ _ => Throw (mkError "Failed to fetch")) page_ready)
     = JNull
  /\ requests
       (fetchSentinelImage (fun _ _ => Throw (mkError "Failed to fetch")) page_ready)
     = requests page_ready ++ [("/api/sentinel-image", request_of page_ready)]
  /\ ((exists a,
         alerts (fetchSentinelImage (fun _ _ => Throw (mkError "Failed to fetch"))
                                    page_ready)
         = alerts page_ready ++ [a]
         /\ trueColorUrl
              (fetchSentinelImage (fun _ _ => Throw (mkError "Failed to fetch"))
                                  page_ready)
            = Some JNull)
      \/ (alerts (fetchSentinelImage (fun _ _ => Throw (mkError "Failed to fetch"))
                                     page_ready)
          = alerts page_ready
          /\ exists res data,
               (fun _ _ => Throw (mkError "Failed to fetch")) "/api/sentinel-image"
                 (request_of page_ready) = Normal res
               /\ Http.json res = Normal data
               /\ data <> JNull
               /\ ToBoolean (lookup_field "error" data) = false
               /\ trueColorUrl
                    (fetchSentinelImage
                       (fun _ _ => Throw (mkError "Failed to fetch")) page_ready)
                  = lookup_field "trueColorUrl" data)).
Proof.
  exact (fetchSentinelImage_alerts_or_shows
           (fun _ _ => Throw (mkError "Failed to fetch")) page_ready eq_refl).
Defined.

(** X12.  [handleRecalculate] clears the image together with the result
    and keeps the four inputs: nothing is rendered of either, and an
    analysis asked for right afterwards is refused with an alert, without
    a request, until an image has been fetched again. *)
Theorem recalculate_discards_image (fetch : Fetch) (st : State) :
  result (handleRecalculate st) = JNull
  /\ trueColorUrl (handleRecalculate st) = Some JNull
  /\ render (handleRecalculate st) = Nothing
  /\ image_shown (handleRecalculate st) = false
  /\ (lat1 (handleRecalculate st), lon1 (handleRecalculate st),
      lat2 (handleRecalculate st), lon2 (handleRecalculate st))
     = (lat1 st, lon1 st, lat2 st, lon2 st)
  /\ runWildfireDetection fetch (handleRecalculate st)
     = alert (AlertText "Please fetch the satellite image first!")
             (handleRecalculate st)
  /\ requests (runWildfireDetection fetch (handleRecalculate st)) = requests st.
Proof. repeat split. Qed.

(** *** Sequences of events *)

Lemma fetchSentinelImage_refuses (fetch : Fetch) (st : State) :
  complete st = false ->
  fetchSentinelImage fetch st
  = alert (AlertText "Please enter all coordinates!") st.
Proof.
  unfold complete, fetchSentinelImage. intros H.
  apply negb_false_iff in H. now rewrite H.
Qed.

Lemma runWildfireDetection_refuses (fetch : Fetch) (st : State) :
  ToBoolean (trueColorUrl st) = false ->
  runWildfireDetection fetch st
  = alert (AlertText "Please fetch the satellite image first!") st.
Proof. unfold runWildfireDetection. now intros ->. Qed.

Lemma Forall_Sound_snoc (requests : list (string * value)) r :
  Forall Sound requests -> Sound r -> Forall Sound (requests ++ [r]).
Proof. intros H Hr. apply Forall_app. split; [exact H|]. now constructor. Qed.

(** Every handler takes a settled page to a settled page. *)
Lemma handle_settled (st : State) (e : Event) :
  settled st -> settled (handle st e).
Proof.
  intros (Hl & Hf & Hv & Hr). destruct e as [v|v|v|v|fetch|fetch|];
    cbn [handle]; try (now repeat split).
  - destruct (complete st) eqn:Hc.
    + rewrite (fetchSentinelImage_run fetch st Hc). cbv zeta.
      destruct (complete_inputs st Hc) as (H1 & H2 & H3 & H4).
      pose proof (Forall_Sound_snoc _ _ Hr
                    (ImageRequest _ _ _ _ H1 H2 H3 H4)) as Hr'.
      assert (forall st1,
                isLoading st1 = false -> result st1 = JNull ->
                Forall Sound (requests st1) ->
                settled (setFetchingImage false st1)) as Hdone.
      { intros st1 Hl1 Hres Hreq. repeat split; auto.
        cbn [setFetchingImage result]. rewrite Hres. discriminate. }
      destruct (fetch "/api/sentinel-image" (request_of st)) as [res|err];
        [|now apply Hdone].
      destruct (Http.json res) as [data|err]; [|now apply Hdone].
      destruct (get (Some data) "error") as [error|err]; [|now apply Hdone].
      destruct (ToBoolean error); [now apply Hdone|].
      destruct (get (Some data) "trueColorUrl") as [url|err];
        now apply Hdone.
    + rewrite (fetchSentinelImage_refuses fetch st Hc). now repeat split.
  - destruct (ToBoolean (trueColorUrl st)) eqn:Hu.
    + destruct (trueColorUrl st) as [url|] eqn:Hurl; [|discriminate Hu].
      rewrite (PageFacts.runWildfireDetection_run fetch st url Hurl Hu).
      cbv zeta.
      pose proof (Forall_Sound_snoc _ _ Hr (AnalysisRequest url Hu)) as Hr'.
      assert (forall st1,
                fetchingImage st1 = false -> trueColorUrl st1 = Some url ->
                Forall Sound (requests st1) ->
                settled (setIsLoading false st1)) as Hdone.
      { intros st1 Hf1 Hurl1 Hreq. repeat split; auto.
        intros _. cbn [setIsLoading trueColorUrl]. now rewrite Hurl1. }
      destruct (fetch "http://localhost:5000/predict" _) as [res|err];
        [|now apply Hdone].
      destruct (Http.json res) as [data|err]; now apply Hdone.
    + rewrite (runWildfireDetection_refuses fetch st Hu).
      repeat split; auto. intros Hres. apply Hv in Hres. discriminate.
Qed.

Lemma initial_settled : settled initial.
Proof. repeat split; [discriminate|constructor]. Qed.

Lemma handle_all_settled (events : list Event) : forall st,
  settled st -> settled (handle_all events st).
Proof.
  induction events as [|e events IH]; intros st H; [exact H|].
  apply IH, handle_settled, H.
Qed.

(** X13.  Whatever the user does and whatever the two services answer,
    with each handler running to its end before the next event: between
    two events no request is pending (both flags are off), and the page
    holds a result - a verdict or an error card - only while it holds the
    image: a card is never rendered without the image above it. *)
Theorem result_only_with_image (events : list Event) :
  isLoading (handle_all events initial) = false
  /\ fetchingImage (handle_all events initial) = false
  /\ (render (handle_all events initial) = Nothing
      \/ image_shown (handle_all events initial) = true).
Proof.
  destruct (handle_all_settled events initial initial_settled)
    as (Hl & Hf & Hv & _).
  split; [exact Hl|]. split; [exact Hf|].
  unfold render, image_shown.
  destruct (ToBoolean (Some (result (handle_all events initial))));
    [right; now apply Hv|now left].
Qed.

(** X14.  Whatever the user does and whatever the two services answer,
    every request the page has sent is either the four inputs, all of them
    non-empty, to the image route, or the URL of an image, which is
    truthy, to the classifier: the page never asks for an image with an
    input missing, and never asks for an analysis without an image. *)
Theorem requests_are_sound (events : list Event) :
  Forall Sound (requests (handle_all events initial)).
Proof.
  now destruct (handle_all_settled events initial initial_settled)
    as (_ & _ & _ & Hr).
Qed.

End PageMore.

(** ** The page and the route together *)

Module AppFacts.

Import Chars StringFacts Json Route Page Scenario Api PageRequests Outcomes
       RouteFacts PageMore.

(** X15.  What the page makes of the response of the image route, once
    its four inputs are filled in: for an image, it holds the URL of the
    response and shows no alert; for an error with a message, it shows
    that message in an alert and holds no image; for an error whose
    message is empty, it shows no alert and holds no image either. *)
Theorem page_reports_route_outcome (env : Env) (w : World) (fetch : Fetch)
    (res : Http.Response) (st : State) :
  complete st = true ->
  fetch "/api/sentinel-image" (request_of st) = Normal res ->
  Http.json res
  = Normal (body_json (body (fst (POST env (Normal (request_of st)) w)))) ->
  match body (fst (POST env (Normal (request_of st)) w)) with
  | Image url filename bbox =>
      trueColorUrl (fetchSentinelImage fetch st) = Some (JString url)
      /\ alerts (fetchSentinelImage fetch st) = alerts st
  | Failed m =>
      if is_empty m
      then trueColorUrl (fetchSentinelImage fetch st) = None
           /\ alerts (fetchSentinelImage fetch st) = alerts st
      else trueColorUrl (fetchSentinelImage fetch st) = Some JNull
           /\ alerts (fetchSentinelImage fetch st)
              = alerts st ++ [AlertValue (Some (JString m))]
  end.
Proof.
  intros Hc Hf Hj. rewrite (fetchSentinelImage_run fetch st Hc). cbv zeta.
  rewrite Hf, Hj.
  destruct (body (fst (POST env (Normal (request_of st)) w)))
    as [url filename bbox|m]; [split; reflexivity|].
  cbn [body_json get lookup String.eqb Ascii.eqb Bool.eqb ToBoolean].
  unfold is_empty. destruct (String.eqb m EmptyString); split; reflexivity.
Qed.

(** The provider refuses the processing request with a message. *)
Lemma page_reports_route_outcome_witness :
  trueColorUrl
    (fetchSentinelImage (route_as_fetch provider_refusing fresh_world) page_ready)
  = Some JNull
  /\ alerts
       (fetchSentinelImage (route_as_fetch provider_refusing fresh_world)
                           page_ready)
     = alerts page_ready
       ++ [AlertValue (Some (JString "No data found for the given bounding box"))].
Proof.
  exact (page_reports_route_outcome provider_refusing fresh_world
           (route_as_fetch provider_refusing fresh_world)
           (json_response 500
              (JObject [("error",
                         JString "No data found for the given bounding box")]))
           page_ready eq_refl eq_refl eq_refl).
Defined.

(** X16.  When the provider refuses the processing request with an empty
    body, the route answers 500 with an empty error message, which the
    page takes for no error: it shows no alert and no image, and the
    failure goes unreported. *)
Theorem empty_provider_error_unreported (env : Env) (w : World)
    (fetch : Fetch) (res : Http.Response) (st : State)
    (bbox : list Number) (tok : option value) (refusal : Http.Response) :
  complete st = true ->
  normalize (Normal (request_of st)) w = (Normal bbox, w) ->
  authenticate env w = (Normal tok, after_token env w) ->
  ToString_throws tok = false ->
  Route.fetch env (ProcessRequest tok bbox evalscriptTrueColor)
    = Normal refusal ->
  Http.ok refusal = false ->
  Http.text refusal = EmptyString ->
  fetch "/api/sentinel-image" (request_of st) = Normal res ->
  Http.json res
  = Normal (body_json (body (fst (POST env (Normal (request_of st)) w)))) ->
  fst (POST env (Normal (request_of st)) w)
  = mkResponse 500 (Failed EmptyString)
  /\ alerts (fetchSentinelImage fetch st) = alerts st
  /\ image_shown (fetchSentinelImage fetch st) = false
  /\ fetchingImage (fetchSentinelImage fetch st) = false.
Proof.
  intros Hc Hn Ha Ht Hp Hok Htext Hf Hj.
  assert (fst (POST env (Normal (request_of st)) w)
          = mkResponse 500 (Failed EmptyString)) as HP.
  { rewrite POST_run, Hn, Ha, fetchImage_run, Ht, Hp, Hok, Htext.
    reflexivity. }
  rewrite HP in Hj. split; [exact HP|].
  rewrite (fetchSentinelImage_run fetch st Hc). cbv zeta.
  rewrite Hf, Hj. repeat split.
Qed.

(** A refusal of status 503 without a body. *)
Lemma empty_provider_error_unreported_witness :
  fst (POST provider_silent (Normal (request_of page_ready)) fresh_world)
  = mkResponse 500 (Failed EmptyString)
  /\ alerts (fetchSentinelImage (route_as_fetch provider_silent fresh_world)
                                page_ready)
     = alerts page_ready
  /\ image_shown (fetchSentinelImage (route_as_fetch provider_silent fresh_world)
                                     page_ready)
     = false
  /\ fetchingImage (fetchSentinelImage (route_as_fetch provider_silent fresh_world)
                                       page_ready)
     = false.
Proof.
  exact (empty_provider_error_unreported provider_silent fresh_world
           (route_as_fetch provider_silent fresh_world)
           (json_response 500 (JObject [("error", JString EmptyString)]))
           page_ready [of_Z 15; of_Z 5; of_Z 20; of_Z 10]
           (Some (JString "tok")) (raw_response 503 EmptyString [])
           eq_refl eq_refl eq_refl eq_refl eq_refl eq_refl eq_refl eq_refl
           eq_refl).
Defined.

(** *** Blank inputs *)

Lemma trimStart_blank s :
  all_chars is_whitespace s = true -> trimStart s = EmptyString.
Proof.
  induction s as [|c s IH]; [reflexivity|].
  cbn [all_chars trimStart]. intros [Hc Hs]%andb_true_iff.
  rewrite Hc. now apply IH.
Qed.

Lemma StringToNumber_blank s :
  all_chars is_whitespace s = true -> StringToNumber s = pZero.
Proof.
  intros H. unfold StringToNumber, trim. now rewrite (trimStart_blank s H).
Qed.

(** X17.  Inputs that consist of white space only are not empty, so the
    page sends them; the route reads each of them as the number 0, and
    computes the bounding box [[0, 0, 0, 0]]. *)
Theorem blank_inputs_become_zero (fetch : Fetch) (st : State) (w : World) :
  complete st = true ->
  all_chars is_whitespace (lat1 st) = true ->
  all_chars is_whitespace (lon1 st) = true ->
  all_chars is_whitespace (lat2 st) = true ->
  all_chars is_whitespace (lon2 st) = true ->
  requests (fetchSentinelImage fetch st)
  = requests st ++ [("/api/sentinel-image", request_of st)]
  /\ normalize (Normal (request_of st)) w
     = (Normal [pZero; pZero; pZero; pZero], w).
Proof.
  intros Hc H1 H2 H3 H4. split.
  - rewrite (fetchSentinelImage_run fetch st Hc). cbv zeta.
    repeat match goal with
           | |- context [match ?x with _ => _ end] => destruct x
           end; reflexivity.
  - rewrite (normalize_normal (request_of st)
               (Some (JString (lat1 st))) (Some (JString (lon1 st)))
               (Some (JString (lat2 st))) (Some (JString (lon2 st)))
               pZero pZero pZero pZero w);
      try reflexivity;
      cbn [ToNumber toString_throws ToNumber_value];
      now rewrite StringToNumber_blank.
Qed.

(** Four inputs of one or two spaces. *)
Lemma blank_inputs_become_zero_witness :
  requests (fetchSentinelImage classifier_down page_blank)
  = requests page_blank ++ [("/api/sentinel-image", request_of page_blank)]
  /\ normalize (Normal (request_of page_blank)) fresh_world
     = (Normal [pZero; pZero; pZero; pZero], fresh_world).
Proof.
  exact (blank_inputs_become_zero classifier_down page_blank fresh_world
           eq_refl eq_refl eq_refl eq_refl eq_refl).
Defined.

End AppFacts.

(** ** The carbon-footprint app: recommendations, status and its colour *)

Module PredictFacts.

Import Json Predict ResultCard Scenario.

Ltac step := unfold mbind, Completion_bind, mret, Completion_ret; cbn beta iota.

Lemma greater_converts v c :
  converts v = true -> exists b, greater v c = Normal b.
Proof.
  unfold converts, greater. intros H. apply negb_true_iff in H.
  destruct v as [v|]; cbn [ToString_throws ToNumber] in *;
    [rewrite H|]; step; eauto.
Qed.

Lemma or_else_normal x y : or_else (Normal x) (Normal y) = Normal (x || y).
Proof. now destruct x. Qed.

Lemma and_also_normal x y : and_also (Normal x) (Normal y) = Normal (x && y).
Proof. now destruct x. Qed.

Lemma push_if_normal c text recommendations :
  push_if (Normal c) text recommendations
  = Normal (if c then recommendations ++ [text] else recommendations).
Proof. reflexivity. Qed.

(** [recycling.length] is read only of a truthy value, of which it can be
    read. *)
Lemma recycling_condition (r : option value) :
  exists b,
    or_else (Normal (negb (ToBoolean r)))
            (n ← length_of r; mret (is_zero n)) = Normal b.
Proof.
  unfold or_else. step.
  destruct r as [[|b|x|s|l|props]|]; cbn [ToBoolean negb length_of get];
    try (eexists; reflexivity).
  - destruct b; eexists; reflexivity.
  - destruct x; eexists; reflexivity.
  - destruct (negb (String.eqb s EmptyString)); eexists; reflexivity.
Qed.

Lemma bind_Normal {A B} (x : A) (k : A -> Completion B) :
  (Normal x ≫= k) = k x.
Proof. reflexivity. Qed.

Lemma mret_Normal {A} (x : A) : mret x = Normal x.
Proof. reflexivity. Qed.

(** Pushing onto the texts selected so far selects one more. *)
Lemma selected_snoc (c : bool) (text : string) (choices : list (bool * string)) :
  (if c then map snd (List.filter fst choices) ++ [text]
   else map snd (List.filter fst choices))
  = map snd (List.filter fst (choices ++ [(c, text)])).
Proof.
  rewrite List.filter_app, map_app.
  destruct c; cbn [List.filter fst map snd]; [reflexivity|].
  now rewrite app_nil_r.
Qed.

Lemma push_selected {B} (c : bool) (text : string)
    (choices : list (bool * string)) (k : list string -> Completion B) :
  (push_if (Normal c) text (map snd (List.filter fst choices)) ≫= k)
  = k (map snd (List.filter fst (choices ++ [(c, text)]))).
Proof. now rewrite push_if_normal, bind_Normal, selected_snoc. Qed.

Ltac pushed :=
  rewrite ?bind_Normal, ?mret_Normal; cbn beta;
  rewrite ?or_else_normal, ?and_also_normal;
  rewrite push_selected; cbn beta; cbn [app].

(** [generateRecommendations] in terms of the outcomes of its eight
    conditions, for a form whose numeric fields convert: the pieces of
    advice whose condition holds, in the order of the function, then the
    fallback when there is none, then the warning. *)
Lemma generateRecommendations_conditions props emissionScore :
  converts (lookup "vehicleMonthlyKm" props) = true ->
  converts (lookup "wasteBagWeeklyCount" props) = true ->
  converts (lookup "newClothesMonthly" props) = true ->
  converts (lookup "tvPcHoursDaily" props) = true ->
  converts (lookup "internetHoursDaily" props) = true ->
  converts emissionScore = true ->
  exists c1 c2 c3 c4 c5 c6 c7 c8 : bool,
    greater emissionScore 1000 = Normal c8
    /\ generateRecommendations (JObject props) emissionScore
       = Normal
           (map snd
              (List.filter fst
                 [(c1, advice_energy); (c2, advice_transport);
                  (c3, advice_air); (c4, advice_diet);
                  (c5, advice_recycling); (c6, advice_consumption);
                  (c7, advice_digital);
                  (negb (c1 || c2 || c3 || c4 || c5 || c6 || c7), fallback);
                  (c8, warning)])).
Proof.
  intros H2 H6a H6b H7a H7b H8.
  destruct (greater_converts _ 200 H2) as [b2 E2].
  destruct (greater_converts _ 3 H6a) as [b6a E6a].
  destruct (greater_converts _ 5 H6b) as [b6b E6b].
  destruct (greater_converts _ 6 H7a) as [b7a E7a].
  destruct (greater_converts _ 8 H7b) as [b7b E7b].
  destruct (greater_converts _ 1000 H8) as [b8 E8].
  destruct (recycling_condition (lookup "recycling" props)) as [b5 E5].
  exists (negb (is_string (lookup "heatingEnergy" props) "electricity")
          || is_string (lookup "energyEfficiency" props) "no"),
         (is_string (lookup "transport" props) "private" || b2),
         (negb (is_string (lookup "airTravelFrequency" props) "never")
          && negb (is_string (lookup "airTravelFrequency" props) "rarely")),
         (is_string (lookup "diet" props) "omnivore"),
         b5, (b6a || b6b), (b7a || b7b), b8.
  split; [exact E8|].
  unfold generateRecommendations, field. cbn [get].
  change (@nil string) with (map snd (List.filter fst (@nil (bool * string))))
    at 1.
  pushed.
  rewrite ?bind_Normal; cbn beta; rewrite E2. pushed.
  pushed. pushed.
  rewrite ?bind_Normal, ?mret_Normal; cbn beta. rewrite E5.
  rewrite push_selected; cbn beta; cbn [app].
  rewrite ?bind_Normal; cbn beta; rewrite E6a, E6b. pushed.
  rewrite ?bind_Normal; cbn beta; rewrite E7a, E7b. pushed.
  set (c1 := negb (is_string (lookup "heatingEnergy" props) "electricity")
             || is_string (lookup "energyEfficiency" props) "no").
  set (c2 := is_string (lookup "transport" props) "private" || b2).
  set (c3 := negb (is_string (lookup "airTravelFrequency" props) "never")
             && negb (is_string (lookup "airTravelFrequency" props) "rarely")).
  set (c4 := is_string (lookup "diet" props) "omnivore").
  set (c6 := b6a || b6b). set (c7 := b7a || b7b).
  assert ((length
             (map snd
                (List.filter fst
                   [(c1, advice_energy); (c2, advice_transport);
                    (c3, advice_air); (c4, advice_diet);
                    (b5, advice_recycling); (c6, advice_consumption);
                    (c7, advice_digital)])) =? 0)%nat
          = negb (c1 || c2 || c3 || c4 || b5 || c6 || c7)) as Hnone
    by (destruct c1, c2, c3, c4, b5, c6, c7; reflexivity).
  rewrite mret_Normal, Hnone, push_selected. cbn beta. cbn [app].
  rewrite E8, push_if_normal, selected_snoc. reflexivity.
Qed.

(** The properties of the list built, for each outcome of the eight
    conditions. *)
Lemma built_list_checked (c1 c2 c3 c4 c5 c6 c7 c8 : bool)
    (recommendations : list string) :
  recommendations
  = map snd
      (List.filter fst
         [(c1, advice_energy); (c2, advice_transport);
          (c3, advice_air); (c4, advice_diet);
          (c5, advice_recycling); (c6, advice_consumption);
          (c7, advice_digital);
          (negb (c1 || c2 || c3 || c4 || c5 || c6 || c7), fallback);
          (c8, warning)]) ->
  (1 <=? length recommendations)%nat && (length recommendations <=? 8)%nat
  && bool_decide (NoDup recommendations)
  && Bool.eqb (listed recommendations fallback)
              (negb (existsb (listed recommendations) advices))
  && Bool.eqb c8 (listed recommendations warning) = true.
Proof.
  intros ->. destruct c1, c2, c3, c4, c5, c6, c7, c8; vm_compute; reflexivity.
Qed.

(** X18.  For a form whose numeric fields convert to numbers,
    [generateRecommendations] returns between one and eight
    recommendations, none of them twice.  The fallback
    [Maintain your sustainable lifestyle!] is among them exactly when none
    of the seven pieces of advice is, and the warning about a high
    footprint exactly when the emission score is above 1000 - also next to
    the fallback. *)
Theorem recommendations_never_empty (props : list (string * value))
    (emissionScore : option value) :
  converts (lookup "vehicleMonthlyKm" props) = true ->
  converts (lookup "wasteBagWeeklyCount" props) = true ->
  converts (lookup "newClothesMonthly" props) = true ->
  converts (lookup "tvPcHoursDaily" props) = true ->
  converts (lookup "internetHoursDaily" props) = true ->
  converts emissionScore = true ->
  exists recommendations,
    generateRecommendations (JObject props) emissionScore
    = Normal recommendations
    /\ (1 <= length recommendations <= 8)%nat
    /\ NoDup recommendations
    /\ listed recommendations fallback
       = negb (existsb (listed recommendations) advices)
    /\ greater emissionScore 1000
       = Normal (listed recommendations warning).
Proof.
  intros H2 H6a H6b H7a H7b H8.
  destruct (generateRecommendations_conditions props emissionScore
              H2 H6a H6b H7a H7b H8)
    as (c1 & c2 & c3 & c4 & c5 & c6 & c7 & c8 & E8 & Hgen).
  match type of Hgen with
  | _ = Normal ?l => remember l as recommendations eqn:Hrecs
  end.
  pose proof (built_list_checked c1 c2 c3 c4 c5 c6 c7 c8 recommendations Hrecs)
    as H.
  apply andb_true_iff in H as [H Hw]. apply andb_true_iff in H as [H Hf].
  apply andb_true_iff in H as [H Hd]. apply andb_true_iff in H as [Hl Hu].
  apply Nat.leb_le in Hl, Hu. apply bool_decide_eq_true_1 in Hd.
  apply Bool.eqb_prop in Hf, Hw.
  exists recommendations. rewrite E8, <- Hw. repeat split; assumption.
Qed.

(** The form as it is before any input, and no prediction. *)
Lemma recommendations_never_empty_witness :
  exists recommendations,
    generateRecommendations empty_form None = Normal recommendations
    /\ (1 <= length recommendations <= 8)%nat
    /\ NoDup recommendations
    /\ listed recommendations fallback
       = negb (existsb (listed recommendations) advices)
    /\ greater None 1000 = Normal (listed recommendations warning).
Proof.
  exact (recommendations_never_empty
           [("bodyType", JString EmptyString); ("sex", JString EmptyString);
            ("diet", JString EmptyString);
            ("showerFrequency", JString EmptyString);
            ("heatingEnergy", JString EmptyString);
            ("transport", JString EmptyString);
            ("vehicleType", JString EmptyString);
            ("socialActivity", JString EmptyString);
            ("monthlyGroceryBill", JNumber (of_Z 0));
            ("airTravelFrequency", JString EmptyString);
            ("vehicleMonthlyKm", JNumber (of_Z 0));
            ("wasteBagSize", JString EmptyString);
            ("wasteBagWeeklyCount", JNumber (of_Z 0));
            ("tvPcHoursDaily", JNumber (of_Z 0));
            ("newClothesMonthly", JNumber (of_Z 0));
            ("internetHoursDaily", JNumber (of_Z 0));
            ("energyEfficiency", JString EmptyString);
            ("recycling", JArray []); ("cookingWith", JArray [])]
           None eq_refl eq_refl eq_refl eq_refl eq_refl eq_refl).
Defined.

(** *** The status of a prediction *)

Lemma less_converts v c :
  converts v = true -> exists b, less v c = Normal b.
Proof.
  unfold converts, less. intros H. apply negb_true_iff in H.
  destruct v as [v|]; cbn [ToString_throws ToNumber] in *;
    [rewrite H|]; step; eauto.
Qed.

(** X19.  The status computed for a prediction that converts to a number
    is one of [Low], [Moderate] and [High], so the result card always
    finds a colour for it: the grey of the default branch of
    [getStatusColor] is never used for a status of the route. *)
Theorem status_has_a_color (emission : option value) :
  converts emission = true ->
  exists status,
    status_of emission = Normal status
    /\ In status ["Low"; "Moderate"; "High"]
    /\ In (getStatusColor status)
         ["bg-green-100 text-green-800 border-green-300";
          "bg-yellow-100 text-yellow-800 border-yellow-300";
          "bg-red-100 text-red-800 border-red-300"].
Proof.
  intros H. unfold status_of.
  destruct (less_converts emission 50 H) as [[] ->];
    rewrite bind_Normal; cbn beta iota;
    [exists "Low"; split; [reflexivity|]; split; vm_compute; auto|].
  destruct (less_converts emission 100 H) as [[] ->];
    rewrite bind_Normal; cbn beta iota;
    [exists "Moderate"|exists "High"];
    (split; [reflexivity|]; split; vm_compute; auto).
Qed.

(** A prediction of 72.5. *)
Lemma status_has_a_color_witness :
  exists status,
    status_of (Some (JNumber (StringToNumber "72.5"))) = Normal status
    /\ In status ["Low"; "Moderate"; "High"]
    /\ In (getStatusColor status)
         ["bg-green-100 text-green-800 border-green-300";
          "bg-yellow-100 text-yellow-800 border-yellow-300";
          "bg-red-100 text-red-800 border-red-300"].
Proof.
  exact (status_has_a_color (Some (JNumber (StringToNumber "72.5"))) eq_refl).
Defined.

Lemma bind_inv {A B} (m : Completion A) (k : A -> Completion B) r :
  (m ≫= k) = Normal r -> exists a, m = Normal a /\ k a = Normal r.
Proof. destruct m as [a|e]; [eauto|discriminate]. Qed.

Lemma listed_app l t x :
  listed (l ++ [t]) x = listed l x || String.eqb x t.
Proof.
  unfold listed. rewrite existsb_app. cbn [existsb]. now rewrite orb_false_r.
Qed.

(** A push of another text does not bring [x] in. *)
Lemma push_if_other c t l r x :
  push_if c t l = Normal r -> String.eqb x t = false ->
  listed r x = listed l x.
Proof.
  unfold push_if. intros (b & _ & H)%bind_inv Hx.
  rewrite mret_Normal in H. injection H as <-.
  destruct b; [|reflexivity].
  now rewrite listed_app, Hx, orb_false_r.
Qed.

(** X20.  A prediction that is not a number - the field is missing from
    the response of the model server, or holds a string that is no
    numeral - is given the status [High], since both comparisons with it
    are false; and yet it brings no warning about a high footprint, since
    the comparison with 1000 is false as well. *)
Theorem missing_prediction_is_high (formData : value)
    (emissionScore : option value) (recommendations : list string) :
  ToNumber emissionScore = Normal NaN ->
  generateRecommendations formData emissionScore = Normal recommendations ->
  status_of emissionScore = Normal "High"
  /\ listed recommendations warning = false.
Proof.
  intros HN Hgen. split.
  - unfold status_of, less. now rewrite HN.
  - unfold generateRecommendations in Hgen.
    apply bind_inv in Hgen as (r1 & H1 & Hgen).
    apply bind_inv in Hgen as (r2 & H2 & Hgen).
    apply bind_inv in Hgen as (r3 & H3 & Hgen).
    apply bind_inv in Hgen as (r4 & H4 & Hgen).
    apply bind_inv in Hgen as (r5 & H5 & Hgen).
    apply bind_inv in Hgen as (r6 & H6 & Hgen).
    apply bind_inv in Hgen as (r7 & H7 & Hgen).
    apply bind_inv in Hgen as (r8 & H8 & Hgen).
    unfold greater in Hgen. rewrite HN in Hgen.
    rewrite bind_Normal, mret_Normal in Hgen. cbn beta in Hgen.
    change (ltb (of_Z 1000) NaN) with false in Hgen.
    rewrite push_if_normal in Hgen. injection Hgen as <-.
    rewrite (push_if_other _ _ _ _ warning H8 eq_refl).
    rewrite (push_if_other _ _ _ _ warning H7 eq_refl).
    rewrite (push_if_other _ _ _ _ warning H6 eq_refl).
    rewrite (push_if_other _ _ _ _ warning H5 eq_refl).
    rewrite (push_if_other _ _ _ _ warning H4 eq_refl).
    rewrite (push_if_other _ _ _ _ warning H3 eq_refl).
    rewrite (push_if_other _ _ _ _ warning H2 eq_refl).
    now rewrite (push_if_other _ _ _ _ warning H1 eq_refl).
Qed.

(** The form as it is before any input, and a response of the model
    server without the field [predicted_carbon_emission]. *)
Lemma missing_prediction_is_high_witness :
  status_of None = Normal "High"
  /\ listed [advice_energy; advice_air; advice_recycling] warning = false.
Proof.
  exact (missing_prediction_is_high empty_form None
           [advice_energy; advice_air; advice_recycling] eq_refl eq_refl).
Defined.

End PredictFacts.

(** ** The multi-select and the page of the carbon-footprint app *)

Module FormFacts.

Import Json Scenario.

Section Toggle.

Import MultiSelect.

Variable value : string.

Lemma includes_app selected x other :
  includes (selected ++ [x]) other
  = includes selected other || String.eqb other x.
Proof.
  unfold includes. rewrite existsb_app. cbn [existsb]. now rewrite orb_false_r.
Qed.

Lemma includes_filter selected other :
  includes (List.filter (fun item => negb (String.eqb item value)) selected)
           other
  = includes selected other && negb (String.eqb other value).
Proof.
  unfold includes. induction selected as [|item rest IH]; [reflexivity|].
  cbn [List.filter existsb].
  destruct (String.eqb item value) eqn:Ei; cbn [negb existsb]; rewrite IH.
  - apply String.eqb_eq in Ei. subst item.
    destruct (String.eqb other value); [|reflexivity].
    cbn [orb negb]. now rewrite andb_false_r.
  - destruct (String.eqb other item) eqn:Eo; [|reflexivity].
    apply String.eqb_eq in Eo. subst item. rewrite Ei. reflexivity.
Qed.

Lemma filter_absent selected :
  includes selected value = false ->
  List.filter (fun item => negb (String.eqb item value)) selected = selected.
Proof.
  unfold includes. induction selected as [|item rest IH]; [reflexivity|].
  cbn [existsb List.filter]. intros [Hi Hrest]%orb_false_iff.
  rewrite String.eqb_sym in Hi. rewrite Hi. cbn [negb]. now rewrite IH.
Qed.

Lemma handleToggle_flips_aux (selected : list string) :
  includes (handleToggle selected value) value = negb (includes selected value).
Proof.
  unfold handleToggle. destruct (includes selected value) eqn:E.
  - rewrite includes_filter, String.eqb_refl. apply andb_false_r.
  - rewrite includes_app, String.eqb_refl. apply orb_true_r.
Qed.

(** X21.  [handleToggle] flips whether the value is selected, and leaves
    every other value selected or not as it was. *)
Theorem handleToggle_flips (selected : list string) (other : string) :
  includes (handleToggle selected value) other
  = if String.eqb other value then negb (includes selected value)
    else includes selected other.
Proof.
  unfold handleToggle. destruct (includes selected value) eqn:E.
  - rewrite includes_filter.
    destruct (String.eqb other value); cbn [negb];
      [apply andb_false_r|apply andb_true_r].
  - rewrite includes_app.
    destruct (String.eqb other value) eqn:Eo; cbn [negb].
    + apply orb_true_r.
    + apply orb_false_r.
Qed.

(** X22.  [handleToggle] keeps a selection free of duplicates.
    Toggling a value twice gives the selection back when the value was not
    selected; when it was, the value ends up as the last of the
    selection. *)
Theorem handleToggle_twice (selected : list string) :
  NoDup selected ->
  NoDup (handleToggle selected value)
  /\ handleToggle (handleToggle selected value) value
     = if includes selected value
       then List.filter (fun item => negb (String.eqb item value)) selected
            ++ [value]
       else selected.
Proof.
  intros Hnd. split.
  - unfold handleToggle. destruct (includes selected value) eqn:E.
    + apply NoDup_ListNoDup, List.NoDup_filter, NoDup_ListNoDup, Hnd.
    + apply NoDup_app. split; [exact Hnd|]. split; [|apply NoDup_singleton].
      intros x Hx ->%list_elem_of_singleton.
      unfold includes in E.
      assert (existsb (String.eqb value) selected = true) as Ht.
      { apply existsb_exists. exists value. split;
          [now apply list_elem_of_In|apply String.eqb_refl]. }
      congruence.
  - pose proof (handleToggle_flips_aux selected) as Hflip.
    unfold handleToggle at 1. rewrite Hflip.
    destruct (includes selected value) eqn:E; cbn [negb].
    + unfold handleToggle. now rewrite E.
    + unfold handleToggle. rewrite E, List.filter_app.
      cbn [List.filter]. rewrite String.eqb_refl. cbn [negb].
      rewrite app_nil_r. now apply filter_absent.
Qed.

End Toggle.

(** A selection of two, and the second toggled. *)
Lemma handleToggle_twice_witness :
  NoDup (MultiSelect.handleToggle ["plastic"; "paper"] "paper")
  /\ MultiSelect.handleToggle
       (MultiSelect.handleToggle ["plastic"; "paper"] "paper") "paper"
     = ["plastic"; "paper"].
Proof.
  apply (handleToggle_twice "paper" ["plastic"; "paper"]).
  apply (bool_decide_unpack _). vm_compute. exact I.
Defined.

(** *** The form *)

Section Change.

Import CarbonForm.

Variables (field : string) (v : value).

Lemma lookup_absent key props :
  has_key key props = false -> lookup key props = None.
Proof.
  unfold has_key. induction props as [|[k x] rest IH]; [reflexivity|].
  cbn [existsb lookup fst]. intros [Hk Hrest]%orb_false_iff.
  now rewrite (IH Hrest), Hk.
Qed.

Lemma has_key_elem key props :
  has_key key props = true <-> key ∈ map fst props.
Proof.
  unfold has_key. rewrite existsb_exists, list_elem_of_fmap. split.
  - intros (kv & Hin & Hk). apply String.eqb_eq in Hk. exists kv.
    split; [now symmetry|now apply list_elem_of_In].
  - intros (kv & Hk & Hin). exists kv.
    split; [now apply list_elem_of_In|]. subst key. apply String.eqb_refl.
Qed.

Lemma handleChange_keys prev :
  map fst (handleChange field v prev)
  = if has_key field prev then map fst prev else map fst prev ++ [field].
Proof.
  unfold has_key. induction prev as [|[k old] rest IH]; [reflexivity|].
  cbn [handleChange existsb fst].
  destruct (String.eqb k field) eqn:E; cbn [map fst orb]; [reflexivity|].
  rewrite IH. now destruct (existsb _ rest).
Qed.

Lemma handleChange_lookup prev other :
  NoDup (map fst prev) ->
  lookup other (handleChange field v prev)
  = if String.eqb other field then Some v else lookup other prev.
Proof.
  induction prev as [|[k old] rest IH]; intros Hnd.
  - cbn [handleChange lookup]. rewrite (String.eqb_sym field other).
    now destruct (String.eqb other field).
  - cbn [map fst] in Hnd. apply NoDup_cons in Hnd as [Hk Hnd].
    cbn [handleChange]. destruct (String.eqb k field) eqn:E.
    + apply String.eqb_eq in E. subst k. cbn [lookup].
      assert (lookup field rest = None) as Hnone.
      { apply lookup_absent. destruct (has_key field rest) eqn:Hh;
          [|reflexivity]. now apply has_key_elem in Hh. }
      destruct (String.eqb other field) eqn:Eo.
      * apply String.eqb_eq in Eo. subst other.
        now rewrite Hnone, String.eqb_refl.
      * rewrite (String.eqb_sym field other), Eo. reflexivity.
    + cbn [lookup]. rewrite (IH Hnd).
      destruct (String.eqb other field); reflexivity.
Qed.

End Change.

(** X26.  Whatever fields of the form are changed, and in whatever
    order, the form keeps the properties of its initial state, in their
    order and once each; a change gives the field its new value and
    leaves every other field as it was. *)
Theorem form_keeps_its_shape (changes : list (string * value)) :
  Forall (fun change => has_key (fst change) CarbonForm.initialFormData = true)
         changes ->
  map fst (fold_left (fun form change =>
                        CarbonForm.handleChange (fst change) (snd change) form)
                     changes CarbonForm.initialFormData)
  = map fst CarbonForm.initialFormData
  /\ forall field v other,
       lookup other
         (CarbonForm.handleChange field v
            (fold_left (fun form change =>
                          CarbonForm.handleChange (fst change) (snd change) form)
                       changes CarbonForm.initialFormData))
       = if String.eqb other field then Some v
         else lookup other
                (fold_left (fun form change =>
                              CarbonForm.handleChange (fst change) (snd change)
                                                      form)
                           changes CarbonForm.initialFormData).
Proof.
  intros Hchanges.
  assert (forall form,
            map fst form = map fst CarbonForm.initialFormData ->
            map fst (fold_left (fun form change =>
                                  CarbonForm.handleChange (fst change)
                                                          (snd change) form)
                               changes form)
            = map fst CarbonForm.initialFormData) as Hkeys.
  { induction Hchanges as [|[field v] changes Hfield _ IH]; intros form Hform;
      [exact Hform|].
    cbn [fold_left fst snd]. apply IH.
    rewrite handleChange_keys.
    assert (has_key field form = true) as ->; [|exact Hform].
    apply has_key_elem. rewrite Hform. now apply has_key_elem. }
  split; [now apply Hkeys|].
  intros field v other. apply handleChange_lookup.
  rewrite (Hkeys _ eq_refl).
  apply (bool_decide_unpack _). vm_compute. exact I.
Qed.

(** The diet and the recycling are chosen. *)
Lemma form_keeps_its_shape_witness :
  map fst (CarbonForm.handleChange "recycling" (JArray [JString "paper"])
             (CarbonForm.handleChange "diet" (JString "omnivore")
                                      CarbonForm.initialFormData))
  = map fst CarbonForm.initialFormData
  /\ forall field v other,
       lookup other
         (CarbonForm.handleChange field v
            (CarbonForm.handleChange "recycling" (JArray [JString "paper"])
               (CarbonForm.handleChange "diet" (JString "omnivore")
                                        CarbonForm.initialFormData)))
       = if String.eqb other field then Some v
         else lookup other
                (CarbonForm.handleChange "recycling" (JArray [JString "paper"])
                   (CarbonForm.handleChange "diet" (JString "omnivore")
                                            CarbonForm.initialFormData)).
Proof.
  apply (form_keeps_its_shape
           [("diet", JString "omnivore");
            ("recycling", JArray [JString "paper"])]).
  repeat constructor.
Defined.

(** *** The page *)

Import Enviro.

(** X23.  [handleFormSubmit] sends the form as it is to [/api/predict],
    once, and ends with the loading flag off.  When the request fails, or
    the response is not JSON, the results held before stay as they were:
    a result card that was shown is still shown, and nothing tells of the
    failure. *)
Theorem failed_submit_keeps_results (fetch : Page.Fetch) (formData : value)
    (st : HomeState) :
  (exists e, fetch "/api/predict" formData = Throw e)
  \/ (exists response e,
        fetch "/api/predict" formData = Normal response
        /\ Http.json response = Throw e) ->
  results (handleFormSubmit fetch formData st) = results st
  /\ card_shown (handleFormSubmit fetch formData st) = card_shown st
  /\ isLoading (handleFormSubmit fetch formData st) = false
  /\ requests (handleFormSubmit fetch formData st)
     = requests st ++ [("/api/predict", formData)].
Proof.
  intros H. unfold handleFormSubmit, card_shown.
  destruct H as [[e ->]|(response & e & -> & ->)]; repeat split.
Qed.

(** The server answers with an HTML page while a result is on display. *)
Lemma failed_submit_keeps_results_witness :
  results (handleFormSubmit server_error_page empty_form page_with_footprint)
  = footprint
  /\ card_shown (handleFormSubmit server_error_page empty_form
                   page_with_footprint)
     = true
  /\ isLoading (handleFormSubmit server_error_page empty_form
                  page_with_footprint)
     = false
  /\ requests (handleFormSubmit server_error_page empty_form
                 page_with_footprint)
     = [("/api/predict", empty_form)].
Proof.
  apply (failed_submit_keeps_results server_error_page empty_form
           page_with_footprint).
  right. eexists. eexists. split; reflexivity.
Defined.

End FormFacts.

(** ** Numerals as coordinates *)

Module CoercionFacts.

Import Chars StringFacts IntegerFacts Json Route Scenario RouteFacts.

Lemma rev_app_rev_app a : forall b c,
  String.rev_app (String.rev_app a b) c = String.rev_app b (a +:+ c).
Proof.
  induction a as [|x a IH]; intros b c; [now rewrite app_nil|].
  cbn [String.rev_app]. rewrite IH. cbn [String.rev_app].
  now rewrite app_cons.
Qed.

Lemma rev_involutive a : String.rev (String.rev a) = a.
Proof.
  unfold String.rev. rewrite rev_app_rev_app. cbn [String.rev_app].
  apply app_empty_r.
Qed.

Lemma all_chars_rev_app p a : forall b,
  all_chars p (String.rev_app a b) = all_chars p a && all_chars p b.
Proof.
  induction a as [|x a IH]; intros b; [reflexivity|].
  cbn [String.rev_app all_chars]. rewrite IH. cbn [all_chars].
  destruct (p x), (all_chars p a), (all_chars p b); reflexivity.
Qed.

Lemma trimStart_clean s :
  all_chars (fun c => negb (is_whitespace c)) s = true -> trimStart s = s.
Proof.
  destruct s as [|c s]; [reflexivity|]. cbn [all_chars trimStart].
  intros [Hc _]%andb_true_iff. apply negb_true_iff in Hc. now rewrite Hc.
Qed.

(** A string without white space is its own [trim]. *)
Lemma trim_clean s :
  all_chars (fun c => negb (is_whitespace c)) s = true -> trim s = s.
Proof.
  intros H. unfold trim, trimEnd. rewrite (trimStart_clean s H).
  rewrite trimStart_clean; [apply rev_involutive|].
  unfold String.rev. rewrite all_chars_rev_app, H. reflexivity.
Qed.

Lemma digit_plain c :
  is_digit c = true ->
  negb (is_whitespace c) = true
  /\ Ascii.eqb c "x" || Ascii.eqb c "X" = false
  /\ Ascii.eqb c "o" || Ascii.eqb c "O" = false
  /\ Ascii.eqb c "b" || Ascii.eqb c "B" = false
  /\ (forall s, String.eqb (String c s) "Infinity" = false)
  /\ (forall s, read_sign (String c s) = (false, String c s)).
Proof.
  destruct c as [[] [] [] [] [] [] [] []]; intros H;
    try discriminate H; repeat split.
Qed.

Lemma decimal_clean z :
  0 <= z -> all_chars (fun c => negb (is_whitespace c)) (decimal z) = true.
Proof.
  intros Hz. destruct (decimal_digits z Hz) as (n & _ & Hall & _).
  eapply all_chars_impl; [|exact Hall].
  intros c Hc. now destruct (digit_plain c Hc).
Qed.

(** The literal of a non-negative integer. *)
Lemma StrUnsignedDecimalLiteral_decimal (neg : bool) z :
  0 <= z ->
  StrUnsignedDecimalLiteral neg (decimal z)
  = if z =? 0 then S754_zero neg else of_Z (cond_Zopp neg z).
Proof.
  intros Hz. unfold StrUnsignedDecimalLiteral.
  destruct (digits_decimal z Hz) as (n & Hn & ->).
  destruct (n + 0 =? 0) eqn:E; [apply Z.eqb_eq in E; lia|].
  cbn [read_exponent]. unfold round_decimal.
  replace (z * 10 ^ 0 + 0) with z by lia.
  destruct (z =? 0); [reflexivity|].
  replace (0 - 0) with 0 by lia. cbn [Z.leb Z.compare].
  now replace (z * 10 ^ 0) with z by lia.
Qed.

(** A literal that starts with a digit, and goes on with a digit if it
    goes on, is read as a decimal literal. *)
Lemma StringToNumber_digits c0 rest :
  trim (String c0 rest) = String c0 rest ->
  is_digit c0 = true ->
  match rest with
  | String c1 _ => is_digit c1 = true
  | EmptyString => True
  end ->
  StringToNumber (String c0 rest) = StrDecimalLiteral (String c0 rest).
Proof.
  intros Htrim H0 H1. unfold StringToNumber. rewrite Htrim.
  destruct rest as [|c1 r].
  - destruct c0 as [[] [] [] [] [] [] [] []]; reflexivity.
  - destruct (digit_plain c1 H1) as (_ & Hx & Ho & Hb & _).
    destruct c0 as [[] [] [] [] [] [] [] []]; try reflexivity.
    now rewrite Hx, Ho, Hb.
Qed.

(** [StringToNumber] reads the numeral of an integer back as the number
    nearest to that integer. *)
Lemma StringToNumber_decimal_int k : StringToNumber (decimal_int k) = of_Z k.
Proof.
  unfold decimal_int. destruct (k <? 0) eqn:E.
  - apply Z.ltb_lt in E. assert (0 <= - k) as Hk by lia.
    unfold StringToNumber. rewrite trim_clean.
    2:{ rewrite app_cons, app_nil. cbn [all_chars].
        now rewrite (decimal_clean _ Hk). }
    rewrite app_cons, app_nil. unfold StrDecimalLiteral. cbn [read_sign].
    destruct (decimal_nonempty _ Hk) as (c & s & Hd & Hc).
    destruct (digit_plain c Hc) as (_ & _ & _ & _ & Hinf & _).
    rewrite Hd at 1. rewrite Hinf.
    rewrite (StrUnsignedDecimalLiteral_decimal true _ Hk).
    destruct (- k =? 0) eqn:E0; [apply Z.eqb_eq in E0; lia|].
    cbn [cond_Zopp]. f_equal. lia.
  - apply Z.ltb_ge in E.
    destruct (decimal_nonempty _ E) as (c & s & Hd & Hc).
    destruct (digit_plain c Hc) as (_ & _ & _ & _ & Hinf & Hsign).
    pose proof (decimal_clean _ E) as Hclean.
    destruct (decimal_digits k E) as (n & _ & Hall & _).
    rewrite Hd in Hclean, Hall |- *.
    rewrite StringToNumber_digits; [|now apply trim_clean|exact Hc|].
    2:{ destruct s as [|c1 r]; [exact I|]. cbn [all_chars] in Hall.
        apply andb_true_iff in Hall as [_ Hall].
        now apply andb_true_iff in Hall as [Hc1 _]. }
    unfold StrDecimalLiteral. rewrite Hsign, Hinf, <- Hd.
    rewrite (StrUnsignedDecimalLiteral_decimal false _ E).
    destruct (k =? 0) eqn:E0; [apply Z.eqb_eq in E0; now subst k|].
    reflexivity.
Qed.

(** X24.  Integers typed into the four inputs as decimal numerals, with
    or without a minus sign, reach the bounding box as the numbers nearest
    to them (the integers themselves, up to [2^53] in magnitude): the
    route computes the box of those numbers from the request the page
    sends. *)
Theorem integer_inputs_read_back (a1 o1 a2 o2 : Z) (w : World) :
  normalize (Normal (coordinates (decimal_int a1) (decimal_int o1)
                                 (decimal_int a2) (decimal_int o2))) w
  = (Normal [Math_min [of_Z o1; of_Z o2]; Math_min [of_Z a1; of_Z a2];
             Math_max [of_Z o1; of_Z o2]; Math_max [of_Z a1; of_Z a2]], w).
Proof.
  apply (normalize_normal _
           (Some (JString (decimal_int a1))) (Some (JString (decimal_int o1)))
           (Some (JString (decimal_int a2))) (Some (JString (decimal_int o2))));
    try reflexivity;
    cbn [ToNumber toString_throws ToNumber_value];
    now rewrite StringToNumber_decimal_int.
Qed.

End CoercionFacts.
